(** * gpd-touch-fix: resume detection and adaptive repair

    A shallow embedding of the wake-detection core of the service
    (power_monitor.go: [PowerMonitor], [WakeEventPoller]; service.go:
    [handlePolledWake]; device_manager.go: [Reset]) together with the
    properties of its state machine.

    Conventions.  Go's [int], [int64] and [time.Duration] are 64-bit
    signed integers: they are embedded in [Z] and every operation that can
    leave the range is wrapped explicitly ([wrap64]).  A [time.Time] is an
    instant in nanoseconds relative to the Unix epoch.  Calls into the
    operating system (device status, idle time, the clock, the repair
    callback) are answered by an explicit environment record, and every
    function returns the trace of the calls it made. *)

From Stdlib Require Import ZArith NArith List String Bool Lia.
Import ListNotations.
Open Scope Z_scope.

(** ** Machine integers and time *)

Module GoInt.

Definition minInt64 : Z := - 2 ^ 63.
Definition maxInt64 : Z := 2 ^ 63 - 1.

(** Two's complement reduction of a mathematical integer to [int64]. *)
Definition wrap64 (z : Z) : Z := (z + 2 ^ 63) mod 2 ^ 64 - 2 ^ 63.

Definition inInt64 (z : Z) : Prop := minInt64 <= z <= maxInt64.

End GoInt.

Module GoTime.
Import GoInt.

Definition Time := Z.
Definition Duration := Z.

Definition Nanosecond : Duration := 1.
Definition Second : Duration := 1000000000.
Definition Minute : Duration := 60 * Second.

(** The zero value [time.Time{}]: January 1, year 1, 00:00 UTC. *)
Definition zeroTime : Time := - 62135596800 * Second.

(** [t.Sub(u)]: the difference, saturated to the range of [Duration]. *)
Definition Sub (t u : Time) : Duration :=
  let d := t - u in
  if d <? minInt64 then minInt64
  else if maxInt64 <? d then maxInt64
  else d.

(** [time.Since(u)] read at the instant [now]. *)
Definition Since (now u : Time) : Duration := Sub now u.

End GoTime.

(** ** Resume event channel (PowerMonitor) *)

Module PowerMonitor.
Import GoTime.

Record GUID := mkGUID {
  Data1 : Z;
  Data2 : Z;
  Data3 : Z;
  Data4 : list Z
}.

Fixpoint bytes_eqb (a b : list Z) : bool :=
  match a, b with
  | [], [] => true
  | x :: a', y :: b' => (x =? y) && bytes_eqb a' b'
  | _, _ => false
  end.

(** Go's [==] on the GUID struct: field by field. *)
Definition GUID_eqb (a b : GUID) : bool :=
  (Data1 a =? Data1 b) && (Data2 a =? Data2 b) && (Data3 a =? Data3 b)
  && bytes_eqb (Data4 a) (Data4 b).

Definition GUID_CONSOLE_DISPLAY_STATE : GUID :=
  mkGUID 0x6fe69556 0x704a 0x47a0 [0x8f; 0x24; 0xc2; 0x8d; 0x93; 0x6f; 0xda; 0x47].

Definition GUID_MONITOR_POWER_ON : GUID :=
  mkGUID 0x02731015 0x4510 0x4526 [0x99; 0xe6; 0xe5; 0xa1; 0x7e; 0xbd; 0x1a; 0xea].

Definition GUID_SYSTEM_AWAYMODE : GUID :=
  mkGUID 0x98a7f580 0x01f7 0x48aa [0x9c; 0x0f; 0x44; 0x35; 0x2c; 0x29; 0xe5; 0xc0].

Definition DisplayStateOff : Z := 0.
Definition DisplayStateDimmed : Z := 1.
Definition DisplayStateOn : Z := 2.

Definition PBT_POWERSETTINGCHANGE : Z := 0x8013.

(** The record behind [eventData]; [Data0] is [Data[0]]. *)
Record PowerBroadcastSetting := mkPBS {
  PowerSetting : GUID;
  DataLength : Z;
  Data0 : Z
}.

(** [callback] is [true] when the Go field is non-nil. *)
Record t := mk {
  callback : bool;
  lastDisplayState : Z;
  lastResumeTime : Time;
  minInterval : Duration
}.

Definition set_lastDisplayState (v : Z) (pm : t) : t :=
  mk (callback pm) v (lastResumeTime pm) (minInterval pm).

Definition set_lastResumeTime (v : Time) (pm : t) : t :=
  mk (callback pm) (lastDisplayState pm) v (minInterval pm).

(** What the monitor does to the outside: it starts the callback. *)
Inductive Event := EvCallback.

Definition NewPowerMonitor (cb : bool) : t :=
  mk cb DisplayStateOn zeroTime (5 * Second).

Definition triggerResume (now : Time) (pm : t) : t * bool * list Event :=
  if Sub now (lastResumeTime pm) <? minInterval pm then (pm, false, [])
  else (set_lastResumeTime now pm, true,
        if callback pm then [EvCallback] else []).

(** [eventData] is [None] for the null pointer. *)
Definition HandlePowerBroadcast (now : Time) (eventType : Z)
    (eventData : option PowerBroadcastSetting) (pm : t)
  : t * bool * list Event :=
  if negb (eventType =? PBT_POWERSETTINGCHANGE) then
    if (eventType =? 7) || (eventType =? 18) then triggerResume now pm
    else (pm, false, [])
  else
    match eventData with
    | None => (pm, false, [])
    | Some pbs =>
        if GUID_eqb (PowerSetting pbs) GUID_CONSOLE_DISPLAY_STATE
           || GUID_eqb (PowerSetting pbs) GUID_MONITOR_POWER_ON
        then
          let newState := Data0 pbs in
          let oldState := lastDisplayState pm in
          let pm' := set_lastDisplayState newState pm in
          if (oldState =? DisplayStateOff) && (newState =? DisplayStateOn)
          then triggerResume now pm'
          else (pm', false, [])
        else (pm, false, [])
    end.

Definition SimulateDisplayOff (pm : t) : t :=
  set_lastDisplayState DisplayStateOff pm.

(** *** The classification, in the words of the specification *)

Definition monitoredGUID (g : GUID) : bool :=
  GUID_eqb g GUID_CONSOLE_DISPLAY_STATE || GUID_eqb g GUID_MONITOR_POWER_ON.

(** A resume trigger is a legacy event of code 7 or 18, or a display-power
    setting change for a monitored GUID going from off (stored) to on. *)
Definition spec_isResumeTrigger (eventType : Z)
    (eventData : option PowerBroadcastSetting) (stored : Z) : bool :=
  if eventType =? PBT_POWERSETTINGCHANGE then
    match eventData with
    | Some pbs => monitoredGUID (PowerSetting pbs)
                  && (stored =? 0) && (Data0 pbs =? 2)
    | None => false
    end
  else (eventType =? 7) || (eventType =? 18).

(** The display state remembered after an event. *)
Definition storedAfter (eventType : Z)
    (eventData : option PowerBroadcastSetting) (pm : t) : t :=
  if eventType =? PBT_POWERSETTINGCHANGE then
    match eventData with
    | Some pbs => if monitoredGUID (PowerSetting pbs)
                  then set_lastDisplayState (Data0 pbs) pm else pm
    | None => pm
    end
  else pm.

Definition callbacks (evs : list Event) : nat := List.length evs.

End PowerMonitor.

(** ** Poll-based wake detector (WakeEventPoller) *)

Module WakeEventPoller.
Import GoInt GoTime.

Record PollerConfig := mkCfg {
  BaseRetryInterval : Duration;
  MaxRetryInterval : Duration;
  MaxRetryCount : Z
}.

(** [callback] is [true] when the Go field is non-nil; [stopChan] is
    [true] once the channel is closed; [pauseChan] is the content of the
    channel's one-slot buffer.  The logger and the mutex carry no state of
    interest. *)
Record t := mk {
  callback : bool;
  stopChan : bool;
  pauseChan : option bool;
  pollInterval : Duration;
  baseRetryInterval : Duration;
  maxRetryInterval : Duration;
  maxRetryCount : Z;
  lastStatus : string;
  pendingRepair : bool;
  lastRepairTime : Time;
  consecutiveFails : Z;
  currentInterval : Duration;
  deviceID : string;
  paused : bool
}.

Definition set_stopChan (v : bool) (p : t) : t :=
  mk (callback p) v (pauseChan p) (pollInterval p) (baseRetryInterval p)
     (maxRetryInterval p) (maxRetryCount p) (lastStatus p) (pendingRepair p)
     (lastRepairTime p) (consecutiveFails p) (currentInterval p) (deviceID p)
     (paused p).

Definition set_pauseChan (v : option bool) (p : t) : t :=
  mk (callback p) (stopChan p) v (pollInterval p) (baseRetryInterval p)
     (maxRetryInterval p) (maxRetryCount p) (lastStatus p) (pendingRepair p)
     (lastRepairTime p) (consecutiveFails p) (currentInterval p) (deviceID p)
     (paused p).

Definition set_lastStatus (v : string) (p : t) : t :=
  mk (callback p) (stopChan p) (pauseChan p) (pollInterval p)
     (baseRetryInterval p) (maxRetryInterval p) (maxRetryCount p) v
     (pendingRepair p) (lastRepairTime p) (consecutiveFails p)
     (currentInterval p) (deviceID p) (paused p).

Definition set_pendingRepair (v : bool) (p : t) : t :=
  mk (callback p) (stopChan p) (pauseChan p) (pollInterval p)
     (baseRetryInterval p) (maxRetryInterval p) (maxRetryCount p)
     (lastStatus p) v (lastRepairTime p) (consecutiveFails p)
     (currentInterval p) (deviceID p) (paused p).

Definition set_lastRepairTime (v : Time) (p : t) : t :=
  mk (callback p) (stopChan p) (pauseChan p) (pollInterval p)
     (baseRetryInterval p) (maxRetryInterval p) (maxRetryCount p)
     (lastStatus p) (pendingRepair p) v (consecutiveFails p)
     (currentInterval p) (deviceID p) (paused p).

Definition set_consecutiveFails (v : Z) (p : t) : t :=
  mk (callback p) (stopChan p) (pauseChan p) (pollInterval p)
     (baseRetryInterval p) (maxRetryInterval p) (maxRetryCount p)
     (lastStatus p) (pendingRepair p) (lastRepairTime p) v
     (currentInterval p) (deviceID p) (paused p).

Definition set_currentInterval (v : Duration) (p : t) : t :=
  mk (callback p) (stopChan p) (pauseChan p) (pollInterval p)
     (baseRetryInterval p) (maxRetryInterval p) (maxRetryCount p)
     (lastStatus p) (pendingRepair p) (lastRepairTime p)
     (consecutiveFails p) v (deviceID p) (paused p).

Definition set_paused (v : bool) (p : t) : t :=
  mk (callback p) (stopChan p) (pauseChan p) (pollInterval p)
     (baseRetryInterval p) (maxRetryInterval p) (maxRetryCount p)
     (lastStatus p) (pendingRepair p) (lastRepairTime p)
     (consecutiveFails p) (currentInterval p) (deviceID p) v.

(** Calls made to the outside, in the order they are made. *)
Inductive Event :=
| EvGetStatus
| EvGetIdleTime
| EvRepair
| EvSleep (d : Duration).

Definition isRepair (ev : Event) : bool :=
  match ev with EvRepair => true | _ => false end.

Definition isGetStatus (ev : Event) : bool :=
  match ev with EvGetStatus => true | _ => false end.

Definition repairs (evs : list Event) : nat :=
  List.length (filter isRepair evs).

Definition statusQueries (evs : list Event) : nat :=
  List.length (filter isGetStatus evs).

Definition NewWakeEventPoller (deviceID : string) (callback : bool)
    (cfg : option PollerConfig) : t :=
  let baseInterval := 60 * Second in
  let maxInterval := 10 * Minute in
  let maxRetry := 10 in
  let baseInterval :=
    match cfg with
    | Some c => if 0 <? BaseRetryInterval c then BaseRetryInterval c
                else baseInterval
    | None => baseInterval
    end in
  let maxInterval :=
    match cfg with
    | Some c => if 0 <? MaxRetryInterval c then MaxRetryInterval c
                else maxInterval
    | None => maxInterval
    end in
  let maxRetry :=
    match cfg with
    | Some c => if 0 <=? MaxRetryCount c then MaxRetryCount c else maxRetry
    | None => maxRetry
    end in
  mk callback false None (10 * Second) baseInterval maxInterval maxRetry
     EmptyString false zeroTime 0 baseInterval deviceID false.

(** Non-blocking send ([select] with [default]) on the one-slot channel. *)
Definition trySend (v : bool) (ch : option bool) : option bool :=
  match ch with
  | None => Some v
  | Some _ => ch
  end.

Definition Stop (p : t) : t := set_stopChan true p.

Definition Pause (p : t) : t :=
  if negb (paused p) then
    let p := set_paused true p in
    set_pauseChan (trySend true (pauseChan p)) p
  else p.

(** The second component tells whether the recheck goroutine is started. *)
Definition Resume (p : t) : t * bool :=
  if paused p then
    let p := set_paused false p in
    let p := set_pauseChan (trySend false (pauseChan p)) p in
    (p, pendingRepair p)
  else (p, false).

Definition IsPaused (p : t) : bool := paused p.

Definition ResetRetryState (p : t) : t :=
  set_currentInterval (baseRetryInterval p) (set_consecutiveFails 0 p).

Definition GetConsecutiveFails (p : t) : Z := consecutiveFails p.

Definition incrementFails (p : t) : t * bool :=
  let p := set_consecutiveFails (wrap64 (consecutiveFails p + 1)) p in
  if (0 <? maxRetryCount p) && (maxRetryCount p <=? consecutiveFails p)
  then (p, false)
  else
    let p := set_currentInterval (wrap64 (currentInterval p * 2)) p in
    let p := if maxRetryInterval p <? currentInterval p
             then set_currentInterval (maxRetryInterval p) p else p in
    (p, true).

Definition getCurrentInterval (p : t) : Duration := currentInterval p.

(** *** The goroutine started by [Resume] *)

(** First half: sleep, query the status once, decide.  The second
    component tells whether the callback is now run. *)
Definition recheckStatus (status : option string) (p : t)
  : t * bool * list Event :=
  let evs := [EvSleep (2 * Second); EvGetStatus] in
  match status with
  | Some s =>
      if negb (s =? "OK")%string then (p, callback p, evs)
      else (set_pendingRepair false p, false, evs)
  | None => (p, false, evs)
  end.

(** Second half: the callback has returned [success]. *)
Definition recheckRepaired (success : bool) (p : t) : t :=
  if success then ResetRetryState (set_pendingRepair false p) else p.

(** The goroutine run without interleaving. *)
Definition resumeRecheck (status : option string) (success : bool) (p : t)
  : t * list Event :=
  let '(p1, run, evs) := recheckStatus status p in
  if run then (recheckRepaired success p1, evs ++ [EvRepair])
  else (p1, evs).

(** *** The polling goroutine *)

(** The answers of the outside to one pass: the device status (or an
    error), the idle time in milliseconds (or an error), the clock when
    [time.Since] is evaluated, the result of the callback and the clock
    when it has returned. *)
Record TickEnv := mkEnv {
  envStatus : option string;
  envIdle : option N;
  envNow : Time;
  envSuccess : bool;
  envNowAfter : Time
}.

(** [p.callback()] followed by the bookkeeping of its result; the second
    component is the new value of [exceededMaxRetry]. *)
Definition repair (e : TickEnv) (exceeded : bool) (p : t)
  : t * bool * list Event :=
  if callback p then
    let p := set_lastRepairTime (envNowAfter e) p in
    if envSuccess e then (ResetRetryState p, exceeded, [EvRepair])
    else
      let '(p, continue) := incrementFails p in
      (p, if continue then exceeded else true, [EvRepair])
  else (p, exceeded, []).

(** The initial check of [poll]; the result of [incrementFails] is
    dropped there. *)
Definition pollStart (e : TickEnv) (p : t) : t * list Event :=
  match envStatus e with
  | Some status =>
      let p := set_lastStatus status p in
      if negb (status =? "OK")%string then
        let '(p, _, evs) := repair e false p in (p, EvGetStatus :: evs)
      else (p, [EvGetStatus])
  | None => (p, [EvGetStatus])
  end.

Definition idleSecOf (idle : option N) : Z :=
  match idle with
  | Some idleMs => Z.of_N (idleMs / 1000)
  | None => -1
  end.

(** Case 1 of the tick; [None] stands for [continue]. *)
Definition case1 (status : string) (idleSec : Z) (p : t) : t * option bool :=
  if negb (status =? "OK")%string && (lastStatus p =? "OK")%string then
    if (idleSec <? 0) || (300 <=? idleSec) then
      (set_lastStatus status (set_pendingRepair true p), None)
    else (ResetRetryState (set_pendingRepair false p), Some true)
  else (p, Some false).

(** Case 2 of the tick; [None] stands for [continue]. *)
Definition case2 (status : string) (idleSec : Z) (now : Time)
    (shouldRepair : bool) (p : t) : t * option bool :=
  if negb (status =? "OK")%string && negb (lastStatus p =? "OK")%string then
    let gate :=
      if pendingRepair p then
        if (0 <=? idleSec) && (idleSec <=? 60)
        then Some (ResetRetryState (set_pendingRepair false p), true)
        else None
      else
        if (0 <=? idleSec) && (60 <? idleSec) then None
        else Some (p, shouldRepair) in
    match gate with
    | None => (p, None)
    | Some (p, shouldRepair) =>
        let interval := getCurrentInterval p in
        if interval <? Since now (lastRepairTime p) then (p, Some true)
        else (p, Some shouldRepair)
    end
  else (p, Some shouldRepair).

(** One pass of the [ticker.C] case. *)
Definition pollTick (e : TickEnv) (p : t) (exceededMaxRetry : bool)
  : t * bool * list Event :=
  if IsPaused p then (p, exceededMaxRetry, [])
  else if exceededMaxRetry then
    match envStatus e with
    | Some status =>
        if (status =? "OK")%string
        then (set_lastStatus status (ResetRetryState p), false, [EvGetStatus])
        else (p, true, [EvGetStatus])
    | None => (p, true, [EvGetStatus])
    end
  else
    match envStatus e with
    | None => (p, false, [EvGetStatus])
    | Some status =>
        let p := if (status =? "OK")%string then set_pendingRepair false p else p in
        let idleSec := idleSecOf (envIdle e) in
        let evs := [EvGetStatus; EvGetIdleTime] in
        match case1 status idleSec p with
        | (p, None) => (p, false, evs)
        | (p, Some shouldRepair) =>
            match case2 status idleSec (envNow e) shouldRepair p with
            | (p, None) => (p, false, evs)
            | (p, Some shouldRepair) =>
                let '(p, exceeded, evs') :=
                  if shouldRepair then repair e false p else (p, false, [])
                in (set_lastStatus status p, exceeded, evs ++ evs')
            end
        end
    end.

(** *** The detector as a transition system *)

Inductive LoopMode :=
| NotStarted    (* [poll] has not run its initial check yet *)
| Running       (* in the outer [select] *)
| AwaitResume   (* in the inner [for]/[select] entered on a pause signal *)
| Returned.     (* [poll] has returned *)

(** [sleeping] counts the recheck goroutines that have not queried yet,
    [repairing] those waiting for the callback to return. *)
Record Sys := mkSys {
  poller : t;
  exceededMaxRetry : bool;
  mode : LoopMode;
  sleeping : nat;
  repairing : nat
}.

Inductive Action :=
| ActStart (e : TickEnv)
| ActTicker (e : TickEnv)
| ActPauseChan
| ActStopChan
| ActPause
| ActResume
| ActStop
| ActResetRetryState
| ActRecheckStatus (status : option string)
| ActRecheckRepaired (success : bool).

Definition initSys (p : t) : Sys := mkSys p false NotStarted 0 0.

(** One atomic step; [None] when the action is not enabled. *)
Definition sysStep (a : Action) (s : Sys) : option (Sys * list Event) :=
  let p := poller s in
  match a with
  | ActStart e =>
      match mode s with
      | NotStarted =>
          let '(p', evs) := pollStart e p in
          Some (mkSys p' false Running (sleeping s) (repairing s), evs)
      | _ => None
      end
  | ActTicker e =>
      match mode s with
      | Running =>
          let '(p', ex, evs) := pollTick e p (exceededMaxRetry s) in
          Some (mkSys p' ex Running (sleeping s) (repairing s), evs)
      | _ => None
      end
  | ActPauseChan =>
      match pauseChan p, mode s with
      | Some v, Running =>
          Some (mkSys (set_pauseChan None p) (exceededMaxRetry s)
                      (if v then AwaitResume else Running)
                      (sleeping s) (repairing s), [])
      | Some _, AwaitResume =>
          (* [break] leaves the [select] only: the wait goes on *)
          Some (mkSys (set_pauseChan None p) (exceededMaxRetry s)
                      AwaitResume (sleeping s) (repairing s), [])
      | _, _ => None
      end
  | ActStopChan =>
      match mode s with
      | Running | AwaitResume =>
          if stopChan p
          then Some (mkSys p (exceededMaxRetry s) Returned
                           (sleeping s) (repairing s), [])
          else None
      | _ => None
      end
  | ActPause =>
      Some (mkSys (Pause p) (exceededMaxRetry s) (mode s)
                  (sleeping s) (repairing s), [])
  | ActResume =>
      let '(p', spawn) := Resume p in
      Some (mkSys p' (exceededMaxRetry s) (mode s)
                  (if spawn then S (sleeping s) else sleeping s)
                  (repairing s), [])
  | ActStop =>
      Some (mkSys (Stop p) (exceededMaxRetry s) (mode s)
                  (sleeping s) (repairing s), [])
  | ActResetRetryState =>
      Some (mkSys (ResetRetryState p) (exceededMaxRetry s) (mode s)
                  (sleeping s) (repairing s), [])
  | ActRecheckStatus status =>
      match sleeping s with
      | S n =>
          let '(p', run, evs) := recheckStatus status p in
          Some (mkSys p' (exceededMaxRetry s) (mode s) n
                      (if run then S (repairing s) else repairing s),
                if run then evs ++ [EvRepair] else evs)
      | O => None
      end
  | ActRecheckRepaired success =>
      match repairing s with
      | S n =>
          Some (mkSys (recheckRepaired success p) (exceededMaxRetry s)
                      (mode s) (sleeping s) n, [])
      | O => None
      end
  end.

Fixpoint sysRun (acts : list Action) (s : Sys) : option (Sys * list Event) :=
  match acts with
  | [] => Some (s, [])
  | a :: acts' =>
      match sysStep a s with
      | Some (s', evs) =>
          match sysRun acts' s' with
          | Some (s'', evs') => Some (s'', evs ++ evs')
          | None => None
          end
      | None => None
      end
  end.

(** The actions of the polling goroutine's [select]. *)
Definition isLoopAction (a : Action) : bool :=
  match a with
  | ActTicker _ | ActPauseChan | ActStopChan => true
  | _ => false
  end.

(** *** The idle-time gates, in the words of the specification *)

(** Idle time unknown or at least 300 seconds: the failure is deferred. *)
Definition deferredIdle (idle : option N) : Prop :=
  idle = None \/ exists ms, idle = Some ms /\ (300000 <= ms)%N.

(** Idle time known and below 300 seconds: the system is active. *)
Definition activeIdle (idle : option N) : Prop :=
  exists ms, idle = Some ms /\ (ms < 300000)%N.

(** The gate of case 2 read as "the idle time is at most 60 seconds": a
    sustained-error tick without pending repair runs a repair only when
    the idle time is known to be at most 60 whole seconds, and only when
    more than the current interval has passed since the last repair. *)
Definition repairOnlyWhenIdleAtMost60 : Prop :=
  forall (e : TickEnv) (p p' : t) (status : string) (ex : bool)
         (evs : list Event),
    paused p = false ->
    envStatus e = Some status ->
    status <> "OK"%string ->
    lastStatus p <> "OK"%string ->
    pendingRepair p = false ->
    pollTick e p false = (p', ex, evs) ->
    repairs evs <> 0%nat ->
    (exists ms, envIdle e = Some ms /\ (ms / 1000 <= 60)%N) /\
    currentInterval p < Since (envNow e) (lastRepairTime p).

(** Idle time unknown, or at most 60 whole seconds. *)
Definition retryIdle (idle : option N) : Prop :=
  idle = None \/ exists ms, idle = Some ms /\ (ms / 1000 <= 60)%N.

(** Actions that leave [paused] set: everything but [Resume], the
    goroutine it starts and the initial check of [poll]. *)
Definition keepsPaused (a : Action) : bool :=
  match a with
  | ActTicker _ | ActPauseChan | ActStopChan
  | ActPause | ActStop | ActResetRetryState => true
  | ActStart _ | ActResume
  | ActRecheckStatus _ | ActRecheckRepaired _ => false
  end.

(** *** The backoff interval *)

(** The retry bounds of [p] are those fixed at construction ([lo], [hi])
    and its current interval lies between them. *)
Definition intervalInv (lo hi : Duration) (p : t) : Prop :=
  baseRetryInterval p = lo /\ maxRetryInterval p = hi /\
  lo <= currentInterval p <= hi.

(** A failure has brought [consecutiveFails] to [maxRetryCount]: the test
    of [incrementFails], on the count after its increment. *)
Definition reachedMaxRetry (q : t) : bool :=
  (0 <? maxRetryCount q) && (maxRetryCount q <=? consecutiveFails q).

(** The retry state [q] left by a repair of the polling goroutine, when the
    callback ran with the interval [c] in force: a success puts the interval
    back to [lo] and the count to 0; a failure that reaches [maxRetryCount]
    leaves the interval at [c], any other failure doubles it up to [hi]. *)
Definition afterRepair (lo hi : Duration) (success : bool) (c : Duration)
    (q : t) : Prop :=
  if success then currentInterval q = lo /\ consecutiveFails q = 0
  else currentInterval q
       = if reachedMaxRetry q then c else Z.min (c * 2) hi.

(** The interval in force when a tick runs its repair: the tick has reset
    the retry state before it when the stored status was OK or a repair
    was pending. *)
Definition intervalAtRepair (lo : Duration) (p : t) : Duration :=
  if (lastStatus p =? "OK")%string || pendingRepair p then lo
  else currentInterval p.

(** The interval invariant with no other assumption than ordered bounds. *)
Definition intervalAlwaysWithinBounds : Prop :=
  forall (deviceID : string) (cb : bool) (cfg : option PollerConfig)
         (acts : list Action) (s : Sys) (evs : list Event),
    let p0 := NewWakeEventPoller deviceID cb cfg in
    baseRetryInterval p0 <= maxRetryInterval p0 ->
    sysRun acts (initSys p0) = Some (s, evs) ->
    baseRetryInterval p0 <= currentInterval (poller s) <= maxRetryInterval p0.

(** "The interval doubles, up to the maximum, on each repair failure",
    overflow apart. *)
Definition failureAlwaysDoubles : Prop :=
  forall p : t,
    0 < currentInterval p <= maxRetryInterval p ->
    maxRetryInterval p < 2 ^ 62 ->
    currentInterval (fst (incrementFails p)) =
      Z.min (currentInterval p * 2) (maxRetryInterval p).

End WakeEventPoller.

(** ** Device repair protocol (DeviceManager) *)

Module DeviceManager.
Import GoTime.

Inductive Event :=
| EvGetStatus
| EvDisable
| EvEnable
| EvSleep (d : Duration).

(** Errors of the protocol, by the step that raised them; a failed
    [Disable] tells whether it was a matter of privilege. *)
Inductive Error :=
| ErrDisable (needsAdmin : bool)
| ErrEnable.

(** The answers of the system to one [Reset]: the two status queries that
    are only logged, and the failure (if any) of the two commands. *)
Record ResetEnv := mkResetEnv {
  envInitial : option string;
  envDisable : option bool;
  envEnable : bool;
  envFinal : option string
}.

Definition Disable (e : ResetEnv) : option Error :=
  match envDisable e with
  | Some needsAdmin => Some (ErrDisable needsAdmin)
  | None => None
  end.

Definition Enable (e : ResetEnv) : option Error :=
  if envEnable e then None else Some ErrEnable.

(** [Reset]: disable, wait, enable.  It returns [None] for [nil]; the
    statuses it reads are logged and decide nothing. *)
Definition Reset (waitDuration : Duration) (e : ResetEnv)
  : option Error * list Event :=
  match Disable e with
  | Some err => (Some err, [EvGetStatus; EvDisable])
  | None =>
      match Enable e with
      | Some err =>
          (Some err, [EvGetStatus; EvDisable; EvSleep waitDuration; EvEnable])
      | None =>
          (None, [EvGetStatus; EvDisable; EvSleep waitDuration; EvEnable;
                  EvGetStatus])
      end
  end.

End DeviceManager.

(** ** Repair orchestrator (gpdTouchService) *)

Module Service.
Import GoInt GoTime.

Record Config := mkConfig {
  DeviceInstanceID : string;
  DeviceName : string;
  WaitSeconds : Z;
  ResumeDelaySeconds : Z
}.

(** Calls to the collaborators: statistics, notifier, the clock and the
    device.  The texts passed along with them are left out. *)
Inductive Event :=
| EvRecordResume
| EvRecordSkip
| EvRecordReset (success : bool)
| EvNotifyResumeResult (fixed skipped : bool) (deviceName : string)
                       (failed : bool)
| EvSleep (d : Duration)
| EvGetStatus
| EvReset (waitDuration : Duration) (calls : list DeviceManager.Event).

(** The answers of the device to one run of [handlePolledWake]. *)
Record WakeEnv := mkWakeEnv {
  envPre : option string;
  envReset : DeviceManager.ResetEnv;
  envVerify : option string
}.

Definition isReset (ev : Event) : bool :=
  match ev with EvReset _ _ => true | _ => false end.

Definition resets (evs : list Event) : nat := List.length (filter isReset evs).

(** ASCII case folding, for running the model: [strings.EqualFold]
    restricted to the letters A-Z and a-z. *)
Definition foldByte (c : Ascii.ascii) : N :=
  let n := Ascii.N_of_ascii c in
  if ((97 <=? n) && (n <=? 122))%N then (n - 32)%N else n.

Fixpoint asciiEqualFold (s u : string) : bool :=
  match s, u with
  | EmptyString, EmptyString => true
  | String a s', String b u' =>
      (foldByte a =? foldByte b)%N && asciiEqualFold s' u'
  | _, _ => false
  end.

Section Orchestrator.

(** [strings.EqualFold] of the Go library. *)
Variable EqualFold : string -> string -> bool.

Definition handlePolledWake (cfg : Config) (e : WakeEnv) : bool * list Event :=
  let delaySeconds := ResumeDelaySeconds cfg in
  let delaySeconds := if delaySeconds <=? 0 then 3 else delaySeconds in
  let deviceName :=
    if (DeviceName cfg =? EmptyString)%string then DeviceInstanceID cfg
    else DeviceName cfg in
  let pre := [EvRecordResume; EvSleep (wrap64 (delaySeconds * Second));
              EvGetStatus] in
  let skip :=
    match envPre e with
    | Some status => EqualFold status "OK"
    | None => false
    end in
  if skip then (true, pre ++ [EvRecordSkip])
  else
    let waitDuration := wrap64 (WaitSeconds cfg * Second) in
    let '(err, calls) := DeviceManager.Reset waitDuration (envReset e) in
    let pre := pre ++ [EvReset waitDuration calls] in
    match err with
    | Some _ =>
        (false, pre ++ [EvRecordReset false;
                        EvNotifyResumeResult false false deviceName true])
    | None =>
        match envVerify e with
        | None => (false, pre ++ [EvGetStatus; EvRecordReset false])
        | Some finalStatus =>
            if EqualFold finalStatus "OK" then
              (true, pre ++ [EvGetStatus; EvRecordReset true;
                             EvNotifyResumeResult true false deviceName false])
            else
              (false, pre ++ [EvGetStatus; EvRecordReset false;
                              EvNotifyResumeResult false false deviceName true])
        end
    end.

(** The post-reset verification: the reset was run, it returned no error
    and the status query after it answered OK. *)
Definition verifiedOK (e : WakeEnv) : Prop :=
  (forall status, envPre e = Some status -> EqualFold status "OK" = false) /\
  DeviceManager.Disable (envReset e) = None /\
  DeviceManager.Enable (envReset e) = None /\
  exists finalStatus,
    envVerify e = Some finalStatus /\ EqualFold finalStatus "OK" = true.

(** The check before the reset found the device OK: nothing is reset. *)
Definition skipped (e : WakeEnv) : Prop :=
  exists status, envPre e = Some status /\ EqualFold status "OK" = true.

(** [Reset] returns [nil]. *)
Definition resetOK (e : WakeEnv) : Prop :=
  DeviceManager.Disable (envReset e) = None /\
  DeviceManager.Enable (envReset e) = None.

End Orchestrator.

End Service.

(** ** Idle time (GetIdleTime and its users) *)

Module IdleTime.

Definition uint32 (z : Z) : Z := z mod 2 ^ 32.

(** The answers of the system: the return value of [GetLastInputInfo],
    the [dwTime] it fills in, and the value of [GetTickCount64]. *)
Record IdleEnv := mkIdleEnv {
  envRet : Z;
  envDwTime : Z;
  envTickCount : Z
}.

(** [GetIdleTime]: [None] for the error; the subtraction is on [uint32]. *)
Definition GetIdleTime (e : IdleEnv) : option N :=
  if envRet e =? 0 then None
  else Some (Z.to_N (uint32 (uint32 (envTickCount e) - envDwTime e))).

(** [IsSystemLikelyAsleep], on the answer of [GetIdleTime]. *)
Definition IsSystemLikelyAsleep (minIdleMinutes : Z) (idle : option N) : bool :=
  let minIdleMinutes := if minIdleMinutes <=? 0 then 5 else minIdleMinutes in
  match idle with
  | None => false
  | Some idleMs =>
      let idleMinutes := Z.of_N (idleMs / 1000 / 60) in
      minIdleMinutes <=? idleMinutes
  end.

(** [IsUserSessionLocked], on the answer of [GetIdleTime]. *)
Definition IsUserSessionLocked (idle : option N) : bool :=
  match idle with
  | None => false
  | Some idleMs => (60 * 1000 <? idleMs)%N
  end.

End IdleTime.

(** ** Power setting GUIDs *)

Module PowerSettings.
Import PowerMonitor.

Definition GetPowerSettingGUIDs : list GUID :=
  [GUID_CONSOLE_DISPLAY_STATE; GUID_MONITOR_POWER_ON].

Definition GetPowerSettingName (guid : GUID) : string :=
  if GUID_eqb guid GUID_CONSOLE_DISPLAY_STATE then "CONSOLE_DISPLAY_STATE"
  else if GUID_eqb guid GUID_MONITOR_POWER_ON then "MONITOR_POWER_ON"
  else if GUID_eqb guid GUID_SYSTEM_AWAYMODE then "SYSTEM_AWAYMODE"
  else "UNKNOWN".




End PowerSettings.

(** ** Escaping for PowerShell *)

Module PowerShell.
Import Ascii.

(** [strings.ReplaceAll(s, old, new)] for a pattern [old] of one byte. *)
Fixpoint replaceByte (old : Ascii.ascii) (new : string) (s : string) : string :=
  match s with
  | EmptyString => EmptyString
  | String c s' =>
      if Ascii.eqb c old then (new ++ replaceByte old new s')%string
      else String c (replaceByte old new s')
  end.

Definition quote : Ascii.ascii := "'"%char.
Definition backtick : Ascii.ascii := "`"%char.
Definition dollar : Ascii.ascii := "$"%char.


(** notification.go *)
Definition escapeForPowerShell (s : string) : string :=
  let s := replaceByte quote "''" s in
  let s := replaceByte backtick "``" s in
  let s := replaceByte dollar "`$" s in
  s.













(** What one byte becomes under [escapeForPowerShell]. *)
Definition escapeByte (c : Ascii.ascii) : string :=
  if Ascii.eqb c quote then "''"
  else if Ascii.eqb c backtick then "``"
  else if Ascii.eqb c dollar then "`$"
  else String c EmptyString.

Fixpoint escapeBytes (s : string) : string :=
  match s with
  | EmptyString => EmptyString
  | String c s' => (escapeByte c ++ escapeBytes s')%string
  end.

Fixpoint count (c : Ascii.ascii) (s : string) : nat :=
  match s with
  | EmptyString => 0%nat
  | String d s' => ((if Ascii.eqb d c then 1 else 0) + count c s')%nat
  end.

End PowerShell.

(** ** Notifications *)

Module Notifier.

Inductive NotificationType :=
| NotifyInfo
| NotifySuccess
| NotifyWarning
| NotifyError.

(** [NotifyResumeResult]: the kind of toast sent, if any; [failed] stands
    for [err != nil]. *)
Definition NotifyResumeResult (enabled fixed skipped failed : bool)
  : option NotificationType :=
  if negb enabled then None
  else if failed then Some NotifyError
  else if skipped then Some NotifyInfo
  else if fixed then Some NotifySuccess
  else None.

(** The toasts sent for the calls of a trace. *)
Fixpoint toasts (enabled : bool) (evs : list Service.Event)
  : list NotificationType :=
  match evs with
  | [] => []
  | Service.EvNotifyResumeResult fixed skipped _ failed :: evs' =>
      match NotifyResumeResult enabled fixed skipped failed with
      | Some k => k :: toasts enabled evs'
      | None => toasts enabled evs'
      end
  | _ :: evs' => toasts enabled evs'
  end.

End Notifier.

(** ** The service: power events and the start of polling *)

Module ServiceEvents.
Import GoInt GoTime.

(** The configuration as the service reads it: the fields of
    [Service.Config] and those used by [handlePowerEvent] and
    [startPolling]. *)
Record ServiceConfig := mkServiceConfig {
  base : Service.Config;
  CheckBeforeReset : bool;
  LogAllEvents : bool;
  RetryIntervalSecs : Z;
  MaxRetryInterval : Z;
  MaxRetryCount : Z
}.

(** [poller] and [powerMonitor] are [None] for nil. *)
Record gpdTouchService := mkService {
  cfg : ServiceConfig;
  poller : option WakeEventPoller.t;
  powerMonitor : option PowerMonitor.t
}.

(** What [handlePowerEvent] leaves behind: the service, the callbacks the
    monitor started, whether [poller.Resume] started its recheck, and the
    calls to the collaborators. *)
Record Outcome := mkOutcome {
  service : gpdTouchService;
  started : list PowerMonitor.Event;
  recheck : bool;
  calls : list Service.Event
}.

Definition isStat (ev : Service.Event) : bool :=
  match ev with
  | Service.EvRecordResume | Service.EvRecordSkip
  | Service.EvRecordReset _ => true
  | _ => false
  end.

Definition isOutcomeStat (ev : Service.Event) : bool :=
  match ev with
  | Service.EvRecordSkip | Service.EvRecordReset _ => true
  | _ => false
  end.

Definition isResume (ev : Service.Event) : bool :=
  match ev with
  | Service.EvRecordResume => true
  | _ => false
  end.

Definition isNotify (ev : Service.Event) : bool :=
  match ev with
  | Service.EvNotifyResumeResult _ _ _ _ => true
  | _ => false
  end.

(** [startPolling]: the poller is built with a callback and started. *)
Definition startPolling (s : gpdTouchService) : gpdTouchService :=
  let c := cfg s in
  let baseRetry := wrap64 (RetryIntervalSecs c * Second) in
  let maxRetry := wrap64 (MaxRetryInterval c * Second) in
  let baseRetry := if baseRetry <=? 0 then 60 * Second else baseRetry in
  let maxRetry := if maxRetry <=? 0 then 10 * Minute else maxRetry in
  let pollerCfg := WakeEventPoller.mkCfg baseRetry maxRetry (MaxRetryCount c) in
  mkService c
    (Some (WakeEventPoller.NewWakeEventPoller
             (Service.DeviceInstanceID (base c)) true (Some pollerCfg)))
    (powerMonitor s).

(** The part of [Execute] before its loop; [modern] is the answer of
    [IsModernStandbySupported]. *)
Definition setup (modern : bool) (s : gpdTouchService) : gpdTouchService :=
  if modern then
    let s := startPolling s in
    mkService (cfg s) (poller s) (Some (PowerMonitor.NewPowerMonitor true))
  else s.

(** The callback given to [NewPowerMonitor]; the second component tells
    whether [Resume] started its recheck. *)
Definition monitorCallback (s : gpdTouchService) : gpdTouchService * bool :=
  match poller s with
  | Some p =>
      let '(p', spawn) := WakeEventPoller.Resume p in
      (mkService (cfg s) (Some p') (powerMonitor s), spawn)
  | None => (s, false)
  end.

Section Events.

(** [strings.EqualFold] of the Go library. *)
Variable EqualFold : string -> string -> bool.

Definition handlePowerEvent (now : Time) (eventType : Z)
    (e : Service.WakeEnv) (s : gpdTouchService) : Outcome :=
  let '(s, handled, started) :=
    match powerMonitor s with
    | Some pm =>
        let '(pm', r, evs) :=
          PowerMonitor.HandlePowerBroadcast now eventType None pm in
        (mkService (cfg s) (poller s) (Some pm'), r, evs)
    | None => (s, false, [])
    end in
  if handled then mkOutcome s started false []
  else
    let isResumeEvent := (eventType =? 18) || (eventType =? 7) in
    let isOemEvent := eventType =? 10 in
    if negb isResumeEvent && negb isOemEvent then mkOutcome s started false []
    else if isOemEvent then
      match poller s with
      | Some p =>
          let '(p, spawn) := WakeEventPoller.Resume p in
          let p := WakeEventPoller.ResetRetryState p in
          mkOutcome (mkService (cfg s) (Some p) (powerMonitor s))
                    started spawn []
      | None => mkOutcome s started false []
      end
    else
      let c := cfg s in
      let delaySeconds := Service.ResumeDelaySeconds (base c) in
      let delaySeconds := if delaySeconds <=? 0 then 3 else delaySeconds in
      let deviceName :=
        if (Service.DeviceName (base c) =? EmptyString)%string
        then Service.DeviceInstanceID (base c)
        else Service.DeviceName (base c) in
      let pre := [Service.EvRecordResume;
                  Service.EvSleep (wrap64 (delaySeconds * Second))] in
      let pre := if CheckBeforeReset c then pre ++ [Service.EvGetStatus]
                 else pre in
      let skip :=
        CheckBeforeReset c &&
        match Service.envPre e with
        | Some status => EqualFold status "OK"
        | None => false
        end in
      if skip then
        mkOutcome s started false
          (pre ++ [Service.EvRecordSkip] ++
           (if LogAllEvents c
            then [Service.EvNotifyResumeResult false true deviceName false]
            else []))
      else
        let waitDuration :=
          wrap64 (Service.WaitSeconds (base c) * Second) in
        let '(err, devCalls) :=
          DeviceManager.Reset waitDuration (Service.envReset e) in
        let pre := pre ++ [Service.EvReset waitDuration devCalls] in
        mkOutcome s started false
          match err with
          | Some _ =>
              pre ++ [Service.EvRecordReset false;
                      Service.EvNotifyResumeResult false false deviceName true]
          | None =>
              match Service.envVerify e with
              | None => pre ++ [Service.EvGetStatus;
                                Service.EvRecordReset false]
              | Some finalStatus =>
                  if EqualFold finalStatus "OK" then
                    pre ++ [Service.EvGetStatus; Service.EvRecordReset true;
                            Service.EvNotifyResumeResult true false
                              deviceName false]
                  else
                    pre ++ [Service.EvGetStatus; Service.EvRecordReset false;
                            Service.EvNotifyResumeResult false false
                              deviceName true]
              end
          end.

End Events.

End ServiceEvents.

(** ** Statistics (StatsManager) *)

Module StatsManager.
Import GoInt GoTime.

(** The counters and marks of [Stats]; a nil time is [None]. *)
Record Stats := mkStats {
  TotalResumeEvents : Z;
  TotalResets : Z;
  TotalSkips : Z;
  TotalFailures : Z;
  TodayResets : Z;
  TodaySkips : Z;
  TodayFailures : Z;
  WeekResets : Z;
  WeekSkips : Z;
  WeekFailures : Z;
  MonthResets : Z;
  MonthSkips : Z;
  MonthFailures : Z;
  LastResetTime : option Time;
  LastResumeTime : option Time;
  LastEventTime : option Time;
  LastResetResult : string;
  LastStatDate : string
}.

(** The zero value [Stats{}]. *)
Definition zeroStats : Stats :=
  mkStats 0 0 0 0 0 0 0 0 0 0 0 0 0 None None None EmptyString EmptyString.

(** A calendar date as the code looks at it: ISO week, year and month. *)
Record Date := mkDate {
  dWeek : Z;
  dYear : Z;
  dMonth : Z
}.

(** One reading of the clock: the instant, its date formatted as
    2006-01-02, and its calendar date. *)
Record Clock := mkClock {
  cNow : Time;
  cToday : string;
  cDate : Date
}.

(** The text stored by [RecordSkip]. *)
Definition skipResult : string := "状态正常，已跳过".

Inductive Op :=
| OpResume
| OpReset (success : bool) (result : string)
| OpSkip.

Section Manager.

(** [time.Parse("2006-01-02", s)], with the calendar date of the result;
    [None] for a parse error. *)
Variable parseDate : string -> option Date.

Definition resetToday (st : Stats) : Stats :=
  mkStats (TotalResumeEvents st) (TotalResets st) (TotalSkips st)
    (TotalFailures st) 0 0 0 (WeekResets st) (WeekSkips st) (WeekFailures st)
    (MonthResets st) (MonthSkips st) (MonthFailures st) (LastResetTime st)
    (LastResumeTime st) (LastEventTime st) (LastResetResult st)
    (LastStatDate st).

Definition resetWeek (st : Stats) : Stats :=
  mkStats (TotalResumeEvents st) (TotalResets st) (TotalSkips st)
    (TotalFailures st) (TodayResets st) (TodaySkips st) (TodayFailures st)
    0 0 0 (MonthResets st) (MonthSkips st) (MonthFailures st)
    (LastResetTime st) (LastResumeTime st) (LastEventTime st)
    (LastResetResult st) (LastStatDate st).

Definition resetMonth (st : Stats) : Stats :=
  mkStats (TotalResumeEvents st) (TotalResets st) (TotalSkips st)
    (TotalFailures st) (TodayResets st) (TodaySkips st) (TodayFailures st)
    (WeekResets st) (WeekSkips st) (WeekFailures st) 0 0 0
    (LastResetTime st) (LastResumeTime st) (LastEventTime st)
    (LastResetResult st) (LastStatDate st).

Definition set_LastStatDate (v : string) (st : Stats) : Stats :=
  mkStats (TotalResumeEvents st) (TotalResets st) (TotalSkips st)
    (TotalFailures st) (TodayResets st) (TodaySkips st) (TodayFailures st)
    (WeekResets st) (WeekSkips st) (WeekFailures st) (MonthResets st)
    (MonthSkips st) (MonthFailures st) (LastResetTime st)
    (LastResumeTime st) (LastEventTime st) (LastResetResult st) v.

Definition checkDateRollover (c : Clock) (st : Stats) : Stats :=
  let today := cToday c in
  if (LastStatDate st =? EmptyString)%string then set_LastStatDate today st
  else
    match parseDate (LastStatDate st) with
    | None => set_LastStatDate today st
    | Some lastDate =>
        if negb (today =? LastStatDate st)%string then
          let st := resetToday st in
          let st :=
            if negb (dWeek lastDate =? dWeek (cDate c))
               || negb (dYear lastDate =? dYear (cDate c))
            then resetWeek st else st in
          let st :=
            if negb (dMonth lastDate =? dMonth (cDate c))
               || negb (dYear lastDate =? dYear (cDate c))
            then resetMonth st else st in
          set_LastStatDate today st
        else st
    end.

Definition RecordResume (c : Clock) (st : Stats) : Stats :=
  let st := checkDateRollover c st in
  mkStats (wrap64 (TotalResumeEvents st + 1)) (TotalResets st) (TotalSkips st)
    (TotalFailures st) (TodayResets st) (TodaySkips st) (TodayFailures st)
    (WeekResets st) (WeekSkips st) (WeekFailures st) (MonthResets st)
    (MonthSkips st) (MonthFailures st) (LastResetTime st)
    (Some (cNow c)) (LastEventTime st) (LastResetResult st) (LastStatDate st).

Definition RecordReset (c : Clock) (success : bool) (result : string)
    (st : Stats) : Stats :=
  let st := checkDateRollover c st in
  if success then
    mkStats (TotalResumeEvents st) (wrap64 (TotalResets st + 1))
      (TotalSkips st) (TotalFailures st) (wrap64 (TodayResets st + 1))
      (TodaySkips st) (TodayFailures st) (wrap64 (WeekResets st + 1))
      (WeekSkips st) (WeekFailures st) (wrap64 (MonthResets st + 1))
      (MonthSkips st) (MonthFailures st) (Some (cNow c)) (LastResumeTime st)
      (Some (cNow c)) result (LastStatDate st)
  else
    mkStats (TotalResumeEvents st) (TotalResets st) (TotalSkips st)
      (wrap64 (TotalFailures st + 1)) (TodayResets st) (TodaySkips st)
      (wrap64 (TodayFailures st + 1)) (WeekResets st) (WeekSkips st)
      (wrap64 (WeekFailures st + 1)) (MonthResets st) (MonthSkips st)
      (wrap64 (MonthFailures st + 1)) (Some (cNow c)) (LastResumeTime st)
      (Some (cNow c)) result (LastStatDate st).

Definition RecordSkip (c : Clock) (st : Stats) : Stats :=
  let st := checkDateRollover c st in
  mkStats (TotalResumeEvents st) (TotalResets st) (wrap64 (TotalSkips st + 1))
    (TotalFailures st) (TodayResets st) (wrap64 (TodaySkips st + 1))
    (TodayFailures st) (WeekResets st) (wrap64 (WeekSkips st + 1))
    (WeekFailures st) (MonthResets st) (wrap64 (MonthSkips st + 1))
    (MonthFailures st) (LastResetTime st) (LastResumeTime st)
    (Some (cNow c)) skipResult (LastStatDate st).

Definition GetStats (c : Clock) (st : Stats) : Stats :=
  checkDateRollover c st.

Definition apply (c : Clock) (op : Op) (st : Stats) : Stats :=
  match op with
  | OpResume => RecordResume c st
  | OpReset success result => RecordReset c success result st
  | OpSkip => RecordSkip c st
  end.

(** The records made one after the other, each with its clock reading. *)
Fixpoint applyAll (ops : list (Clock * Op)) (st : Stats) : Stats :=
  match ops with
  | [] => st
  | (c, op) :: ops' => applyAll ops' (apply c op st)
  end.

End Manager.

(** The counters of one kind are nested: today within the week and the
    month, these within the total, which is at most [n]. *)
Definition nested (n today week month total : Z) : Prop :=
  0 <= today /\ today <= week /\ today <= month /\
  week <= total /\ month <= total /\ total <= n.

Definition countersNested (n : Z) (st : Stats) : Prop :=
  nested n (TodayResets st) (WeekResets st) (MonthResets st) (TotalResets st)
  /\ nested n (TodaySkips st) (WeekSkips st) (MonthSkips st) (TotalSkips st)
  /\ nested n (TodayFailures st) (WeekFailures st) (MonthFailures st)
            (TotalFailures st)
  /\ 0 <= TotalResumeEvents st <= n.

(** How many of the records [ops] are of the kind [f]. *)
Definition countOps (f : Op -> bool) (ops : list (Clock * Op)) : Z :=
  Z.of_nat (List.length (filter (fun co => f (snd co)) ops)).

Definition isOpResume (op : Op) : bool :=
  match op with OpResume => true | _ => false end.

Definition isOpRepaired (op : Op) : bool :=
  match op with OpReset true _ => true | _ => false end.

Definition isOpFailed (op : Op) : bool :=
  match op with OpReset false _ => true | _ => false end.

Definition isOpSkip (op : Op) : bool :=
  match op with OpSkip => true | _ => false end.

End StatsManager.

(** ** Configuration *)

Module Config.

(** [AddBackupDevice] on the list [BackupDevices]: the loop returns at the
    first equal entry; otherwise the ID is appended. *)
Definition AddBackupDevice (instanceID : string) (devices : list string)
  : list string :=
  if existsb (fun id => (id =? instanceID)%string) devices then devices
  else devices ++ [instanceID].

(** The loop of the setup wizard over the candidate devices, from the
    empty list of [DefaultConfig]: every candidate other than the selected
    device is added as a backup. *)
Definition addBackups (selected : string) (candidates devices : list string)
  : list string :=
  fold_left
    (fun devices id =>
       if negb (id =? selected)%string then AddBackupDevice id devices
       else devices)
    candidates devices.

Definition wizardBackups (selected : string) (candidates : list string)
  : list string :=
  addBackups selected candidates [].

End Config.

(** ** Predicates on the detector's runs *)

Module PollerProps.
Import GoTime WakeEventPoller.

Definition isTicker (a : Action) : bool :=
  match a with ActTicker _ => true | _ => false end.

Definition isPause (a : Action) : bool :=
  match a with ActPause => true | _ => false end.

Definition isPauseChan (a : Action) : bool :=
  match a with ActPauseChan => true | _ => false end.

(** No action of [acts] is of the kind [f]. *)
Definition noneOf (f : Action -> bool) (acts : list Action) : bool :=
  forallb (fun a => negb (f a)) acts.

(** The status read by a tick is not OK (or could not be read). *)
Definition notOK (e : TickEnv) : Prop := envStatus e <> Some "OK"%string.

(** A repair is pending only while the stored status is not OK, the
    polling goroutine has made its initial check and is not exhausted. *)
Definition pendingInv (s : Sys) : Prop :=
  pendingRepair (poller s) = true ->
  lastStatus (poller s) <> "OK"%string /\
  exceededMaxRetry s = false /\
  mode s <> NotStarted.

(** Nothing of the pause machinery has moved. *)
Definition neverPaused (s : Sys) : Prop :=
  paused (poller s) = false /\ pauseChan (poller s) = None /\
  sleeping s = 0%nat /\ repairing s = 0%nat /\ mode s <> AwaitResume.

(** The traces a tick can leave. *)
Definition tickTrace (evs : list Event) : Prop :=
  evs = [] \/ evs = [EvGetStatus] \/ evs = [EvGetStatus; EvGetIdleTime] \/
  evs = [EvGetStatus; EvGetIdleTime; EvRepair].

(** Two environments that differ at most in the idle time and in the
    clock read before the repair. *)
Definition sameButIdle (e e' : TickEnv) : Prop :=
  envStatus e = envStatus e' /\ envSuccess e = envSuccess e' /\
  envNowAfter e = envNowAfter e'.

(** No bookkeeping of a repair has happened. *)
Definition untouched (p0 p : t) : Prop :=
  consecutiveFails p = consecutiveFails p0 /\
  currentInterval p = currentInterval p0 /\
  lastRepairTime p = lastRepairTime p0 /\
  callback p = callback p0.

(** What the polling goroutine never writes: the configuration and the
    pause machinery. *)
Definition frame (p q : t) : Prop :=
  callback q = callback p /\ stopChan q = stopChan p /\
  pauseChan q = pauseChan p /\ pollInterval q = pollInterval p /\
  baseRetryInterval q = baseRetryInterval p /\
  maxRetryInterval q = maxRetryInterval p /\
  maxRetryCount q = maxRetryCount p /\ deviceID q = deviceID p /\
  paused q = paused p.

End PollerProps.

(** ** Predicates on the answers of the device *)

Module ServiceProps.
Import Service.

Section Props.

Variable EqualFold : string -> string -> bool.

(** The status read before the reset is OK. *)
Definition preOK (e : WakeEnv) : bool :=
  match envPre e with
  | Some status => EqualFold status "OK"
  | None => false
  end.

(** The status read after the reset is OK. *)
Definition verifyOK (e : WakeEnv) : bool :=
  match envVerify e with
  | Some finalStatus => EqualFold finalStatus "OK"
  | None => false
  end.

(** Neither [Disable] nor [Enable] fails. *)
Definition resetFine (e : WakeEnv) : bool :=
  match DeviceManager.envDisable (envReset e) with
  | None => DeviceManager.envEnable (envReset e)
  | Some _ => false
  end.

End Props.

Definition isResumeCode (eventType : Z) : bool :=
  (eventType =? 18) || (eventType =? 7).

End ServiceProps.

(** * Properties *)

(** ** Integers and time *)

Module GoFacts.
Import GoInt GoTime.

Lemma wrap64_range (z : Z) : inInt64 (wrap64 z).
Proof.
  unfold inInt64, wrap64, minInt64, maxInt64.
  pose proof (Z.mod_pos_bound (z + 2 ^ 63) (2 ^ 64) ltac:(lia)). lia.
Qed.

Lemma wrap64_small (z : Z) : inInt64 z -> wrap64 z = z.
Proof.
  unfold inInt64, wrap64, minInt64, maxInt64. intros H.
  rewrite Z.mod_small; lia.
Qed.


Lemma Sub_exact (t u : Time) : inInt64 (t - u) -> Sub t u = t - u.
Proof.
  unfold Sub, inInt64. intros [H1 H2].
  destruct (Z.ltb_spec (t - u) minInt64); [lia|].
  destruct (Z.ltb_spec maxInt64 (t - u)); [lia|]. reflexivity.
Qed.

End GoFacts.

(** ** Resume event channel *)

Module PowerMonitorFacts.
Import GoTime PowerMonitor.

Lemma bytes_eqb_eq (a b : list Z) : bytes_eqb a b = true <-> a = b.
Proof.
  revert b. induction a as [|x a IH]; intros [|y b]; simpl;
    try (split; [discriminate | discriminate]); try tauto.
  rewrite andb_true_iff, Z.eqb_eq, IH. split.
  - intros [-> ->]. reflexivity.
  - intros E. injection E as -> ->. auto.
Qed.

(** [GUID_eqb] decides equality of GUIDs. *)
Lemma GUID_eqb_eq (a b : GUID) : GUID_eqb a b = true <-> a = b.
Proof.
  destruct a as [a1 a2 a3 a4], b as [b1 b2 b3 b4]. unfold GUID_eqb. simpl.
  rewrite !andb_true_iff, !Z.eqb_eq, bytes_eqb_eq. split.
  - intros [[[-> ->] ->] ->]. reflexivity.
  - intros E. injection E as -> -> -> ->. auto.
Qed.

Lemma monitoredGUID_iff (g : GUID) :
  monitoredGUID g = true <->
  g = GUID_CONSOLE_DISPLAY_STATE \/ g = GUID_MONITOR_POWER_ON.
Proof.
  unfold monitoredGUID. rewrite orb_true_iff, !GUID_eqb_eq. tauto.
Qed.

(** A suppressed trigger changes nothing and starts nothing. *)
Lemma triggerResume_suppressed (now : Time) (pm : t) :
  Sub now (lastResumeTime pm) < minInterval pm ->
  triggerResume now pm = (pm, false, []).
Proof.
  intros H. unfold triggerResume.
  destruct (Z.ltb_spec (Sub now (lastResumeTime pm)) (minInterval pm));
    [reflexivity | lia].
Qed.

(** An accepted trigger records its time and starts the callback. *)
Lemma triggerResume_accepted (now : Time) (pm : t) :
  minInterval pm <= Sub now (lastResumeTime pm) ->
  triggerResume now pm =
    (set_lastResumeTime now pm, true,
     if callback pm then [EvCallback] else []).
Proof.
  intros H. unfold triggerResume.
  destruct (Z.ltb_spec (Sub now (lastResumeTime pm)) (minInterval pm));
    [lia | reflexivity].
Qed.

(** The callback is started only by a trigger that returns [true]. *)
Lemma triggerResume_callback_only_if_true (now : Time) (pm : t) :
  snd (fst (triggerResume now pm)) = false ->
  snd (triggerResume now pm) = [].
Proof.
  unfold triggerResume.
  destruct (Sub now (lastResumeTime pm) <? minInterval pm); simpl;
    [reflexivity | discriminate].
Qed.

(** C7. Debounce: when a trigger at [t1] was accepted and a second one
    arrives at [t2], less than [minInterval] after it, the second one is
    suppressed: [triggerResume] returns [false], starts no callback and
    leaves the monitor (hence the last-trigger time [t1]) unchanged; the two
    triggers together start the registered callback exactly once.  A new
    monitor has a [minInterval] of five seconds. *)
Theorem triggerResume_debounce (pm : t) (t1 t2 : Time) :
  callback pm = true ->
  snd (fst (triggerResume t1 pm)) = true ->
  Sub t2 t1 < minInterval pm ->
  let first := triggerResume t1 pm in
  let second := triggerResume t2 (fst (fst first)) in
  snd (fst second) = false /\
  snd second = [] /\
  fst (fst second) = fst (fst first) /\
  lastResumeTime (fst (fst second)) = t1 /\
  callbacks (snd first ++ snd second) = 1%nat /\
  (forall cb, minInterval (NewPowerMonitor cb) = 5 * Second).
Proof.
  intros Hcb Hacc Hlt. cbv zeta.
  assert (E1 : triggerResume t1 pm =
               (set_lastResumeTime t1 pm, true, [EvCallback])).
  { revert Hacc. unfold triggerResume.
    destruct (Sub t1 (lastResumeTime pm) <? minInterval pm); simpl.
    - discriminate.
    - rewrite Hcb. reflexivity. }
  rewrite E1. simpl fst. simpl snd.
  rewrite triggerResume_suppressed by (simpl; exact Hlt).
  simpl. repeat split; reflexivity.
Qed.

(** Scenario: legacy event 7 delivered twice within two seconds to a fresh
    monitor fires exactly one callback. *)
Lemma triggerResume_debounce_witness :
  let pm := NewPowerMonitor true in
  let t1 := 1790000000 * Second in
  let t2 := t1 + 2 * Second in
  let first := triggerResume t1 pm in
  let second := triggerResume t2 (fst (fst first)) in
  snd (fst second) = false /\
  snd second = [] /\
  fst (fst second) = fst (fst first) /\
  lastResumeTime (fst (fst second)) = t1 /\
  callbacks (snd first ++ snd second) = 1%nat /\
  (forall cb, minInterval (NewPowerMonitor cb) = 5 * Second).
Proof.
  exact (triggerResume_debounce (NewPowerMonitor true)
           (1790000000 * Second) (1790000000 * Second + 2 * Second)
           eq_refl eq_refl eq_refl).
Defined.

(** The same scenario through [HandlePowerBroadcast]. *)
Example legacy_event_twice :
  let pm := NewPowerMonitor true in
  let t1 := 1790000000 * Second in
  let '(pm1, r1, ev1) := HandlePowerBroadcast t1 7 None pm in
  let '(pm2, r2, ev2) := HandlePowerBroadcast (t1 + 2 * Second) 7 None pm1 in
  r1 = true /\ r2 = false /\ callbacks (ev1 ++ ev2) = 1%nat.
Proof. vm_compute. repeat split; reflexivity. Qed.

(** C8. [HandlePowerBroadcast] hands an event to [triggerResume] exactly
    when it is a legacy event of code 7 or 18, or a display-power setting
    change for the console-display-state or monitor-power-on GUID whose
    stored previous state is off (0) and whose new state is on (2); every
    other event returns [false] and starts no callback.  In particular a
    setting change to or from dimmed, and one from on to off, never start
    the callback. *)
Theorem HandlePowerBroadcast_classifies (now : Time) (eventType : Z)
    (eventData : option PowerBroadcastSetting) (pm : t) :
  HandlePowerBroadcast now eventType eventData pm =
    (if spec_isResumeTrigger eventType eventData (lastDisplayState pm)
     then triggerResume now (storedAfter eventType eventData pm)
     else (storedAfter eventType eventData pm, false, []))
  /\ (callbacks (snd (HandlePowerBroadcast now eventType eventData pm))
        <> 0%nat ->
      spec_isResumeTrigger eventType eventData (lastDisplayState pm) = true)
  /\ (forall pbs,
        eventType = PBT_POWERSETTINGCHANGE -> eventData = Some pbs ->
        Data0 pbs = DisplayStateDimmed \/
        lastDisplayState pm = DisplayStateDimmed \/
        (lastDisplayState pm = DisplayStateOn /\
         Data0 pbs = DisplayStateOff) ->
        snd (fst (HandlePowerBroadcast now eventType eventData pm)) = false /\
        snd (HandlePowerBroadcast now eventType eventData pm) = []).
Proof.
  assert (E : HandlePowerBroadcast now eventType eventData pm =
    (if spec_isResumeTrigger eventType eventData (lastDisplayState pm)
     then triggerResume now (storedAfter eventType eventData pm)
     else (storedAfter eventType eventData pm, false, []))).
  { unfold HandlePowerBroadcast, spec_isResumeTrigger, storedAfter,
      monitoredGUID.
    destruct (eventType =? PBT_POWERSETTINGCHANGE); simpl.
    - destruct eventData as [pbs|]; [|reflexivity].
      destruct (GUID_eqb (PowerSetting pbs) GUID_CONSOLE_DISPLAY_STATE
                || GUID_eqb (PowerSetting pbs) GUID_MONITOR_POWER_ON);
        simpl; reflexivity.
    - destruct ((eventType =? 7) || (eventType =? 18)); reflexivity. }
  split; [exact E|]. split.
  - rewrite E.
    destruct (spec_isResumeTrigger eventType eventData (lastDisplayState pm));
      [reflexivity | simpl; congruence].
  - intros pbs -> -> H. rewrite E.
    assert (F : spec_isResumeTrigger PBT_POWERSETTINGCHANGE (Some pbs)
                  (lastDisplayState pm) = false).
    { unfold spec_isResumeTrigger. simpl.
      unfold DisplayStateDimmed, DisplayStateOn, DisplayStateOff in H.
      destruct H as [H | [H | [H1 H2]]].
      - rewrite H. simpl. rewrite !andb_false_r. reflexivity.
      - rewrite H. simpl. rewrite andb_false_r. reflexivity.
      - rewrite H2. simpl. rewrite andb_false_r. reflexivity. }
    rewrite F. split; reflexivity.
Qed.

(** Scenario: on, off, on for a monitored GUID; only the last edge fires. *)
Lemma HandlePowerBroadcast_classifies_witness :
  let pm := SimulateDisplayOff (NewPowerMonitor true) in
  let now := 1790000000 * Second in
  let ev := Some (mkPBS GUID_CONSOLE_DISPLAY_STATE 4 DisplayStateOn) in
  HandlePowerBroadcast now PBT_POWERSETTINGCHANGE ev pm =
    (set_lastResumeTime now (set_lastDisplayState DisplayStateOn pm),
     true, [EvCallback])
  /\ spec_isResumeTrigger PBT_POWERSETTINGCHANGE ev (lastDisplayState pm)
     = true.
Proof.
  split.
  - exact (proj1 (HandlePowerBroadcast_classifies (1790000000 * Second)
             PBT_POWERSETTINGCHANGE
             (Some (mkPBS GUID_CONSOLE_DISPLAY_STATE 4 DisplayStateOn))
             (SimulateDisplayOff (NewPowerMonitor true)))).
  - apply (proj1 (proj2 (HandlePowerBroadcast_classifies (1790000000 * Second)
             PBT_POWERSETTINGCHANGE
             (Some (mkPBS GUID_CONSOLE_DISPLAY_STATE 4 DisplayStateOn))
             (SimulateDisplayOff (NewPowerMonitor true))))).
    vm_compute. discriminate.
Defined.

Example display_on_off_on :
  let pm0 := NewPowerMonitor true in
  let t0 := 1790000000 * Second in
  let off := Some (mkPBS GUID_MONITOR_POWER_ON 4 DisplayStateOff) in
  let dim := Some (mkPBS GUID_MONITOR_POWER_ON 4 DisplayStateDimmed) in
  let on := Some (mkPBS GUID_MONITOR_POWER_ON 4 DisplayStateOn) in
  let '(pm1, r1, ev1) := HandlePowerBroadcast t0 0x8013 off pm0 in
  let '(pm2, r2, ev2) := HandlePowerBroadcast (t0 + 60 * Second) 0x8013 on pm1 in
  let '(pm3, r3, ev3) := HandlePowerBroadcast (t0 + 90 * Second) 0x8013 dim pm2 in
  let '(pm4, r4, ev4) := HandlePowerBroadcast (t0 + 120 * Second) 0x8013 on pm3 in
  (r1, r2, r3, r4) = (false, true, false, false) /\
  (ev1, ev2, ev3, ev4) = ([], [EvCallback], [], []).
Proof. vm_compute. split; reflexivity. Qed.

End PowerMonitorFacts.

(** ** Poll-based wake detector *)

Module WakeEventPollerFacts.
Import GoInt GoTime GoFacts WakeEventPoller.

Lemma status_neq_OK (s : string) : s <> "OK"%string -> (s =? "OK")%string = false.
Proof. intros H. apply String.eqb_neq. exact H. Qed.

(** Whole seconds of idle time against a threshold in seconds. *)
Lemma idleSecOf_lt (ms k : N) :
  idleSecOf (Some ms) < Z.of_N k <-> (ms < 1000 * k)%N.
Proof.
  unfold idleSecOf. rewrite <- N2Z.inj_lt. split; intros H.
  - destruct (N.lt_ge_cases ms (1000 * k)) as [L | G]; [exact L|].
    apply N.div_le_lower_bound in G; [lia | discriminate].
  - apply N.Div0.div_lt_upper_bound. exact H.
Qed.

Lemma idleSecOf_nonneg (ms : N) : 0 <= idleSecOf (Some ms).
Proof. unfold idleSecOf. apply N2Z.is_nonneg. Qed.

Lemma deferredIdle_gate (idle : option N) :
  deferredIdle idle ->
  (idleSecOf idle <? 0) || (300 <=? idleSecOf idle) = true.
Proof.
  intros [-> | (ms & -> & H)]; [reflexivity|].
  apply orb_true_iff. right. apply Z.leb_le.
  pose proof (idleSecOf_lt ms 300). change (Z.of_N 300) with 300 in *. lia.
Qed.

Lemma activeIdle_gate (idle : option N) :
  activeIdle idle ->
  (idleSecOf idle <? 0) || (300 <=? idleSecOf idle) = false.
Proof.
  intros (ms & -> & H). apply orb_false_iff. split.
  - apply Z.ltb_ge, idleSecOf_nonneg.
  - apply Z.leb_gt. apply (idleSecOf_lt ms 300). lia.
Qed.

(** [repair] with a registered callback runs it exactly once. *)
Lemma repair_events (e : TickEnv) (ex : bool) (p : t) :
  snd (repair e ex p) = if callback p then [EvRepair] else [].
Proof.
  unfold repair. destruct (callback p); [|reflexivity].
  destruct (envSuccess e); [reflexivity|].
  destruct (incrementFails _). reflexivity.
Qed.

(** C1. On a tick that is neither paused nor backoff-exhausted, with a
    registered callback, a fresh status that is not OK and a stored status
    that is OK: if the idle-time query fails or reports at least 300
    seconds, the tick sets [pendingRepair], stores the new status, changes
    nothing else and runs no repair; otherwise (idle time known and below
    300 seconds) it resets the backoff state, runs exactly one repair on it
    in the same tick, stores the new status and leaves [pendingRepair]
    false. *)
Theorem pollTick_OK_to_error (e : TickEnv) (p p' : t) (status : string)
    (ex : bool) (evs : list Event) :
  paused p = false ->
  callback p = true ->
  envStatus e = Some status ->
  status <> "OK"%string ->
  lastStatus p = "OK"%string ->
  pollTick e p false = (p', ex, evs) ->
  (deferredIdle (envIdle e) ->
     p' = set_lastStatus status (set_pendingRepair true p) /\
     pendingRepair p' = true /\ lastStatus p' = status /\
     ex = false /\ repairs evs = 0%nat /\
     evs = [EvGetStatus; EvGetIdleTime]) /\
  (activeIdle (envIdle e) ->
     let reset := ResetRetryState (set_pendingRepair false p) in
     (p', ex) =
       (let '(q, x, _) := repair e false reset in (set_lastStatus status q, x)) /\
     consecutiveFails reset = 0 /\
     currentInterval reset = baseRetryInterval p /\
     repairs evs = 1%nat /\
     evs = [EvGetStatus; EvGetIdleTime; EvRepair] /\
     pendingRepair p' = false /\ lastStatus p' = status /\
     lastRepairTime p' = envNowAfter e /\
     (envSuccess e = true ->
        consecutiveFails p' = 0 /\
        currentInterval p' = baseRetryInterval p /\ ex = false) /\
     (envSuccess e = false ->
        consecutiveFails p' = 1 /\
        currentInterval p' =
          currentInterval (fst (incrementFails reset)) /\
        ex = negb (snd (incrementFails reset)))).
Proof.
  intros Hp Hcb Hst Hne Hlast Htick.
  unfold pollTick, IsPaused in Htick. rewrite Hp, Hst in Htick.
  rewrite (status_neq_OK _ Hne) in Htick.
  unfold case1 in Htick. rewrite (status_neq_OK _ Hne), Hlast in Htick.
  simpl andb in Htick. cbv iota in Htick.
  split.
  - intros Hd. rewrite (deferredIdle_gate _ Hd) in Htick.
    injection Htick as <- <- <-. repeat split; reflexivity.
  - intros Ha. rewrite (activeIdle_gate _ Ha) in Htick.
    cbv zeta.
    set (reset := ResetRetryState (set_pendingRepair false p)) in *.
    assert (Hl : lastStatus reset = "OK"%string) by exact Hlast.
    unfold case2 in Htick. rewrite (status_neq_OK _ Hne), Hl in Htick.
    simpl andb in Htick. cbv iota in Htick.
    assert (Hc : callback reset = true) by exact Hcb.
    unfold repair in *. rewrite Hc in *.
    destruct (envSuccess e) eqn:Es.
    + injection Htick as <- <- <-. simpl.
      repeat split; try reflexivity; try discriminate.
    + destruct (incrementFails (set_lastRepairTime (envNowAfter e) reset))
        as [q cont] eqn:Ei.
      injection Htick as <- <- <-.
      unfold incrementFails in *. simpl in Ei |- *.
      change (wrap64 1) with 1 in *.
      destruct ((0 <? maxRetryCount p) && (maxRetryCount p <=? 1)) eqn:Em;
        [ | destruct (maxRetryInterval p <? wrap64 (baseRetryInterval p * 2)) ];
        injection Ei as <- <-; simpl;
        repeat split; try reflexivity; try discriminate.
Qed.

(** Both branches of C1 on a fresh poller whose stored status is OK. *)
Lemma pollTick_OK_to_error_witness :
  let p := set_lastStatus "OK" (NewWakeEventPoller "touch" true None) in
  let asleep := mkEnv (Some "Error"%string) (Some 400000%N) 0 true 0 in
  let active := mkEnv (Some "Error"%string) (Some 2000%N) 0 true 5 in
  (pendingRepair (fst (fst (pollTick asleep p false))) = true /\
   repairs (snd (pollTick asleep p false)) = 0%nat) /\
  (pendingRepair (fst (fst (pollTick active p false))) = false /\
   repairs (snd (pollTick active p false)) = 1%nat).
Proof.
  intros p asleep active. split.
  - destruct (pollTick_OK_to_error asleep p
                (fst (fst (pollTick asleep p false))) "Error"
                (snd (fst (pollTick asleep p false)))
                (snd (pollTick asleep p false))
                eq_refl eq_refl eq_refl ltac:(discriminate) eq_refl eq_refl)
      as [Hd _].
    destruct Hd as (_ & H1 & _ & _ & H2 & _).
    + right. exists 400000%N. split; [reflexivity | discriminate].
    + split; assumption.
  - destruct (pollTick_OK_to_error active p
                (fst (fst (pollTick active p false))) "Error"
                (snd (fst (pollTick active p false)))
                (snd (pollTick active p false))
                eq_refl eq_refl eq_refl ltac:(discriminate) eq_refl eq_refl)
      as [_ Ha].
    destruct Ha as (_ & _ & _ & H1 & _ & H2 & _).
    + exists 2000%N. split; reflexivity.
    + split; assumption.
Defined.

(** The gate of the sustained-error branch without pending repair. *)
Lemma retry_gate (idle : option N) :
  (0 <=? idleSecOf idle) && (60 <? idleSecOf idle) = false <-> retryIdle idle.
Proof.
  unfold retryIdle. destruct idle as [ms|].
  - pose proof (idleSecOf_nonneg ms) as Hn.
    pose proof (idleSecOf_lt ms 61) as Hlt. change (Z.of_N 61) with 61 in Hlt.
    assert (Hq : (ms / 1000 <= 60)%N <-> idleSecOf (Some ms) < 61).
    { unfold idleSecOf. lia. }
    rewrite andb_false_iff, Z.leb_gt, Z.ltb_ge. split.
    + intros [H | H]; [lia|]. right. exists ms. split; [reflexivity|].
      apply Hq. lia.
    + intros [H | (ms' & E & H)]; [discriminate|].
      injection E as <-. right. apply Hq in H. lia.
  - simpl. split; [intros _; left; reflexivity | reflexivity].
Qed.

(** C3 (amended). On a tick that is neither paused nor exhausted, with
    fresh and stored status both not OK and no pending repair: a repair is
    run only when the idle-time query fails or reports at most 60 whole
    seconds, and only when more than [currentInterval] has passed since
    [lastRepairTime]; with a registered callback it is then run, once.  On
    every such tick whose idle time is known and above 60 whole seconds
    nothing is repaired and the poller is left as it was. *)
Theorem pollTick_sustained_error (e : TickEnv) (p p' : t) (status : string)
    (ex : bool) (evs : list Event) :
  paused p = false ->
  envStatus e = Some status ->
  status <> "OK"%string ->
  lastStatus p <> "OK"%string ->
  pendingRepair p = false ->
  pollTick e p false = (p', ex, evs) ->
  (repairs evs <> 0%nat ->
     retryIdle (envIdle e) /\
     currentInterval p < Since (envNow e) (lastRepairTime p)) /\
  (callback p = true -> retryIdle (envIdle e) ->
   currentInterval p < Since (envNow e) (lastRepairTime p) ->
     repairs evs = 1%nat) /\
  (forall ms, envIdle e = Some ms -> (60 < ms / 1000)%N ->
     repairs evs = 0%nat /\ p' = p /\ ex = false) /\
  (repairs evs <= 1)%nat.
Proof.
  intros Hp Hst Hne Hlast Hpend Htick.
  unfold pollTick, IsPaused in Htick. rewrite Hp, Hst in Htick.
  rewrite (status_neq_OK _ Hne) in Htick.
  unfold case1, case2 in Htick.
  rewrite (status_neq_OK _ Hne) in Htick.
  assert (Hl : (lastStatus p =? "OK")%string = false)
    by (apply String.eqb_neq; exact Hlast).
  rewrite Hl in Htick. simpl andb in Htick. cbv iota in Htick.
  rewrite Hl, Hpend in Htick. simpl negb in Htick. cbv iota in Htick.
  unfold getCurrentInterval in Htick.
  destruct ((0 <=? idleSecOf (envIdle e)) && (60 <? idleSecOf (envIdle e)))
    eqn:Eg.
  - (* the machine is idle: [continue] *)
    injection Htick as <- <- <-.
    assert (Hn : ~ retryIdle (envIdle e)).
    { intros H. apply retry_gate in H. congruence. }
    split; [|split; [|split]].
    + intros H. exfalso. apply H. reflexivity.
    + intros _ H. contradiction.
    + intros ms _ _. repeat split; reflexivity.
    + apply Nat.le_0_l.
  - assert (Hr : retryIdle (envIdle e)) by (apply retry_gate; exact Eg).
    assert (Hfar : forall ms, envIdle e = Some ms -> (60 < ms / 1000)%N -> False).
    { intros ms E H. destruct Hr as [Hr | (ms' & E' & Hr)]; [congruence|].
      rewrite E in E'. injection E' as <-. lia. }
    destruct (Z.ltb_spec (currentInterval p)
                (Since (envNow e) (lastRepairTime p))) as [L | G].
    + (* the interval has elapsed *)
      pose proof (repair_events e false p) as Hev.
      destruct (repair e false p) as [[q x] evs'] eqn:Er. simpl in Hev.
      injection Htick as <- <- <-. subst evs'.
      split; [|split; [|split]].
      * intros _. split; assumption.
      * intros Hcb _ _. rewrite Hcb. reflexivity.
      * intros ms E H. exfalso. exact (Hfar ms E H).
      * destruct (callback p); simpl; auto.
    + injection Htick as <- <- <-.
      split; [|split; [|split]].
      * intros H. exfalso. apply H. reflexivity.
      * intros _ _ H. lia.
      * intros ms E H. exfalso. exact (Hfar ms E H).
      * apply Nat.le_0_l.
Qed.

(** A sustained-error tick on an active machine, past the interval. *)
Lemma pollTick_sustained_error_witness :
  let p := set_lastStatus "Error" (NewWakeEventPoller "touch" true None) in
  let e := mkEnv (Some "Error"%string) (Some 2000%N)
                 (1790000000 * Second) true (1790000004 * Second) in
  repairs (snd (pollTick e p false)) = 1%nat.
Proof.
  intros p e.
  destruct (pollTick_sustained_error e p
              (fst (fst (pollTick e p false))) "Error"
              (snd (fst (pollTick e p false)))
              (snd (pollTick e p false))
              eq_refl eq_refl ltac:(discriminate) ltac:(discriminate)
              eq_refl eq_refl)
    as (_ & H & _).
  apply H.
  - reflexivity.
  - right. exists 2000%N. split; [reflexivity | discriminate].
  - reflexivity.
Defined.

(** C3, as stated, fails: when the idle-time query fails the tick goes on
    to the interval test and repairs, although no idle time of at most 60
    seconds was observed. *)
Lemma repair_with_unknown_idle_time : ~ repairOnlyWhenIdleAtMost60.
Proof.
  intros H.
  pose (p := set_lastStatus "Error" (NewWakeEventPoller "touch" true None)).
  pose (e := mkEnv (Some "Error"%string) None
                   (1790000000 * Second) true (1790000004 * Second)).
  destruct (H e p (fst (fst (pollTick e p false))) "Error"%string
              (snd (fst (pollTick e p false))) (snd (pollTick e p false))
              eq_refl eq_refl ltac:(discriminate) ltac:(discriminate)
              eq_refl eq_refl ltac:(discriminate))
    as [(ms & E & _) _].
  discriminate E.
Qed.

(** The same tick with 60.9 seconds of idle time also repairs: the gate
    compares whole seconds. *)
Example repair_at_60900_ms :
  let p := set_lastStatus "Error" (NewWakeEventPoller "touch" true None) in
  let e := mkEnv (Some "Error"%string) (Some 60900%N)
                 (1790000000 * Second) true (1790000004 * Second) in
  repairs (snd (pollTick e p false)) = 1%nat.
Proof. vm_compute. reflexivity. Qed.

(** *** Pause and resume *)

Lemma Pause_paused (p : t) : paused (Pause p) = true.
Proof. unfold Pause. destruct (paused p) eqn:E; simpl; auto. Qed.

Lemma Pause_idempotent (p : t) : Pause (Pause p) = Pause p.
Proof.
  unfold Pause at 1. rewrite Pause_paused. reflexivity.
Qed.

Lemma recheckStatus_events (status : option string) (p : t) :
  snd (recheckStatus status p) = [EvSleep (2 * Second); EvGetStatus].
Proof.
  unfold recheckStatus. destruct status as [s|]; [|reflexivity].
  destruct (negb (s =? "OK")%string); reflexivity.
Qed.

(** C2. [Resume] on a paused poller with [pendingRepair] set clears
    [paused] and starts the recheck goroutine.  The goroutine (run on the
    state [q] it finds, with the callback registered) sleeps two seconds
    and queries the status exactly once.  If the answer is OK it clears
    [pendingRepair] and runs no repair; if the answer is another status it
    runs one repair, and clears [pendingRepair] (and resets the retry
    state) when the repair reports success, leaving the poller unchanged
    when it reports failure. *)
Theorem Resume_pending_recheck (p q : t) (status : option string)
    (success : bool) :
  paused p = true ->
  pendingRepair p = true ->
  callback q = true ->
  (snd (Resume p) = true /\
   paused (fst (Resume p)) = false /\
   pendingRepair (fst (Resume p)) = true /\
   callback (fst (Resume p)) = callback p) /\
  (let '(q', evs) := resumeRecheck status success q in
   statusQueries evs = 1%nat /\
   firstn 2 evs = [EvSleep (2 * Second); EvGetStatus] /\
   match status with
   | Some s =>
       if (s =? "OK")%string
       then repairs evs = 0%nat /\ q' = set_pendingRepair false q /\
            pendingRepair q' = false
       else repairs evs = 1%nat /\
            (if success
             then q' = ResetRetryState (set_pendingRepair false q) /\
                  pendingRepair q' = false
             else q' = q)
   | None => repairs evs = 0%nat /\ q' = q
   end).
Proof.
  intros Hp Hpend Hcb. split.
  - unfold Resume. rewrite Hp. simpl. rewrite Hpend. auto.
  - unfold resumeRecheck, recheckStatus.
    destruct status as [s|]; [|simpl; auto].
    destruct (s =? "OK")%string; simpl.
    + auto.
    + rewrite Hcb. destruct success; simpl; auto.
Qed.

Lemma Resume_pending_recheck_witness :
  let p := set_paused true
             (set_pendingRepair true
                (set_lastStatus "Error" (NewWakeEventPoller "touch" true None))) in
  snd (Resume p) = true /\
  resumeRecheck (Some "Error"%string) true (fst (Resume p)) =
    (ResetRetryState (set_pendingRepair false (fst (Resume p))),
     [EvSleep (2 * Second); EvGetStatus; EvRepair]) /\
  resumeRecheck (Some "OK"%string) true (fst (Resume p)) =
    (set_pendingRepair false (fst (Resume p)),
     [EvSleep (2 * Second); EvGetStatus]).
Proof.
  intros p.
  pose proof (Resume_pending_recheck p (fst (Resume p)) (Some "Error"%string)
                true eq_refl eq_refl eq_refl) as [[H _] _].
  split; [exact H|]. split; reflexivity.
Defined.

(** C10. [Resume] on a poller that is not paused changes no field, sends
    nothing on the pause channel and starts no recheck, whatever
    [pendingRepair] is: as a step of the system it changes nothing and
    makes no call. *)
Theorem Resume_not_paused_noop (s : Sys) :
  paused (poller s) = false ->
  Resume (poller s) = (poller s, false) /\
  sysStep ActResume s = Some (s, []).
Proof.
  intros H. unfold sysStep, Resume. rewrite H. split; [reflexivity|].
  destruct s; reflexivity.
Qed.

Lemma Resume_not_paused_noop_witness :
  let p := set_pendingRepair true
             (set_lastStatus "Error" (NewWakeEventPoller "touch" true None)) in
  Resume p = (p, false) /\
  sysStep ActResume (initSys p) = Some (initSys p, []).
Proof.
  intros p. exact (Resume_not_paused_noop (initSys p) eq_refl).
Defined.

(** While [paused] is set, a step that is not [Resume] keeps it set and
    calls nothing. *)
Lemma sysStep_paused (a : Action) (s s' : Sys) (evs : list Event) :
  keepsPaused a = true ->
  paused (poller s) = true ->
  sysStep a s = Some (s', evs) ->
  evs = [] /\ paused (poller s') = true.
Proof.
  intros Ha Hp Hs. destruct a; try discriminate Ha; simpl in Hs.
  - destruct (mode s); try discriminate Hs.
    unfold pollTick, IsPaused in Hs. rewrite Hp in Hs.
    injection Hs as <- <-. auto.
  - destruct (pauseChan (poller s)); try discriminate Hs.
    destruct (mode s); try discriminate Hs; injection Hs as <- <-; auto.
  - destruct (mode s); try discriminate Hs;
      destruct (stopChan (poller s)); try discriminate Hs;
      injection Hs as <- <-; auto.
  - injection Hs as <- <-. split; [reflexivity | apply Pause_paused].
  - injection Hs as <- <-. auto.
  - injection Hs as <- <-. auto.
Qed.

(** C6. Once [Pause] has been called, and as long as [Resume] is not, the
    polling goroutine calls nothing: whatever ticks and channel events it
    handles, no status is queried and no repair is run, and [paused] stays
    set. *)
Theorem paused_ticks_skipped (acts : list Action) (s s' : Sys)
    (evs : list Event) :
  forallb keepsPaused acts = true ->
  sysRun (ActPause :: acts) s = Some (s', evs) ->
  evs = [] /\ statusQueries evs = 0%nat /\ repairs evs = 0%nat /\
  paused (poller s') = true.
Proof.
  intros Hacts Hrun.
  assert (G : forall acts s s' evs,
             forallb keepsPaused acts = true ->
             paused (poller s) = true ->
             sysRun acts s = Some (s', evs) ->
             evs = [] /\ paused (poller s') = true).
  { clear. induction acts as [|a acts IH]; intros s s' evs Ha Hp Hr.
    - injection Hr as <- <-. auto.
    - simpl in Ha. apply andb_true_iff in Ha as [Ha1 Ha2]. simpl in Hr.
      destruct (sysStep a s) as [[s1 ev1]|] eqn:E1; [|discriminate].
      destruct (sysRun acts s1) as [[s2 ev2]|] eqn:E2; [|discriminate].
      injection Hr as <- <-.
      destruct (sysStep_paused _ _ _ _ Ha1 Hp E1) as [-> Hp1].
      destruct (IH _ _ _ Ha2 Hp1 E2) as [-> Hp2]. auto. }
  simpl in Hrun.
  destruct (sysRun acts _) as [[s2 ev2]|] eqn:E2; [|discriminate].
  injection Hrun as <- <-.
  apply G in E2; [ | exact Hacts | apply Pause_paused ].
  destruct E2 as [-> Hp]. auto.
Qed.

Lemma paused_ticks_skipped_witness :
  let p := set_lastStatus "OK" (NewWakeEventPoller "touch" true None) in
  let s := mkSys p false Running 0 0 in
  let e := mkEnv (Some "Error"%string) (Some 2000%N) 0 true 5 in
  exists s',
    sysRun [ActPause; ActTicker e; ActTicker e; ActPauseChan] s
      = Some (s', []) /\
    paused (poller s') = true.
Proof.
  intros p s e.
  pose (r := sysRun [ActPause; ActTicker e; ActTicker e; ActPauseChan] s).
  assert (E : r = Some (mkSys (set_pauseChan None (Pause p)) false AwaitResume
                              0 0, [])) by reflexivity.
  exists (mkSys (set_pauseChan None (Pause p)) false AwaitResume 0 0).
  split; [exact E|].
  exact (proj2 (proj2 (proj2
    (paused_ticks_skipped [ActTicker e; ActTicker e; ActPauseChan] s _ []
       eq_refl E)))).
Defined.

(** *** The backoff interval stays within its bounds *)

Section IntervalInvariant.

Variables lo hi : Duration.
Hypothesis lo_pos : 0 < lo.
Hypothesis lo_le_hi : lo <= hi.
Hypothesis hi_small : hi < 2 ^ 62.

Local Abbreviation Inv := (intervalInv lo hi).

Lemma Inv_ResetRetryState (p : t) : Inv p -> Inv (ResetRetryState p).
Proof.
  unfold intervalInv, ResetRetryState. simpl. intros (-> & -> & H). lia.
Qed.

Lemma Inv_incrementFails (p : t) : Inv p -> Inv (fst (incrementFails p)).
Proof.
  unfold intervalInv, incrementFails. simpl. intros (Hb & Hm & Hc).
  destruct ((0 <? maxRetryCount p)
            && (maxRetryCount p <=? wrap64 (consecutiveFails p + 1)));
    simpl; [auto|].
  rewrite wrap64_small by (unfold inInt64, minInt64, maxInt64; lia).
  destruct (Z.ltb_spec (maxRetryInterval p) (currentInterval p * 2));
    simpl; repeat split; auto; lia.
Qed.

Lemma Inv_repair (e : TickEnv) (ex : bool) (p : t) :
  Inv p -> Inv (fst (fst (repair e ex p))).
Proof.
  intros H. unfold repair. destruct (callback p); [|exact H].
  assert (H1 : Inv (set_lastRepairTime (envNowAfter e) p)) by exact H.
  destruct (envSuccess e); simpl.
  - apply Inv_ResetRetryState, H1.
  - pose proof (Inv_incrementFails _ H1) as H2.
    destruct (incrementFails _). exact H2.
Qed.

Lemma Inv_pollStart (e : TickEnv) (p : t) :
  Inv p -> Inv (fst (pollStart e p)).
Proof.
  intros H. unfold pollStart. destruct (envStatus e) as [status|]; [|exact H].
  destruct (negb (status =? "OK")%string); [|exact H].
  pose proof (Inv_repair e false (set_lastStatus status p) H) as H1.
  destruct (repair e false (set_lastStatus status p)) as [[q x] evs].
  exact H1.
Qed.

Lemma Inv_case1 (status : string) (idleSec : Z) (p : t) :
  Inv p -> Inv (fst (case1 status idleSec p)).
Proof.
  intros H. unfold case1.
  destruct (negb (status =? "OK")%string && (lastStatus p =? "OK")%string);
    [|exact H].
  destruct ((idleSec <? 0) || (300 <=? idleSec)); simpl; [exact H|].
  apply Inv_ResetRetryState. exact H.
Qed.

Lemma Inv_case2 (status : string) (idleSec : Z) (now : Time) (sr : bool)
    (p : t) :
  Inv p -> Inv (fst (case2 status idleSec now sr p)).
Proof.
  intros H. unfold case2.
  destruct (negb (status =? "OK")%string
            && negb (lastStatus p =? "OK")%string); [|exact H].
  assert (R : Inv (ResetRetryState (set_pendingRepair false p)))
    by (apply Inv_ResetRetryState; exact H).
  destruct (pendingRepair p).
  - destruct ((0 <=? idleSec) && (idleSec <=? 60)); [|exact H].
    destruct (_ <? _); exact R.
  - destruct ((0 <=? idleSec) && (60 <? idleSec)); [exact H|].
    destruct (_ <? _); exact H.
Qed.

Lemma Inv_pollTick (e : TickEnv) (p : t) (ex : bool) :
  Inv p -> Inv (fst (fst (pollTick e p ex))).
Proof.
  intros H. unfold pollTick. destruct (IsPaused p); [exact H|].
  destruct ex.
  - destruct (envStatus e) as [status|]; [|exact H].
    destruct (status =? "OK")%string; [|exact H].
    simpl. apply (Inv_ResetRetryState p H).
  - destruct (envStatus e) as [status|]; [|exact H].
    set (p1 := if (status =? "OK")%string then set_pendingRepair false p
               else p).
    assert (H1 : Inv p1) by (unfold p1; destruct (_ =? _)%string; exact H).
    pose proof (Inv_case1 status (idleSecOf (envIdle e)) p1 H1) as H2.
    destruct (case1 status (idleSecOf (envIdle e)) p1) as [p2 [sr|]];
      [|exact H2].
    pose proof (Inv_case2 status (idleSecOf (envIdle e)) (envNow e) sr p2 H2)
      as H3.
    destruct (case2 status (idleSecOf (envIdle e)) (envNow e) sr p2)
      as [p3 [sr'|]]; [|exact H3].
    destruct sr'; [|exact H3].
    pose proof (Inv_repair e false p3 H3) as H4.
    destruct (repair e false p3) as [[q x] evs]. exact H4.
Qed.

Lemma Inv_recheckStatus (status : option string) (p : t) :
  Inv p -> Inv (fst (fst (recheckStatus status p))).
Proof.
  intros H. unfold recheckStatus. destruct status as [s|]; [|exact H].
  destruct (negb (s =? "OK")%string); exact H.
Qed.

Lemma Inv_recheckRepaired (success : bool) (p : t) :
  Inv p -> Inv (recheckRepaired success p).
Proof.
  intros H. unfold recheckRepaired. destruct success; [|exact H].
  apply Inv_ResetRetryState. exact H.
Qed.

Lemma Inv_Pause (p : t) : Inv p -> Inv (Pause p).
Proof. intros H. unfold Pause. destruct (negb (paused p)); exact H. Qed.

Lemma Inv_Resume (p : t) : Inv p -> Inv (fst (Resume p)).
Proof. intros H. unfold Resume. destruct (paused p); exact H. Qed.

Lemma Inv_sysStep (a : Action) (s s' : Sys) (evs : list Event) :
  Inv (poller s) -> sysStep a s = Some (s', evs) -> Inv (poller s').
Proof.
  intros H Hs. destruct a; simpl in Hs.
  - destruct (mode s); try discriminate.
    pose proof (Inv_pollStart e _ H) as H1.
    destruct (pollStart e (poller s)). injection Hs as <- <-. exact H1.
  - destruct (mode s); try discriminate.
    pose proof (Inv_pollTick e _ (exceededMaxRetry s) H) as H1.
    destruct (pollTick e (poller s) (exceededMaxRetry s)) as [[q x] ev].
    injection Hs as <- <-. exact H1.
  - destruct (pauseChan (poller s)); try discriminate.
    destruct (mode s); try discriminate; injection Hs as <- <-; exact H.
  - destruct (mode s); try discriminate;
      destruct (stopChan (poller s)); try discriminate;
      injection Hs as <- <-; exact H.
  - injection Hs as <- <-. apply Inv_Pause, H.
  - pose proof (Inv_Resume _ H) as H1.
    destruct (Resume (poller s)). injection Hs as <- <-. exact H1.
  - injection Hs as <- <-. exact H.
  - injection Hs as <- <-. apply Inv_ResetRetryState, H.
  - destruct (sleeping s); try discriminate.
    pose proof (Inv_recheckStatus status _ H) as H1.
    destruct (recheckStatus status (poller s)) as [[q r] ev].
    injection Hs as <- <-. exact H1.
  - destruct (repairing s); try discriminate.
    injection Hs as <- <-. apply Inv_recheckRepaired, H.
Qed.

Lemma Inv_sysRun (acts : list Action) :
  forall (s s' : Sys) (evs : list Event),
    Inv (poller s) -> sysRun acts s = Some (s', evs) -> Inv (poller s').
Proof.
  induction acts as [|a acts IH]; intros s s' evs H Hr; simpl in Hr.
  - injection Hr as <- <-. exact H.
  - destruct (sysStep a s) as [[s1 ev1]|] eqn:E1; [|discriminate].
    destruct (sysRun acts s1) as [[s2 ev2]|] eqn:E2; [|discriminate].
    injection Hr as <- <-.
    eapply IH; [|exact E2]. eapply Inv_sysStep; eauto.
Qed.

End IntervalInvariant.

Lemma NewWakeEventPoller_base_pos (deviceID : string) (cb : bool)
    (cfg : option PollerConfig) :
  0 < baseRetryInterval (NewWakeEventPoller deviceID cb cfg).
Proof.
  unfold NewWakeEventPoller. simpl. destruct cfg as [c|]; [|reflexivity].
  destruct (Z.ltb_spec 0 (BaseRetryInterval c)); [assumption | reflexivity].
Qed.

Lemma repairs_app (a b : list Event) :
  repairs (a ++ b) = (repairs a + repairs b)%nat.
Proof. unfold repairs. rewrite filter_app, length_app. reflexivity. Qed.

Lemma repair_interval (lo hi : Duration) (e : TickEnv) (ex : bool) (p : t) :
  0 < lo -> hi < 2 ^ 62 ->
  intervalInv lo hi p ->
  callback p = true ->
  afterRepair lo hi (envSuccess e) (currentInterval p)
    (fst (fst (repair e ex p))) /\
  snd (fst (repair e ex p))
    = (if envSuccess e then ex
       else if reachedMaxRetry (fst (fst (repair e ex p))) then true else ex).
Proof.
  intros Hpos Hsmall (Hb & Hm & Hc) Hcb.
  unfold repair, afterRepair, reachedMaxRetry, incrementFails.
  rewrite Hcb. destruct (envSuccess e); simpl.
  - rewrite Hb. auto.
  - destruct ((0 <? maxRetryCount p)
              && (maxRetryCount p <=? wrap64 (consecutiveFails p + 1))) eqn:E;
      simpl.
    + rewrite E. auto.
    + assert (W : wrap64 (currentInterval p * 2) = currentInterval p * 2)
        by (apply wrap64_small; unfold inInt64, minInt64, maxInt64; lia).
      rewrite W, Hm.
      destruct (Z.ltb_spec hi (currentInterval p * 2)); simpl; rewrite E;
        split; try reflexivity; lia.
Qed.

Lemma repair_none (e : TickEnv) (ex : bool) (p : t) :
  callback p = false -> repairs (snd (repair e ex p)) = 0%nat.
Proof. intros H. rewrite repair_events, H. reflexivity. Qed.

(** The repair of the initial check runs on the interval as it is. *)
Lemma pollStart_interval (lo hi : Duration) (e : TickEnv) (p p' : t)
    (evs : list Event) :
  0 < lo -> hi < 2 ^ 62 ->
  intervalInv lo hi p ->
  pollStart e p = (p', evs) ->
  repairs evs <> 0%nat ->
  afterRepair lo hi (envSuccess e) (currentInterval p) p'.
Proof.
  intros Hpos Hsmall Hinv H Hrep. unfold pollStart in H.
  destruct (envStatus e) as [status|];
    [|injection H as <- <-; exfalso; apply Hrep; reflexivity].
  destruct (negb (status =? "OK")%string);
    [|injection H as <- <-; exfalso; apply Hrep; reflexivity].
  destruct (callback p) eqn:Hcb.
  - pose proof (repair_interval lo hi e false (set_lastStatus status p)
                  Hpos Hsmall Hinv Hcb) as [R _].
    destruct (repair e false (set_lastStatus status p)) as [[q x] ev].
    injection H as <- <-. exact R.
  - pose proof (repair_none e false (set_lastStatus status p) Hcb) as R.
    destruct (repair e false (set_lastStatus status p)) as [[q x] ev].
    injection H as <- <-. simpl in R. exfalso. apply Hrep.
    unfold repairs in *. simpl. exact R.
Qed.

(** The repair of a tick runs on the interval [intervalAtRepair]; the
    loop takes note of a failure that reaches [maxRetryCount]. *)
Lemma pollTick_interval (lo hi : Duration) (e : TickEnv) (p p' : t)
    (ex ex' : bool) (evs : list Event) :
  0 < lo -> lo <= hi -> hi < 2 ^ 62 ->
  intervalInv lo hi p ->
  pollTick e p ex = (p', ex', evs) ->
  repairs evs <> 0%nat ->
  afterRepair lo hi (envSuccess e) (intervalAtRepair lo p) p' /\
  ex' = (if envSuccess e then false else reachedMaxRetry p').
Proof.
  intros Hpos Hle Hsmall Hinv H Hrep.
  assert (Hreset : forall q, intervalInv lo hi q ->
            intervalInv lo hi (ResetRetryState (set_pendingRepair false q)) /\
            currentInterval (ResetRetryState (set_pendingRepair false q)) = lo).
  { intros q (Hb & Hm & Hc). unfold intervalInv, ResetRetryState. simpl.
    repeat split; auto; lia. }
  assert (Run : forall q status,
            intervalInv lo hi q ->
            (let '(q1, x, ev) := repair e false q in
             (set_lastStatus status q1, x,
              [EvGetStatus; EvGetIdleTime] ++ ev)) = (p', ex', evs) ->
            afterRepair lo hi (envSuccess e) (currentInterval q) p' /\
            ex' = (if envSuccess e then false else reachedMaxRetry p')).
  { intros q status Hq Hr.
    destruct (callback q) eqn:Hcb.
    - pose proof (repair_interval lo hi e false q Hpos Hsmall Hq Hcb)
        as [R X].
      destruct (repair e false q) as [[q1 x] ev].
      injection Hr as <- <- <-. simpl in R, X. split.
      + unfold afterRepair, reachedMaxRetry in *. simpl. exact R.
      + rewrite X. unfold reachedMaxRetry. simpl.
        destruct (envSuccess e); [reflexivity|].
        destruct (_ && _); reflexivity.
    - pose proof (repair_none e false q Hcb) as R.
      destruct (repair e false q) as [[q1 x] ev].
      injection Hr as <- <- <-. simpl in R. exfalso. apply Hrep.
      unfold repairs in *. simpl. exact R. }
  unfold pollTick, IsPaused in H.
  destruct (paused p);
    [injection H as <- <- <-; exfalso; apply Hrep; reflexivity|].
  destruct ex.
  { destruct (envStatus e) as [status|];
      [destruct (status =? "OK")%string|];
      injection H as <- <- <-; exfalso; apply Hrep; reflexivity. }
  destruct (envStatus e) as [status|];
    [|injection H as <- <- <-; exfalso; apply Hrep; reflexivity].
  unfold intervalAtRepair.
  destruct (status =? "OK")%string eqn:Es.
  { unfold case1, case2 in H. rewrite Es in H. simpl in H.
    injection H as <- <- <-. exfalso. apply Hrep. reflexivity. }
  unfold case1, case2, getCurrentInterval in H. rewrite Es in H.
  cbn [negb andb] in H.
  destruct (lastStatus p =? "OK")%string eqn:El; cbn [orb].
  - (* the status has changed *)
    destruct ((idleSecOf (envIdle e) <? 0) || (300 <=? idleSecOf (envIdle e)));
      [injection H as <- <- <-; exfalso; apply Hrep; reflexivity|].
    cbn [lastStatus ResetRetryState set_pendingRepair set_consecutiveFails
         set_currentInterval] in H.
    rewrite El in H. cbn [negb] in H.
    destruct (Hreset p Hinv) as [Hq Hc].
    destruct (Run _ status Hq H) as [R X]. rewrite Hc in R. auto.
  - (* the error is sustained *)
    rewrite El in H. cbn [negb] in H.
    destruct (pendingRepair p) eqn:Ep; cbn [orb].
    + destruct ((0 <=? idleSecOf (envIdle e))
                && (idleSecOf (envIdle e) <=? 60));
        [|injection H as <- <- <-; exfalso; apply Hrep; reflexivity].
      destruct (Hreset p Hinv) as [Hq Hc].
      destruct (_ <? _) in H;
        destruct (Run _ status Hq H) as [R X]; rewrite Hc in R; auto.
    + destruct ((0 <=? idleSecOf (envIdle e))
                && (60 <? idleSecOf (envIdle e)));
        [injection H as <- <- <-; exfalso; apply Hrep; reflexivity|].
      destruct (_ <? _) in H.
      * destruct (Run _ status Hinv H) as [R X]. auto.
      * injection H as <- <- <-. exfalso. apply Hrep. reflexivity.
Qed.

(** C5 (amended). For a poller built by [NewWakeEventPoller] whose bounds
    are ordered and whose upper bound can be doubled without leaving the
    range of a [Duration] (below 2^62 ns), after every sequence of actions
    of the system (initial check, ticks, pause and resume, rechecks, with
    any answers of the device and any repair outcomes) the current interval
    lies between [baseRetryInterval] and [maxRetryInterval].  It starts at
    [baseRetryInterval]; a recorded failure that does not reach
    [maxRetryCount] doubles it up to [maxRetryInterval], one that reaches
    it leaves it as it is; [ResetRetryState] (a success) puts it back to
    [baseRetryInterval].  The repairs of the system are tied to this: a
    repair run by the initial check or by a tick ends, on success, with the
    interval at [baseRetryInterval] and, on failure, with the interval that
    was in force when the callback ran (the base interval when the tick
    had reset the retry state before the repair, the current one
    otherwise) doubled up to [maxRetryInterval], or unchanged when the
    failure reaches [maxRetryCount], which a tick then records in
    [exceededMaxRetry]; a repair run by the recheck that [Resume] starts
    resets the interval on success, and on failure is not counted and
    leaves the poller as it is. *)
Theorem currentInterval_bounds (deviceID : string) (cb : bool)
    (cfg : option PollerConfig) (acts : list Action) (s : Sys)
    (evs : list Event) :
  let p0 := NewWakeEventPoller deviceID cb cfg in
  baseRetryInterval p0 <= maxRetryInterval p0 ->
  maxRetryInterval p0 < 2 ^ 62 ->
  sysRun acts (initSys p0) = Some (s, evs) ->
  currentInterval p0 = baseRetryInterval p0 /\
  baseRetryInterval p0 <= currentInterval (poller s) <= maxRetryInterval p0 /\
  currentInterval (ResetRetryState (poller s)) = baseRetryInterval p0 /\
  (snd (incrementFails (poller s)) = true ->
     currentInterval (fst (incrementFails (poller s))) =
       Z.min (currentInterval (poller s) * 2) (maxRetryInterval p0)) /\
  (snd (incrementFails (poller s)) = false ->
     currentInterval (fst (incrementFails (poller s))) =
       currentInterval (poller s)) /\
  (forall (e : TickEnv) (s1 : Sys) (ev1 : list Event),
     sysStep (ActStart e) s = Some (s1, ev1) ->
     repairs ev1 <> 0%nat ->
     afterRepair (baseRetryInterval p0) (maxRetryInterval p0) (envSuccess e)
       (currentInterval (poller s)) (poller s1)) /\
  (forall (e : TickEnv) (s1 : Sys) (ev1 : list Event),
     sysStep (ActTicker e) s = Some (s1, ev1) ->
     repairs ev1 <> 0%nat ->
     afterRepair (baseRetryInterval p0) (maxRetryInterval p0) (envSuccess e)
       (intervalAtRepair (baseRetryInterval p0) (poller s)) (poller s1) /\
     exceededMaxRetry s1
       = (if envSuccess e then false else reachedMaxRetry (poller s1))) /\
  (forall (success : bool) (s1 : Sys) (ev1 : list Event),
     sysStep (ActRecheckRepaired success) s = Some (s1, ev1) ->
     if success
     then currentInterval (poller s1) = baseRetryInterval p0 /\
          consecutiveFails (poller s1) = 0
     else poller s1 = poller s).
Proof.
  intros p0 Hle Hsmall Hrun.
  assert (Hpos : 0 < baseRetryInterval p0)
    by apply NewWakeEventPoller_base_pos.
  assert (H0 : intervalInv (baseRetryInterval p0) (maxRetryInterval p0) p0).
  { unfold intervalInv. repeat split; try reflexivity. exact Hle. }
  pose proof (Inv_sysRun _ _ Hpos Hle Hsmall acts (initSys p0) s evs H0 Hrun)
    as Hinv.
  pose proof Hinv as (Hb & Hm & Hc).
  split; [reflexivity|]. clearbody p0.
  split; [exact Hc|]. split; [exact Hb|].
  assert (Hfn :
    (snd (incrementFails (poller s)) = true ->
       currentInterval (fst (incrementFails (poller s))) =
         Z.min (currentInterval (poller s) * 2) (maxRetryInterval p0)) /\
    (snd (incrementFails (poller s)) = false ->
       currentInterval (fst (incrementFails (poller s))) =
         currentInterval (poller s))).
  { unfold incrementFails. simpl.
    destruct ((0 <? maxRetryCount (poller s))
              && (maxRetryCount (poller s)
                  <=? wrap64 (consecutiveFails (poller s) + 1))); simpl.
    - split; [discriminate | reflexivity].
    - split; [intros _ | discriminate].
      rewrite wrap64_small by (unfold inInt64, minInt64, maxInt64; lia).
      rewrite Hm.
      destruct (Z.ltb_spec (maxRetryInterval p0)
                  (currentInterval (poller s) * 2)); simpl; lia. }
  destruct Hfn as [Hf1 Hf2].
  split; [exact Hf1|]. split; [exact Hf2|].
  split; [|split].
  - intros e s1 ev1 Hstep Hrep. simpl in Hstep.
    destruct (mode s); try discriminate Hstep.
    destruct (pollStart e (poller s)) as [p' ev] eqn:Ep.
    injection Hstep as <- <-. simpl.
    exact (pollStart_interval _ _ e (poller s) p' ev Hpos Hsmall Hinv Ep
             Hrep).
  - intros e s1 ev1 Hstep Hrep. simpl in Hstep.
    destruct (mode s); try discriminate Hstep.
    destruct (pollTick e (poller s) (exceededMaxRetry s)) as [[p' ex'] ev]
      eqn:Ep.
    injection Hstep as <- <-. simpl.
    exact (pollTick_interval _ _ e (poller s) p' _ ex' ev Hpos Hle Hsmall
             Hinv Ep Hrep).
  - intros success s1 ev1 Hstep. simpl in Hstep.
    destruct (repairing s); [discriminate Hstep|].
    injection Hstep as <- <-. simpl.
    unfold recheckRepaired. destruct success; [|reflexivity].
    unfold ResetRetryState. simpl. auto.
Qed.

(** Three failed repairs with the default bounds: 60 s, 120 s, 240 s. *)
Lemma currentInterval_bounds_witness :
  let p0 := NewWakeEventPoller "touch" true None in
  let t0 := 1790000000 * Second in
  let fail (k : Z) := mkEnv (Some "Error"%string) (Some 2000%N)
                            (t0 + k * Minute) false (t0 + k * Minute) in
  exists s evs,
    sysRun [ActStart (fail 0); ActTicker (fail 20); ActTicker (fail 40)]
           (initSys p0) = Some (s, evs) /\
    currentInterval (poller s) = 480 * Second /\
    baseRetryInterval p0 <= currentInterval (poller s) <= maxRetryInterval p0.
Proof.
  intros p0 t0 fail.
  destruct (sysRun [ActStart (fail 0); ActTicker (fail 20);
                    ActTicker (fail 40)] (initSys p0))
    as [[s evs]|] eqn:E; [|vm_compute in E; discriminate E].
  exists s, evs. split; [reflexivity|].
  pose proof (currentInterval_bounds "touch" true None _ s evs
                ltac:(discriminate) eq_refl E) as (_ & H & _).
  split; [|exact H].
  vm_compute in E. injection E as <- _. reflexivity.
Defined.

(** C5, as stated, fails twice.  With a base interval of 4611686019 s
    and a maximum of 9223372036 s (both fit a [Duration], and the bounds
    are ordered) the first failed repair doubles the interval out of the
    range of [Duration]; it wraps to a negative value, below
    [baseRetryInterval].  And a failure that reaches [maxRetryCount] does
    not double the interval: [incrementFails] returns before. *)
Lemma interval_overflow_and_exhaustion :
  ~ intervalAlwaysWithinBounds /\ ~ failureAlwaysDoubles.
Proof.
  split.
  - intros H.
    pose (cfg := Some (mkCfg (4611686019 * Second) (9223372036 * Second) 0)).
    pose (e := mkEnv (Some "Error"%string) None 0 false 0).
    destruct (sysRun [ActStart e]
                (initSys (NewWakeEventPoller "touch" true cfg)))
      as [[s evs]|] eqn:E; [|vm_compute in E; discriminate E].
    pose proof (H "touch"%string true cfg [ActStart e] s evs
                  ltac:(vm_compute; discriminate) E) as [Hlo _].
    vm_compute in E. injection E as <- _.
    vm_compute in Hlo. apply Hlo. reflexivity.
  - intros H.
    pose (p := NewWakeEventPoller "touch" true
                 (Some (mkCfg (60 * Second) (600 * Second) 1))).
    specialize (H p ltac:(split; [reflexivity | vm_compute; discriminate])
                  eq_refl).
    vm_compute in H. discriminate H.
Qed.

Example interval_after_overflow :
  let p := NewWakeEventPoller "touch" true
             (Some (mkCfg (4611686019 * Second) (9223372036 * Second) 0)) in
  baseRetryInterval p = 4611686019000000000 /\
  maxRetryInterval p = 9223372036000000000 /\
  currentInterval (fst (incrementFails p)) = - 9223372035709551616.
Proof. vm_compute. repeat split; reflexivity. Qed.

(** A failed repair in the recheck started by [Resume] is not counted:
    the failure is deferred by a tick during a long idle time, the poller
    is paused and resumed, the recheck repairs and fails; the count stays
    0 and the interval stays at the base. *)
Example recheck_failure_not_counted :
  let p0 := NewWakeEventPoller "touch" true None in
  let t0 := 1790000000 * Second in
  let ok := mkEnv (Some "OK"%string) (Some 2000%N) t0 true t0 in
  let asleep := mkEnv (Some "Error"%string) None t0 false t0 in
  exists s evs,
    sysRun [ActStart ok; ActTicker asleep; ActPause; ActResume;
            ActRecheckStatus (Some "Error"%string); ActRecheckRepaired false]
           (initSys p0) = Some (s, evs) /\
    repairs evs = 1%nat /\
    consecutiveFails (poller s) = 0 /\
    currentInterval (poller s) = baseRetryInterval p0.
Proof.
  intros p0 t0 ok asleep.
  destruct (sysRun [ActStart ok; ActTicker asleep; ActPause; ActResume;
                    ActRecheckStatus (Some "Error"%string);
                    ActRecheckRepaired false] (initSys p0))
    as [[s evs]|] eqn:E; [|vm_compute in E; discriminate E].
  exists s, evs. split; [reflexivity|].
  vm_compute in E. injection E as <- <-. repeat split; reflexivity.
Qed.

(** *** The wait entered on a pause signal *)

(** Once the polling goroutine has taken a pause signal it stays in its
    inner loop: a later value on the pause channel is consumed and the
    wait goes on; only the stop channel ends it. *)
Lemma AwaitResume_only_stop (a : Action) (s s' : Sys) (evs : list Event) :
  mode s = AwaitResume ->
  sysStep a s = Some (s', evs) ->
  evs = [] /\ (mode s' = AwaitResume \/ (a = ActStopChan /\ mode s' = Returned))
  \/ isLoopAction a = false.
Proof.
  intros Hm Hs. destruct a; simpl in Hs |- *; rewrite ?Hm in Hs;
    try (right; reflexivity); try discriminate Hs; left.
  - destruct (pauseChan (poller s)); try discriminate Hs.
    injection Hs as <- <-. auto.
  - destruct (stopChan (poller s)); try discriminate Hs.
    injection Hs as <- <-. auto.
Qed.

(** *** Exhausted retries *)

(** A tick in the exhausted state only queries the status: it never
    repairs; an OK resets the retry state and leaves the exhausted state,
    anything else changes nothing. *)
Lemma pollTick_exhausted (e : TickEnv) (p p' : t) (ex : bool)
    (evs : list Event) :
  paused p = false ->
  pollTick e p true = (p', ex, evs) ->
  evs = [EvGetStatus] /\ repairs evs = 0%nat /\
  (envStatus e = Some "OK"%string ->
     ex = false /\ p' = set_lastStatus "OK" (ResetRetryState p)) /\
  (envStatus e <> Some "OK"%string -> ex = true /\ p' = p).
Proof.
  intros Hp Ht. unfold pollTick, IsPaused in Ht. rewrite Hp in Ht.
  destruct (envStatus e) as [status|].
  - destruct (status =? "OK")%string eqn:Es; injection Ht as <- <- <-.
    + apply String.eqb_eq in Es. subst status.
      repeat split; auto; congruence.
    + apply String.eqb_neq in Es.
      repeat split; auto; congruence.
  - injection Ht as <- <- <-. repeat split; auto; discriminate.
Qed.

(** A tick that is not exhausted becomes exhausted exactly when a failed
    repair brings [consecutiveFails] to [maxRetryCount] (positive). *)
Lemma pollTick_becomes_exhausted (e : TickEnv) (p p' : t)
    (evs : list Event) :
  pollTick e p false = (p', true, evs) ->
  repairs evs = 1%nat /\ envSuccess e = false /\
  0 < maxRetryCount p' <= consecutiveFails p'.
Proof.
  unfold pollTick. destruct (IsPaused p); [discriminate|].
  destruct (envStatus e) as [status|]; [|discriminate].
  destruct (case1 _ _ _) as [p2 [sr|]]; [|discriminate].
  destruct (case2 _ _ _ _ _) as [p3 [sr'|]]; [|discriminate].
  destruct sr'; [|discriminate].
  unfold repair. destruct (callback p3); [|discriminate].
  destruct (envSuccess e); [discriminate|].
  unfold incrementFails. simpl.
  destruct ((0 <? maxRetryCount p3)
            && (maxRetryCount p3 <=? wrap64 (consecutiveFails p3 + 1))) eqn:E.
  - intros H. injection H as <- <-. simpl.
    apply andb_true_iff in E as [E1 E2].
    apply Z.ltb_lt in E1. apply Z.leb_le in E2. auto.
  - destruct (_ <? _); discriminate.
Qed.

(** From the exhausted state, ticks that do not observe OK never repair,
    whatever the clock says. *)
Lemma exhausted_until_OK (envs : list TickEnv) :
  forall (s s' : Sys) (evs : list Event),
    exceededMaxRetry s = true ->
    Forall (fun e => envStatus e <> Some "OK"%string) envs ->
    sysRun (map ActTicker envs) s = Some (s', evs) ->
    repairs evs = 0%nat /\ exceededMaxRetry s' = true.
Proof.
  induction envs as [|e envs IH]; intros s s' evs Hex Hall Hr; simpl in Hr.
  - injection Hr as <- <-. auto.
  - inversion Hall as [|? ? He Hall']; subst.
    destruct (mode s); try discriminate.
    destruct (pollTick e (poller s) (exceededMaxRetry s)) as [[q x] ev1] eqn:Et.
    destruct (sysRun (map ActTicker envs) _) as [[s2 ev2]|] eqn:E2;
      [|discriminate].
    injection Hr as <- <-. rewrite Hex in Et.
    assert (Hx : x = true /\ repairs ev1 = 0%nat).
    { unfold pollTick in Et. destruct (IsPaused (poller s)).
      - injection Et as <- <- <-. auto.
      - destruct (envStatus e) as [status|].
        + destruct (status =? "OK")%string eqn:Es.
          * apply String.eqb_eq in Es. congruence.
          * injection Et as <- <- <-. auto.
        + injection Et as <- <- <-. auto. }
    destruct Hx as [-> H1].
    apply IH in E2; [|reflexivity|exact Hall'].
    destruct E2 as [H2 H3]. rewrite repairs_app, H1, H2. auto.
Qed.

(** C4, on the code.  With [maxRetryCount = 1], a repair that fails in the
    initial check of [poll] brings [consecutiveFails] to [maxRetryCount],
    but the result of [incrementFails] is dropped there and
    [exceededMaxRetry] stays false: a later tick that still sees the error,
    80 seconds on, runs another repair. *)
Theorem startup_failure_keeps_repairing :
  let p0 := NewWakeEventPoller "touch" true
              (Some (mkCfg (60 * Second) (600 * Second) 1)) in
  let t0 := 1790000000 * Second in
  let e1 := mkEnv (Some "Error"%string) (Some 1000%N) t0 false
                  (t0 + 10 * Second) in
  let e2 := mkEnv (Some "Error"%string) (Some 1000%N) (t0 + 90 * Second)
                  false (t0 + 100 * Second) in
  exists s1 s2,
    sysStep (ActStart e1) (initSys p0) = Some (s1, [EvGetStatus; EvRepair]) /\
    maxRetryCount (poller s1) = 1 /\
    consecutiveFails (poller s1) = 1 /\
    snd (incrementFails (set_lastRepairTime (t0 + 10 * Second)
                           (set_lastStatus "Error" p0))) = false /\
    exceededMaxRetry s1 = false /\
    sysStep (ActTicker e2) s1
      = Some (s2, [EvGetStatus; EvGetIdleTime; EvRepair]) /\
    consecutiveFails (poller s2) = 2 /\
    exceededMaxRetry s2 = true.
Proof.
  intros p0 t0 e1 e2.
  destruct (sysStep (ActStart e1) (initSys p0)) as [[s1 ev1]|] eqn:E1;
    [|vm_compute in E1; discriminate E1].
  vm_compute in E1. injection E1 as <- <-.
  eexists. eexists.
  split; [reflexivity|]. split; [reflexivity|]. split; [reflexivity|].
  split; [vm_compute; reflexivity|]. split; [reflexivity|].
  split; [vm_compute; reflexivity|]. split; reflexivity.
Qed.
End WakeEventPollerFacts.

(** ** Repair orchestrator *)

Module ServiceFacts.
Import GoInt GoTime Service.

Section Orchestrator.

Variable EqualFold : string -> string -> bool.

Local Abbreviation run := (handlePolledWake EqualFold).
Local Abbreviation verified := (verifiedOK EqualFold).

Local Ltac cases e :=
  unfold handlePolledWake, verifiedOK, skipped, resetOK, resets,
    DeviceManager.Reset, DeviceManager.Disable, DeviceManager.Enable;
  destruct (envPre e) as [pre|];
  [ destruct (EqualFold pre "OK") eqn:Epre | ];
  destruct (DeviceManager.envDisable (envReset e)) as [adm|];
  destruct (DeviceManager.envEnable (envReset e));
  destruct (envVerify e) as [fin|];
  try destruct (EqualFold fin "OK") eqn:Efin;
  simpl.

Local Ltac crush :=
  repeat match goal with
  | |- _ /\ _ => split
  | |- _ <-> _ => split
  | |- forall _, _ => intro
  | |- ~ _ => intro
  | H : _ /\ _ |- _ => destruct H
  | H : exists _, _ |- _ => destruct H
  | H : _ \/ _ |- _ => destruct H
  | H : False |- _ => destruct H
  | H : forall s, Some ?a = Some s -> _ |- _ => specialize (H a eq_refl)
  | H : Some _ = Some _ |- _ => injection H as H; try subst
  | H : _ = _ |- _ => discriminate H
  end;
  try congruence; try reflexivity;
  try (eexists; split; [reflexivity | assumption]);
  try (exfalso; eauto; fail);
  auto 12.

(** The reset is run unless the first check found the device OK; a
    skipped run reports success and records a skip, no reset. *)
Lemma handlePolledWake_skip (cfg : Config) (e : WakeEnv) :
  (resets (snd (run cfg e)) = 0%nat <-> skipped EqualFold e) /\
  (resets (snd (run cfg e)) = 1%nat <-> ~ skipped EqualFold e) /\
  (skipped EqualFold e ->
     fst (run cfg e) = true /\ In EvRecordSkip (snd (run cfg e)) /\
     forall b, ~ In (EvRecordReset b) (snd (run cfg e))).
Proof.
  cases e; crush.
Qed.

(** C9. A run of [handlePolledWake] is recorded ([RecordReset(true)])
    and reported (return value [true]) as a success if and only if the
    reset was run, returned no error, and the status query after it
    answered OK.  When a reset is attempted, the return value alone is
    [true] exactly in that case.  A reset that completes without error but
    leaves another status is recorded and reported as a failure, and so is
    one whose verification query fails.  A reported failure always comes
    with a recorded failure and never with a verification query that
    answered OK. *)
Theorem handlePolledWake_success_iff_verified (cfg : Config) (e : WakeEnv) :
  let ok := fst (run cfg e) in
  let evs := snd (run cfg e) in
  (ok = true /\ In (EvRecordReset true) evs <-> verified e) /\
  (In (EvRecordReset true) evs <-> verified e) /\
  (resets evs = 1%nat -> (ok = true <-> verified e)) /\
  (resets evs = 1%nat -> resetOK e ->
     forall finalStatus,
       envVerify e = Some finalStatus ->
       EqualFold finalStatus "OK" = false ->
       ok = false /\ In (EvRecordReset false) evs /\
       ~ In (EvRecordReset true) evs) /\
  (resets evs = 1%nat -> resetOK e -> envVerify e = None ->
     ok = false /\ In (EvRecordReset false) evs /\
     ~ In (EvRecordReset true) evs) /\
  (resets evs = 1%nat -> ~ resetOK e ->
     ok = false /\ In (EvRecordReset false) evs /\
     ~ In (EvRecordReset true) evs) /\
  (ok = false ->
     resets evs = 1%nat /\ In (EvRecordReset false) evs /\
     ~ In (EvRecordReset true) evs /\ ~ verified e /\
     (resetOK e -> forall finalStatus,
        envVerify e = Some finalStatus ->
        EqualFold finalStatus "OK" = false)).
Proof.
  cbv zeta. cases e; crush.
Qed.

(** With a case-insensitive comparison that accepts "OK" itself, a
    reported failure never comes with a verification answer "OK", and a
    verification answer "OK" after a clean reset is a reported success. *)
Lemma handlePolledWake_exact_OK (cfg : Config) (e : WakeEnv) :
  EqualFold "OK" "OK" = true ->
  (fst (run cfg e) = false -> resetOK e -> envVerify e <> Some "OK"%string) /\
  (~ skipped EqualFold e -> resetOK e -> envVerify e = Some "OK"%string ->
     fst (run cfg e) = true /\ In (EvRecordReset true) (snd (run cfg e))).
Proof.
  intros Hok. cases e; crush.
Qed.

End Orchestrator.

(** A reset that completes but leaves the device in error, and one that
    repairs it, with ASCII case folding. *)
Lemma handlePolledWake_success_iff_verified_witness :
  let cfg := mkConfig "ACPI\\GXTP7380" "touch" 2 3 in
  let clean := DeviceManager.mkResetEnv (Some "Error"%string) None true
                 (Some "Error"%string) in
  let broken := mkWakeEnv (Some "Error"%string) clean (Some "Error"%string) in
  let fixed := mkWakeEnv (Some "Error"%string) clean (Some "OK"%string) in
  (fst (handlePolledWake asciiEqualFold cfg broken) = false /\
   In (EvRecordReset false) (snd (handlePolledWake asciiEqualFold cfg broken)))
  /\
  (fst (handlePolledWake asciiEqualFold cfg fixed) = true /\
   In (EvRecordReset true) (snd (handlePolledWake asciiEqualFold cfg fixed))).
Proof.
  intros cfg clean broken fixed. split.
  - destruct (handlePolledWake_success_iff_verified asciiEqualFold cfg broken)
      as (_ & _ & _ & H & _).
    destruct (H eq_refl (conj eq_refl eq_refl) "Error"%string eq_refl eq_refl)
      as (H1 & H2 & _).
    split; assumption.
  - destruct (handlePolledWake_success_iff_verified asciiEqualFold cfg fixed)
      as ((_ & H) & _).
    apply H. unfold verifiedOK. split; [|split; [|split]].
    + intros status E. injection E as <-. reflexivity.
    + reflexivity.
    + reflexivity.
    + exists "OK"%string. split; reflexivity.
Defined.

End ServiceFacts.

(** ** Further properties of the poll-based wake detector *)

Module PollerExtra.
Import GoInt GoTime GoFacts WakeEventPoller WakeEventPollerFacts PollerProps.

(** The initial check of [poll]: a failed status query changes nothing, an
    OK is stored, and any other status is stored and repaired at once,
    exactly one time, without any idle-time query: the outcome does not
    depend on the idle time or on the clock read before the repair. *)
Theorem pollStart_repairs_regardless_of_idle (e : TickEnv) (p : t) :
  callback p = true ->
  (envStatus e = None -> pollStart e p = (p, [EvGetStatus])) /\
  (envStatus e = Some "OK"%string ->
     pollStart e p = (set_lastStatus "OK" p, [EvGetStatus])) /\
  (forall status, envStatus e = Some status -> status <> "OK"%string ->
     snd (pollStart e p) = [EvGetStatus; EvRepair] /\
     lastStatus (fst (pollStart e p)) = status /\
     lastRepairTime (fst (pollStart e p)) = envNowAfter e /\
     pendingRepair (fst (pollStart e p)) = pendingRepair p /\
     (envSuccess e = true ->
        consecutiveFails (fst (pollStart e p)) = 0 /\
        currentInterval (fst (pollStart e p)) = baseRetryInterval p) /\
     (envSuccess e = false ->
        consecutiveFails (fst (pollStart e p))
          = wrap64 (consecutiveFails p + 1))) /\
  (forall e', sameButIdle e e' -> pollStart e' p = pollStart e p).
Proof.
  intros Hcb. split; [|split; [|split]].
  - intros E. unfold pollStart. rewrite E. reflexivity.
  - intros E. unfold pollStart. rewrite E. reflexivity.
  - intros status E Hne. unfold pollStart. rewrite E.
    rewrite (status_neq_OK _ Hne). simpl negb. cbv iota.
    unfold repair. simpl callback. rewrite Hcb.
    destruct (envSuccess e) eqn:Es.
    + simpl. repeat split; auto; discriminate.
    + destruct (incrementFails _) as [q cont] eqn:Ei. simpl.
      unfold incrementFails in Ei. simpl in Ei.
      destruct ((0 <? maxRetryCount p)
                && (maxRetryCount p <=? wrap64 (consecutiveFails p + 1)));
        [ | destruct (maxRetryInterval p
                      <? wrap64 (currentInterval p * 2)) ];
        injection Ei as <- <-; simpl; repeat split; auto; discriminate.
  - intros e' (E1 & E2 & E3). unfold pollStart, repair.
    rewrite <- E1, <- E2, <- E3. reflexivity.
Qed.

Lemma pollStart_repairs_regardless_of_idle_witness :
  let p := NewWakeEventPoller "touch" true None in
  let asleep := mkEnv (Some "Error"%string) (Some 7200000%N) 0 true 9 in
  let active := mkEnv (Some "Error"%string) (Some 10%N) 5 true 9 in
  snd (pollStart asleep p) = [EvGetStatus; EvRepair] /\
  pollStart active p = pollStart asleep p.
Proof.
  intros p asleep active.
  destruct (pollStart_repairs_regardless_of_idle asleep p eq_refl)
    as (_ & _ & H & G).
  split.
  - exact (proj1 (H "Error"%string eq_refl ltac:(discriminate))).
  - apply G. repeat split.
Defined.

(** A tick with a pending repair and a status that is still not OK: when
    the idle time is known and at most 60 whole seconds it clears
    [pendingRepair], resets the retry state and repairs once, whatever the
    time since the last repair; when the idle time is unknown or above 60
    whole seconds it does nothing at all. *)
Theorem pollTick_pending_repair (e : TickEnv) (p p' : t) (status : string)
    (ex : bool) (evs : list Event) :
  paused p = false ->
  callback p = true ->
  envStatus e = Some status ->
  status <> "OK"%string ->
  lastStatus p <> "OK"%string ->
  pendingRepair p = true ->
  pollTick e p false = (p', ex, evs) ->
  (forall ms, envIdle e = Some ms -> (ms / 1000 <= 60)%N ->
     evs = [EvGetStatus; EvGetIdleTime; EvRepair] /\
     pendingRepair p' = false /\ lastStatus p' = status /\
     lastRepairTime p' = envNowAfter e /\
     (p', ex) =
       (let '(q, x, _) :=
          repair e false (ResetRetryState (set_pendingRepair false p)) in
        (set_lastStatus status q, x))) /\
  (envIdle e = None \/
   (exists ms, envIdle e = Some ms /\ (60 < ms / 1000)%N) ->
     p' = p /\ ex = false /\ evs = [EvGetStatus; EvGetIdleTime]).
Proof.
  intros Hp Hcb Hst Hne Hlast Hpend Htick.
  unfold pollTick, IsPaused in Htick. rewrite Hp, Hst in Htick.
  rewrite (status_neq_OK _ Hne) in Htick.
  unfold case1, case2 in Htick.
  rewrite (status_neq_OK _ Hne) in Htick.
  assert (Hl : (lastStatus p =? "OK")%string = false)
    by (apply String.eqb_neq; exact Hlast).
  rewrite Hl in Htick. simpl andb in Htick. cbv iota in Htick.
  rewrite Hl, Hpend in Htick. simpl negb in Htick. cbv iota in Htick.
  split.
  - intros ms E Hle.
    assert (G : (0 <=? idleSecOf (envIdle e))
                && (idleSecOf (envIdle e) <=? 60) = true).
    { rewrite E. apply andb_true_iff. split.
      - apply Z.leb_le, idleSecOf_nonneg.
      - apply Z.leb_le. unfold idleSecOf. lia. }
    rewrite G in Htick.
    set (reset := ResetRetryState (set_pendingRepair false p)) in *.
    assert (Hr : forall b : bool,
               (if b then (reset, Some true) else (reset, Some true))
               = (reset, Some true))
      by (intros []; reflexivity).
    rewrite Hr in Htick.
    assert (Hc : callback reset = true) by exact Hcb.
    unfold repair in *. rewrite Hc in *.
    destruct (envSuccess e).
    + injection Htick as <- <- <-. simpl. repeat split; reflexivity.
    + destruct (incrementFails (set_lastRepairTime (envNowAfter e) reset))
        as [q cont] eqn:Ei.
      injection Htick as <- <- <-.
      unfold incrementFails in Ei. simpl in Ei.
      change (wrap64 1) with 1 in Ei.
      destruct ((0 <? maxRetryCount p) && (maxRetryCount p <=? 1));
        [ | destruct (maxRetryInterval p
                      <? wrap64 (baseRetryInterval p * 2)) ];
        injection Ei as <- <-; simpl; repeat split; reflexivity.
  - intros H.
    assert (G : (0 <=? idleSecOf (envIdle e))
                && (idleSecOf (envIdle e) <=? 60) = false).
    { destruct H as [-> | (ms & -> & H)]; [reflexivity|].
      apply andb_false_iff. right. apply Z.leb_gt.
      unfold idleSecOf. lia. }
    rewrite G in Htick. injection Htick as <- <- <-. auto.
Qed.

Lemma pollTick_pending_repair_witness :
  let p := set_pendingRepair true
             (set_lastRepairTime 100
                (set_lastStatus "Error" (NewWakeEventPoller "touch" true None))) in
  let woke := mkEnv (Some "Error"%string) (Some 3000%N) 101 true 105 in
  let blind := mkEnv (Some "Error"%string) None 9000 true 9005 in
  repairs (snd (pollTick woke p false)) = 1%nat /\
  snd (pollTick blind p false) = [EvGetStatus; EvGetIdleTime].
Proof.
  intros p woke blind. split.
  - destruct (pollTick_pending_repair woke p
                (fst (fst (pollTick woke p false))) "Error"
                (snd (fst (pollTick woke p false)))
                (snd (pollTick woke p false))
                eq_refl eq_refl eq_refl ltac:(discriminate)
                ltac:(discriminate) eq_refl
                ltac:(vm_compute; reflexivity)) as [H _].
    destruct (H 3000%N eq_refl ltac:(discriminate)) as [-> _].
    reflexivity.
  - destruct (pollTick_pending_repair blind p
                (fst (fst (pollTick blind p false))) "Error"
                (snd (fst (pollTick blind p false)))
                (snd (pollTick blind p false))
                eq_refl eq_refl eq_refl ltac:(discriminate)
                ltac:(discriminate) eq_refl
                ltac:(vm_compute; reflexivity)) as [_ H].
    exact (proj2 (proj2 (H (or_introl eq_refl)))).
Defined.

(** *** Case analysis of a tick *)

Ltac split_ifs H :=
  repeat (match type of H with
          | context [if ?b then _ else _] =>
              let E := fresh "E" in destruct b eqn:E
          end; cbn beta iota in H).

Ltac tick_cases e H :=
  unfold pollTick, IsPaused, case1, case2, getCurrentInterval in H;
  destruct (envStatus e) as [status|]; split_ifs H.

Lemma frame_refl (p : t) : frame p p.
Proof. unfold frame. repeat split. Qed.

(** [repair] writes the repair time and the retry state, nothing else. *)
Lemma repair_frame (e : TickEnv) (x : bool) (q : t) :
  frame q (fst (fst (repair e x q))) /\
  pendingRepair (fst (fst (repair e x q))) = pendingRepair q /\
  lastStatus (fst (fst (repair e x q))) = lastStatus q.
Proof.
  unfold repair, incrementFails, frame.
  destruct (callback q) eqn:Ec; [|simpl; rewrite Ec; repeat split].
  destruct (envSuccess e); simpl; [rewrite Ec; repeat split|].
  destruct (_ && _); simpl; [rewrite Ec; repeat split|].
  destruct (_ <? _); simpl; rewrite Ec; repeat split.
Qed.

Ltac use_repair H :=
  match type of H with
  | context [repair ?e ?x ?q] =>
      let F := fresh "F" in
      pose proof (repair_frame e x q) as F;
      let Ev := fresh "Ev" in
      pose proof (repair_events e x q) as Ev;
      destruct (repair e x q) as [[? ?] ?];
      cbn [fst snd] in F, Ev;
      destruct F as ((?&?&?&?&?&?&?&?&?)&?&?);
      simpl in Ev
  end.

Ltac finish_tick H :=
  try use_repair H; cbn beta iota in H; injection H as <- <- <-;
  subst; simpl in *.

(** Whatever the state and the answers, a tick leaves one of four traces:
    nothing (paused), a status query, a status and an idle-time query, or
    these followed by one repair.  It repairs only when it is neither
    paused nor exhausted, a callback is registered and the status was read
    and is not OK. *)
Theorem pollTick_trace (e : TickEnv) (p p' : t) (ex ex' : bool)
    (evs : list Event) :
  pollTick e p ex = (p', ex', evs) ->
  tickTrace evs /\
  (statusQueries evs <= 1)%nat /\ (repairs evs <= 1)%nat /\
  (paused p = true -> evs = [] /\ p' = p /\ ex' = ex) /\
  (repairs evs <> 0%nat ->
     paused p = false /\ ex = false /\ callback p = true /\
     exists status, envStatus e = Some status /\ status <> "OK"%string).
Proof.
  intros H. unfold tickTrace. tick_cases e H; finish_tick H;
    try destruct (callback p) eqn:Ec;
    unfold repairs, statusQueries in *; simpl in *;
    repeat match goal with
           | |- _ /\ _ => split
           | |- _ -> _ => intro
           | F : ?x <> ?x |- _ => exfalso; apply F; reflexivity
           | F : true = false |- _ => discriminate F
           | F : false = true |- _ => discriminate F
           end;
    auto 6;
    try (eexists; split; [reflexivity | apply String.eqb_neq; assumption]).
Qed.

Lemma pollTick_trace_witness :
  let p := set_lastStatus "OK" (NewWakeEventPoller "touch" true None) in
  let e := mkEnv (Some "Error"%string) (Some 2000%N) 0 true 5 in
  tickTrace (snd (pollTick e p false)) /\
  snd (pollTick e (set_paused true p) false) = [].
Proof.
  intros p e. split.
  - exact (proj1 (pollTick_trace e p _ false _ _ eq_refl)).
  - destruct (pollTick_trace e (set_paused true p) _ false _ _ eq_refl)
      as (_ & _ & _ & H & _).
    exact (proj1 (H eq_refl)).
Defined.

(** *** What a tick never writes *)

Lemma pollTick_frame (e : TickEnv) (p p' : t) (ex ex' : bool)
    (evs : list Event) :
  pollTick e p ex = (p', ex', evs) -> frame p p'.
Proof.
  intros H. unfold frame. tick_cases e H; finish_tick H;
    repeat split; congruence.
Qed.

Lemma pollStart_frame (e : TickEnv) (p : t) :
  frame p (fst (pollStart e p)) /\
  pendingRepair (fst (pollStart e p)) = pendingRepair p.
Proof.
  unfold pollStart. destruct (envStatus e) as [status|];
    [|split; [apply frame_refl | reflexivity]].
  destruct (negb (status =? "OK")%string);
    [|split; [unfold frame; repeat split | reflexivity]].
  pose proof (repair_frame e false (set_lastStatus status p)) as (F & G & _).
  destruct (repair e false (set_lastStatus status p)) as [[q x] ev].
  split; [exact F | exact G].
Qed.

(** A tick keeps the link between a pending repair and the stored status:
    if it leaves [pendingRepair] set, the stored status is not OK and the
    tick does not end exhausted. *)
Lemma pollTick_pendingInv (e : TickEnv) (p p' : t) (ex ex' : bool)
    (evs : list Event) :
  pollTick e p ex = (p', ex', evs) ->
  (pendingRepair p = true -> lastStatus p <> "OK"%string /\ ex = false) ->
  pendingRepair p' = true ->
  lastStatus p' <> "OK"%string /\ ex' = false.
Proof.
  intros H Hinv. tick_cases e H; finish_tick H; intros Hp;
    try congruence; try (apply Hinv; exact Hp);
    try (destruct (Hinv Hp) as [_ F]; discriminate F);
    try (split; [apply String.eqb_neq; assumption | reflexivity]).
Qed.

Lemma sysStep_pendingInv (a : Action) (s s' : Sys) (evs : list Event) :
  pendingInv s -> sysStep a s = Some (s', evs) -> pendingInv s'.
Proof.
  unfold pendingInv. intros Hinv Hs. destruct a; simpl in Hs.
  - destruct (mode s) eqn:Em; try discriminate Hs.
    pose proof (pollStart_frame e (poller s)) as [_ G].
    destruct (pollStart e (poller s)) as [q ev]. injection Hs as <- <-.
    simpl in *. intros Hp. rewrite G in Hp.
    destruct (Hinv Hp) as (_ & _ & F). contradiction.
  - destruct (mode s) eqn:Em; try discriminate Hs.
    destruct (pollTick e (poller s) (exceededMaxRetry s)) as [[q x] ev] eqn:Et.
    injection Hs as <- <-. simpl. intros Hp.
    destruct (pollTick_pendingInv _ _ _ _ _ _ Et) as [H1 H2]; auto.
    + intros Hq. destruct (Hinv Hq) as (A & B & _). auto.
    + repeat split; auto. discriminate.
  - destruct (pauseChan (poller s)); try discriminate Hs.
    destruct (mode s) eqn:Em; try discriminate Hs;
      injection Hs as <- <-; simpl; intros Hp;
      destruct (Hinv Hp) as (A & B & _); repeat split; auto;
      try destruct b; discriminate.
  - destruct (mode s) eqn:Em; try discriminate Hs;
      destruct (stopChan (poller s)); try discriminate Hs;
      injection Hs as <- <-; simpl; intros Hp;
      destruct (Hinv Hp) as (A & B & _); repeat split; auto; discriminate.
  - injection Hs as <- <-. simpl. unfold Pause.
    destruct (negb (paused (poller s))); exact Hinv.
  - unfold Resume in Hs. destruct (paused (poller s));
      injection Hs as <- <-; exact Hinv.
  - injection Hs as <- <-. exact Hinv.
  - injection Hs as <- <-. exact Hinv.
  - destruct (sleeping s); try discriminate Hs.
    unfold recheckStatus in Hs. destruct status as [st|].
    + destruct (negb (st =? "OK")%string); injection Hs as <- <-; simpl;
        [exact Hinv | discriminate].
    + injection Hs as <- <-. exact Hinv.
  - destruct (repairing s); try discriminate Hs.
    injection Hs as <- <-. simpl. unfold recheckRepaired.
    destruct success; [simpl; discriminate | exact Hinv].
Qed.

(** From the construction of the poller on, through every run of the
    system, [pendingRepair] is set only while the stored status is not OK
    and the polling goroutine is not in its exhausted state. *)
Theorem pendingRepair_only_while_error (deviceID : string) (cb : bool)
    (cfg : option PollerConfig) (acts : list Action) (s : Sys)
    (evs : list Event) :
  sysRun acts (initSys (NewWakeEventPoller deviceID cb cfg)) = Some (s, evs) ->
  pendingRepair (poller s) = true ->
  lastStatus (poller s) <> "OK"%string /\ exceededMaxRetry s = false.
Proof.
  intros Hrun.
  assert (G : forall acts s0 s1 evs,
             pendingInv s0 -> sysRun acts s0 = Some (s1, evs) ->
             pendingInv s1).
  { clear. induction acts as [|a acts IH]; intros s0 s1 evs H Hr;
      simpl in Hr.
    - injection Hr as <- <-. exact H.
    - destruct (sysStep a s0) as [[s2 ev2]|] eqn:E1; [|discriminate].
      destruct (sysRun acts s2) as [[s3 ev3]|] eqn:E2; [|discriminate].
      injection Hr as <- <-.
      eapply IH; [|exact E2]. eapply sysStep_pendingInv; eauto. }
  intros Hp.
  assert (I : pendingInv s).
  { eapply G; [|exact Hrun]. unfold pendingInv. simpl. discriminate. }
  destruct (I Hp) as (A & B & _). auto.
Qed.

Lemma pendingRepair_only_while_error_witness :
  let p0 := NewWakeEventPoller "touch" true None in
  let ok := mkEnv (Some "OK"%string) (Some 0%N) 0 true 0 in
  let broke := mkEnv (Some "Error"%string) (Some 900000%N) 10 true 10 in
  exists s evs,
    sysRun [ActStart ok; ActTicker broke] (initSys p0) = Some (s, evs) /\
    pendingRepair (poller s) = true /\
    lastStatus (poller s) <> "OK"%string /\ exceededMaxRetry s = false.
Proof.
  intros p0 ok broke.
  destruct (sysRun [ActStart ok; ActTicker broke] (initSys p0))
    as [[s evs]|] eqn:E; [|vm_compute in E; discriminate E].
  exists s, evs. split; [reflexivity|].
  assert (Hp : pendingRepair (poller s) = true).
  { vm_compute in E. injection E as <- _. reflexivity. }
  split; [exact Hp|].
  exact (pendingRepair_only_while_error "touch" true None _ s evs E Hp).
Defined.

(** *** Runs of the system *)

Lemma sysRun_app (acts1 acts2 : list Action) :
  forall (s s' : Sys) (evs : list Event),
    sysRun (acts1 ++ acts2) s = Some (s', evs) ->
    exists s1 ev1 ev2,
      sysRun acts1 s = Some (s1, ev1) /\ sysRun acts2 s1 = Some (s', ev2) /\
      evs = ev1 ++ ev2.
Proof.
  induction acts1 as [|a acts1 IH]; intros s s' evs H; simpl in H.
  - exists s, [], evs. auto.
  - destruct (sysStep a s) as [[s1 ev1]|] eqn:E1; [|discriminate].
    destruct (sysRun (acts1 ++ acts2) s1) as [[s2 ev2]|] eqn:E2;
      [|discriminate].
    injection H as <- <-.
    destruct (IH _ _ _ E2) as (s3 & ev3 & ev4 & H1 & H2 & ->).
    exists s3, (ev1 ++ ev3), ev4. simpl. rewrite E1, H1.
    rewrite app_assoc. auto.
Qed.

(** An invariant of every step is an invariant of every run. *)
Lemma sysRun_invariant (P : Sys -> Prop) (ok : Action -> bool) :
  (forall a s s' evs, ok a = true -> P s ->
     sysStep a s = Some (s', evs) -> P s') ->
  forall acts s s' evs,
    forallb ok acts = true -> P s -> sysRun acts s = Some (s', evs) -> P s'.
Proof.
  intros Hstep. induction acts as [|a acts IH]; intros s s' evs Hok HP Hr;
    simpl in Hr.
  - injection Hr as <- <-. exact HP.
  - simpl in Hok. apply andb_true_iff in Hok as [Ha Hacts].
    destruct (sysStep a s) as [[s1 ev1]|] eqn:E1; [|discriminate].
    destruct (sysRun acts s1) as [[s2 ev2]|] eqn:E2; [|discriminate].
    injection Hr as <- <-. eauto.
Qed.

(** Every step leaves the configuration of the poller as it is. *)
Lemma sysStep_config (a : Action) (s s' : Sys) (evs : list Event) :
  sysStep a s = Some (s', evs) ->
  callback (poller s') = callback (poller s) /\
  baseRetryInterval (poller s') = baseRetryInterval (poller s) /\
  maxRetryInterval (poller s') = maxRetryInterval (poller s) /\
  maxRetryCount (poller s') = maxRetryCount (poller s).
Proof.
  intros Hs. destruct a; simpl in Hs.
  - destruct (mode s); try discriminate Hs.
    pose proof (pollStart_frame e (poller s)) as [F _].
    destruct (pollStart e (poller s)). injection Hs as <- <-.
    unfold frame in F. simpl in *. tauto.
  - destruct (mode s); try discriminate Hs.
    destruct (pollTick e (poller s) (exceededMaxRetry s)) as [[q x] ev] eqn:Et.
    apply pollTick_frame in Et. injection Hs as <- <-.
    unfold frame in Et. simpl. tauto.
  - destruct (pauseChan (poller s)); try discriminate Hs.
    destruct (mode s); try discriminate Hs; injection Hs as <- <-; auto.
  - destruct (mode s); try discriminate Hs;
      destruct (stopChan (poller s)); try discriminate Hs;
      injection Hs as <- <-; auto.
  - injection Hs as <- <-. simpl. unfold Pause.
    destruct (negb (paused (poller s))); auto.
  - unfold Resume in Hs. destruct (paused (poller s));
      injection Hs as <- <-; auto.
  - injection Hs as <- <-. auto.
  - injection Hs as <- <-. auto.
  - destruct (sleeping s); try discriminate Hs.
    unfold recheckStatus in Hs. destruct status as [st|];
      [destruct (negb (st =? "OK")%string)|]; injection Hs as <- <-; auto.
  - destruct (repairing s); try discriminate Hs.
    injection Hs as <- <-. simpl. unfold recheckRepaired.
    destruct success; auto.
Qed.

(** *** Unlimited retries *)

(** With [maxRetryCount = 0] the polling goroutine never enters its
    exhausted state, however many repairs fail. *)
Theorem unlimited_retries_never_exhaust (p0 : t) (acts : list Action)
    (s : Sys) (evs : list Event) :
  maxRetryCount p0 = 0 ->
  sysRun acts (initSys p0) = Some (s, evs) ->
  exceededMaxRetry s = false /\ maxRetryCount (poller s) = 0.
Proof.
  intros H0 Hrun.
  apply (sysRun_invariant
           (fun s => exceededMaxRetry s = false /\ maxRetryCount (poller s) = 0)
           (fun _ => true)) with (acts := acts) (s := initSys p0) (evs := evs);
    [ | apply forallb_forall; auto | simpl; auto | exact Hrun ].
  clear. intros a s s' evs _ [Hex Hm] Hs.
  pose proof (sysStep_config _ _ _ _ Hs) as (_ & _ & _ & Hc).
  split; [|congruence].
  destruct a; simpl in Hs.
  - destruct (mode s); try discriminate Hs.
    destruct (pollStart e (poller s)). injection Hs as <- <-. reflexivity.
  - destruct (mode s); try discriminate Hs.
    destruct (pollTick e (poller s) (exceededMaxRetry s)) as [[q x] ev] eqn:Et.
    injection Hs as <- <-. simpl in *. rewrite Hex in Et.
    destruct x; [|reflexivity].
    apply pollTick_becomes_exhausted in Et. lia.
  - destruct (pauseChan (poller s)); try discriminate Hs.
    destruct (mode s); try discriminate Hs; injection Hs as <- <-; auto.
  - destruct (mode s); try discriminate Hs;
      destruct (stopChan (poller s)); try discriminate Hs;
      injection Hs as <- <-; auto.
  - injection Hs as <- <-. auto.
  - destruct (Resume (poller s)). injection Hs as <- <-. auto.
  - injection Hs as <- <-. auto.
  - injection Hs as <- <-. auto.
  - destruct (sleeping s); try discriminate Hs.
    destruct (recheckStatus status (poller s)) as [[q r] ev].
    injection Hs as <- <-. auto.
  - destruct (repairing s); try discriminate Hs.
    injection Hs as <- <-. auto.
Qed.

Lemma unlimited_retries_never_exhaust_witness :
  let p0 := NewWakeEventPoller "touch" true (Some (mkCfg 0 0 0)) in
  let fail (k : Z) := mkEnv (Some "Error"%string) (Some 2000%N)
                            (k * 3600 * Second) false (k * 3600 * Second) in
  exists s evs,
    sysRun [ActStart (fail 1); ActTicker (fail 2); ActTicker (fail 3)]
           (initSys p0) = Some (s, evs) /\
    repairs evs = 3%nat /\ exceededMaxRetry s = false.
Proof.
  intros p0 fail.
  destruct (sysRun [ActStart (fail 1); ActTicker (fail 2); ActTicker (fail 3)]
              (initSys p0)) as [[s evs]|] eqn:E;
    [|vm_compute in E; discriminate E].
  exists s, evs. split; [reflexivity|]. split.
  - vm_compute in E. injection E as _ <-. reflexivity.
  - exact (proj1 (unlimited_retries_never_exhaust p0 _ s evs eq_refl E)).
Defined.

(** *** The exhausted state, entered by a tick *)

(** When a tick enters the exhausted state, a failed repair of that tick
    has brought [consecutiveFails] to [maxRetryCount]; from then on ticks
    that do not read OK never repair, whatever the clock and the idle time,
    and stay exhausted; a tick that reads OK (the poller not being paused)
    leaves the state, resets the retry state and stores OK. *)
Theorem tick_exhaustion_lasts_until_OK (e : TickEnv) (s s1 : Sys)
    (ev1 : list Event) :
  exceededMaxRetry s = false ->
  sysStep (ActTicker e) s = Some (s1, ev1) ->
  exceededMaxRetry s1 = true ->
  (envSuccess e = false /\ repairs ev1 = 1%nat /\
   0 < maxRetryCount (poller s1) <= consecutiveFails (poller s1)) /\
  (forall envs s2 ev2,
     Forall notOK envs ->
     sysRun (map ActTicker envs) s1 = Some (s2, ev2) ->
     repairs ev2 = 0%nat /\ exceededMaxRetry s2 = true) /\
  (forall e' s2 ev2,
     paused (poller s1) = false ->
     envStatus e' = Some "OK"%string ->
     sysStep (ActTicker e') s1 = Some (s2, ev2) ->
     exceededMaxRetry s2 = false /\ repairs ev2 = 0%nat /\
     consecutiveFails (poller s2) = 0 /\
     currentInterval (poller s2) = baseRetryInterval (poller s1) /\
     lastStatus (poller s2) = "OK"%string).
Proof.
  intros Hex Hs Hex1. split; [|split].
  - simpl in Hs. destruct (mode s); try discriminate Hs.
    destruct (pollTick e (poller s) (exceededMaxRetry s)) as [[q x] ev] eqn:Et.
    injection Hs as <- <-. simpl in *. subst x. rewrite Hex in Et.
    apply pollTick_becomes_exhausted in Et. tauto.
  - intros envs s2 ev2 Hall Hr.
    exact (exhausted_until_OK envs s1 s2 ev2 Hex1 Hall Hr).
  - intros e' s2 ev2 Hp Hok Hs2. simpl in Hs2.
    destruct (mode s1); try discriminate Hs2.
    destruct (pollTick e' (poller s1) (exceededMaxRetry s1))
      as [[q x] ev] eqn:Et.
    injection Hs2 as <- <-. simpl. rewrite Hex1 in Et.
    destruct (pollTick_exhausted _ _ _ _ _ Hp Et) as (-> & _ & H & _).
    destruct (H Hok) as [-> ->]. repeat split.
Qed.

Lemma tick_exhaustion_lasts_until_OK_witness :
  let p := set_lastStatus "OK"
             (NewWakeEventPoller "touch" true
                (Some (mkCfg (60 * Second) (600 * Second) 1))) in
  let s := mkSys p false Running 0 0 in
  let fail := mkEnv (Some "Error"%string) (Some 2000%N) 0 false 5 in
  let later := mkEnv (Some "Error"%string) (Some 10%N)
                     (86400 * Second) true (86400 * Second) in
  exists s1 ev1 s2 ev2,
    sysStep (ActTicker fail) s = Some (s1, ev1) /\
    sysRun (map ActTicker [later; later]) s1 = Some (s2, ev2) /\
    repairs ev1 = 1%nat /\ repairs ev2 = 0%nat.
Proof.
  intros p s fail later.
  destruct (sysStep (ActTicker fail) s) as [[s1 ev1]|] eqn:E1;
    [|vm_compute in E1; discriminate E1].
  assert (X : exceededMaxRetry s1 = true).
  { vm_compute in E1. injection E1 as <- _. reflexivity. }
  destruct (sysRun (map ActTicker [later; later]) s1) as [[s2 ev2]|] eqn:E2.
  2: { vm_compute in E1. injection E1 as <- <-. vm_compute in E2.
       discriminate E2. }
  destruct (tick_exhaustion_lasts_until_OK fail s s1 ev1 eq_refl E1 X)
    as ((_ & R1 & _) & H & _).
  assert (N : Forall notOK [later; later]).
  { repeat constructor; discriminate. }
  destruct (H _ _ _ N E2) as [R2 _].
  exists s1, ev1, s2, ev2. repeat split; assumption.
Defined.

(** *** The pause machinery *)

(** As long as [Pause] is not called, nothing of the pause machinery
    moves: the poller stays unpaused, the pause channel stays empty, every
    [Resume] is without effect and starts no recheck, and the polling
    goroutine never waits for a resume signal. *)
Theorem without_Pause_Resume_is_idle (deviceID : string) (cb : bool)
    (cfg : option PollerConfig) (acts : list Action) (s : Sys)
    (evs : list Event) :
  noneOf isPause acts = true ->
  sysRun acts (initSys (NewWakeEventPoller deviceID cb cfg)) = Some (s, evs) ->
  neverPaused s /\
  Resume (poller s) = (poller s, false) /\
  sysStep ActResume s = Some (s, []).
Proof.
  intros Hacts Hrun.
  assert (I : neverPaused s).
  { apply (sysRun_invariant neverPaused (fun a => negb (isPause a)))
      with (acts := acts) (s := initSys (NewWakeEventPoller deviceID cb cfg))
           (evs := evs);
      [ | exact Hacts | unfold neverPaused; simpl; repeat split; discriminate
        | exact Hrun ].
    clear. unfold neverPaused.
    intros a s s' evs Ha (Hp & Hc & Hsl & Hr & Hm) Hs.
    destruct a; try discriminate Ha; simpl in Hs.
    - destruct (mode s); try discriminate Hs.
      pose proof (pollStart_frame e (poller s)) as [F _].
      destruct (pollStart e (poller s)). injection Hs as <- <-.
      destruct F as (_ & _ & Fc & _ & _ & _ & _ & _ & Fp). simpl in *.
      rewrite Fc, Fp. repeat split; auto; discriminate.
    - destruct (mode s); try discriminate Hs.
      destruct (pollTick e (poller s) (exceededMaxRetry s))
        as [[q x] ev] eqn:Et.
      apply pollTick_frame in Et. injection Hs as <- <-.
      destruct Et as (_ & _ & Fc & _ & _ & _ & _ & _ & Fp). simpl.
      rewrite Fc, Fp. repeat split; auto; discriminate.
    - rewrite Hc in Hs. discriminate Hs.
    - destruct (mode s); try discriminate Hs;
        destruct (stopChan (poller s)); try discriminate Hs;
        injection Hs as <- <-; simpl; repeat split; auto; discriminate.
    - unfold Resume in Hs. rewrite Hp in Hs. injection Hs as <- <-.
      simpl. rewrite Hsl. auto.
    - injection Hs as <- <-. simpl. auto.
    - injection Hs as <- <-. simpl. auto.
    - rewrite Hsl in Hs. discriminate Hs.
    - rewrite Hr in Hs. discriminate Hs. }
  split; [exact I|]. destruct I as (Hp & _).
  unfold sysStep, Resume. rewrite Hp. split; [reflexivity|].
  destruct s; reflexivity.
Qed.

Lemma without_Pause_Resume_is_idle_witness :
  let p0 := NewWakeEventPoller "touch" true None in
  let ok := mkEnv (Some "OK"%string) (Some 0%N) 0 true 0 in
  let broke := mkEnv (Some "Error"%string) (Some 900000%N) 10 true 10 in
  exists s evs,
    sysRun [ActStart ok; ActTicker broke; ActResume] (initSys p0)
      = Some (s, evs) /\
    pendingRepair (poller s) = true /\ sleeping s = 0%nat.
Proof.
  intros p0 ok broke.
  destruct (sysRun [ActStart ok; ActTicker broke; ActResume] (initSys p0))
    as [[s evs]|] eqn:E; [|vm_compute in E; discriminate E].
  destruct (without_Pause_Resume_is_idle "touch" true None
              [ActStart ok; ActTicker broke; ActResume] s evs eq_refl E)
    as ((_ & _ & H & _) & _).
  exists s, evs. split; [reflexivity|]. split; [|exact H].
  vm_compute in E. injection E as <- _. reflexivity.
Defined.

(** Once the polling goroutine is in the wait entered on a pause signal,
    no run of the system contains a tick: the goroutine stays in the wait
    or returns. *)
Lemma wait_never_ticks (acts : list Action) :
  forall (s s' : Sys) (evs : list Event),
    mode s = AwaitResume \/ mode s = Returned ->
    sysRun acts s = Some (s', evs) ->
    noneOf isTicker acts = true /\
    (mode s' = AwaitResume \/ mode s' = Returned).
Proof.
  induction acts as [|a acts IH]; intros s s' evs Hm Hr; simpl in Hr.
  - injection Hr as <- <-. auto.
  - destruct (sysStep a s) as [[s1 ev1]|] eqn:E1; [|discriminate].
    destruct (sysRun acts s1) as [[s2 ev2]|] eqn:E2; [|discriminate].
    injection Hr as <- <-.
    assert (H1 : isTicker a = false /\
                 (mode s1 = AwaitResume \/ mode s1 = Returned)).
    { destruct a; simpl in E1 |- *.
      - destruct Hm as [Hm | Hm]; rewrite Hm in E1; discriminate E1.
      - destruct Hm as [Hm | Hm]; rewrite Hm in E1; discriminate E1.
      - destruct (pauseChan (poller s)); try discriminate E1.
        destruct Hm as [Hm | Hm]; rewrite Hm in E1; try discriminate E1.
        injection E1 as <- <-. auto.
      - destruct Hm as [Hm | Hm]; rewrite Hm in E1;
          try discriminate E1.
        destruct (stopChan (poller s)); try discriminate E1.
        injection E1 as <- <-. auto.
      - injection E1 as <- <-. auto.
      - destruct (Resume (poller s)). injection E1 as <- <-. auto.
      - injection E1 as <- <-. auto.
      - injection E1 as <- <-. auto.
      - destruct (sleeping s); try discriminate E1.
        destruct (recheckStatus status (poller s)) as [[q r] ev].
        injection E1 as <- <-. auto.
      - destruct (repairing s); try discriminate E1.
        injection E1 as <- <-. auto. }
    destruct H1 as [Ha Hm1].
    destruct (IH _ _ _ Hm1 E2) as [Hn Hm2].
    split; [|exact Hm2]. unfold noneOf in *. simpl. rewrite Ha. exact Hn.
Qed.

(** A pause signal in the channel stays there until the polling goroutine
    reads it: a later send is dropped, not stored. *)
Lemma signal_stays (a : Action) (s s' : Sys) (evs : list Event) :
  isPauseChan a = false ->
  pauseChan (poller s) = Some true ->
  sysStep a s = Some (s', evs) ->
  pauseChan (poller s') = Some true.
Proof.
  intros Ha Hc Hs. destruct a; try discriminate Ha; simpl in Hs.
  - destruct (mode s); try discriminate Hs.
    pose proof (pollStart_frame e (poller s)) as [F _].
    destruct (pollStart e (poller s)). injection Hs as <- <-.
    unfold frame in F. simpl in *. destruct F as (_ & _ & -> & _). exact Hc.
  - destruct (mode s); try discriminate Hs.
    destruct (pollTick e (poller s) (exceededMaxRetry s)) as [[q x] ev] eqn:Et.
    apply pollTick_frame in Et. injection Hs as <- <-.
    unfold frame in Et. simpl. destruct Et as (_ & _ & -> & _). exact Hc.
  - destruct (mode s); try discriminate Hs;
      destruct (stopChan (poller s)); try discriminate Hs;
      injection Hs as <- <-; exact Hc.
  - injection Hs as <- <-. simpl. unfold Pause.
    destruct (negb (paused (poller s))); simpl; rewrite ?Hc; auto.
  - unfold Resume in Hs. destruct (paused (poller s));
      injection Hs as <- <-; simpl; rewrite ?Hc; auto.
  - injection Hs as <- <-. exact Hc.
  - injection Hs as <- <-. exact Hc.
  - destruct (sleeping s); try discriminate Hs.
    unfold recheckStatus in Hs. destruct status as [st|];
      [destruct (negb (st =? "OK")%string)|]; injection Hs as <- <-;
      exact Hc.
  - destruct (repairing s); try discriminate Hs.
    injection Hs as <- <-. simpl. unfold recheckRepaired.
    destruct success; exact Hc.
Qed.

(** After a [Pause] on an unpaused poller with an empty pause channel,
    whatever happens next (ticks skipped, calls of [Resume], rechecks),
    once the polling goroutine has read the pause channel it never handles
    a tick again: the [true] sent by [Pause] is the value it reads, a
    [false] sent by [Resume] meanwhile is dropped, and the wait it enters
    is left only by [Stop]. *)
Theorem Pause_ends_polling (acts1 acts2 : list Action) (s s' : Sys)
    (evs : list Event) :
  paused (poller s) = false ->
  pauseChan (poller s) = None ->
  noneOf isPauseChan acts1 = true ->
  sysRun (ActPause :: acts1 ++ ActPauseChan :: acts2) s = Some (s', evs) ->
  noneOf isTicker acts2 = true /\
  (mode s' = AwaitResume \/ mode s' = Returned).
Proof.
  intros Hp Hc Hn Hrun. simpl in Hrun.
  destruct (sysRun (acts1 ++ ActPauseChan :: acts2) _) as [[s2 ev2]|] eqn:E;
    [|discriminate].
  injection Hrun as <- <-.
  apply sysRun_app in E. destruct E as (s1 & ev1 & ev3 & E1 & E2 & _).
  assert (Hsig : pauseChan (poller s1) = Some true).
  { refine (sysRun_invariant (fun s => pauseChan (poller s) = Some true)
              (fun a => negb (isPauseChan a)) _ acts1 _ s1 ev1 Hn _ E1).
    - intros a t0 t1 ev Ha. apply signal_stays.
      destruct (isPauseChan a); [discriminate | reflexivity].
    - simpl. unfold Pause. rewrite Hp. simpl. rewrite Hc. reflexivity. }
  simpl in E2. rewrite Hsig in E2.
  destruct (mode s1) eqn:Em; try discriminate E2;
    match type of E2 with
    | match sysRun acts2 ?t with _ => _ end = _ =>
        destruct (sysRun acts2 t) as [[s3 ev4]|] eqn:E3; [|discriminate];
        injection E2 as <- _;
        apply (wait_never_ticks acts2 t s3 ev4); [simpl; auto | exact E3]
    end.
Qed.

Lemma Pause_ends_polling_witness :
  let p := set_lastStatus "OK" (NewWakeEventPoller "touch" true None) in
  let s := mkSys p false Running 0 0 in
  exists s',
    sysRun [ActPause; ActPauseChan; ActResume; ActPauseChan] s
      = Some (s', []) /\
    paused (poller s') = false /\ mode s' = AwaitResume.
Proof.
  intros p s.
  destruct (sysRun [ActPause; ActPauseChan; ActResume; ActPauseChan] s)
    as [[s' evs]|] eqn:E; [|vm_compute in E; discriminate E].
  pose proof (Pause_ends_polling [] [ActResume; ActPauseChan]
                s s' evs eq_refl eq_refl eq_refl E) as [_ H].
  exists s'. vm_compute in E. injection E as <- <-.
  repeat split.
Defined.

(** *** No callback, no repair *)

(** A poller built without a callback never repairs, in the polling
    goroutine or in the recheck, and never touches its retry state or its
    repair time. *)
Theorem no_callback_no_repair (deviceID : string)
    (cfg : option PollerConfig) (acts : list Action) (s : Sys)
    (evs : list Event) :
  let p0 := NewWakeEventPoller deviceID false cfg in
  sysRun acts (initSys p0) = Some (s, evs) ->
  repairs evs = 0%nat /\ untouched p0 (poller s) /\
  exceededMaxRetry s = false /\ repairing s = 0%nat.
Proof.
  intros p0 Hrun.
  set (P := fun s : Sys =>
              callback (poller s) = false /\
              consecutiveFails (poller s) = 0 /\
              currentInterval (poller s) = baseRetryInterval (poller s) /\
              baseRetryInterval (poller s) = baseRetryInterval p0 /\
              lastRepairTime (poller s) = zeroTime /\
              exceededMaxRetry s = false /\ repairing s = 0%nat).
  assert (Hrepair : forall e x q, callback q = false ->
                      repair e x q = (q, x, [])).
  { intros e x q Hq. unfold repair. rewrite Hq. reflexivity. }
  assert (Hstep : forall a s s' evs, P s -> sysStep a s = Some (s', evs) ->
                    P s' /\ repairs evs = 0%nat).
  { clear Hrun. unfold P.
    intros a t0 t1 ev (Hcb & Hf & Hi & Hb & Hl & Hx & Hr) Hs.
    destruct a; simpl in Hs.
    - destruct (mode t0); try discriminate Hs.
      unfold pollStart in Hs. destruct (envStatus e) as [st|].
      + destruct (negb (st =? "OK")%string).
        * rewrite Hrepair in Hs by exact Hcb. injection Hs as <- <-.
          simpl. auto 10.
        * injection Hs as <- <-. simpl. auto 10.
      + injection Hs as <- <-. simpl. auto 10.
    - destruct (mode t0); try discriminate Hs.
      destruct (pollTick e (poller t0) (exceededMaxRetry t0))
        as [[q x] ev'] eqn:Et.
      injection Hs as <- <-. simpl. rewrite Hx in Et.
      tick_cases e Et;
        try (rewrite Hrepair in Et by (simpl; exact Hcb));
        cbn beta iota in Et; injection Et as <- <- <-; simpl;
        repeat split; auto.
    - destruct (pauseChan (poller t0)); try discriminate Hs.
      destruct (mode t0); try discriminate Hs; injection Hs as <- <-;
        simpl; auto 10.
    - destruct (mode t0); try discriminate Hs;
        destruct (stopChan (poller t0)); try discriminate Hs;
        injection Hs as <- <-; simpl; auto 10.
    - injection Hs as <- <-. simpl. unfold Pause.
      destruct (negb (paused (poller t0))); simpl; auto 10.
    - unfold Resume in Hs. destruct (paused (poller t0));
        injection Hs as <- <-; simpl; auto 10.
    - injection Hs as <- <-. simpl. auto 10.
    - injection Hs as <- <-. simpl. auto 10.
    - destruct (sleeping t0); try discriminate Hs.
      unfold recheckStatus in Hs. rewrite Hcb in Hs.
      destruct status as [st|];
        [destruct (negb (st =? "OK")%string)|]; injection Hs as <- <-;
        simpl; auto 10.
    - rewrite Hr in Hs. discriminate Hs. }
  assert (G : forall l s s' evs, P s -> sysRun l s = Some (s', evs) ->
                P s' /\ repairs evs = 0%nat).
  { clear Hrun. induction l as [|a acts' IH]; intros t0 t1 ev HP Hr;
      simpl in Hr.
    - injection Hr as <- <-. auto.
    - destruct (sysStep a t0) as [[t2 ev2]|] eqn:E1; [|discriminate].
      destruct (sysRun acts' t2) as [[t3 ev3]|] eqn:E2; [|discriminate].
      injection Hr as <- <-.
      destruct (Hstep _ _ _ _ HP E1) as [HP2 R1].
      destruct (IH _ _ _ HP2 E2) as [HP3 R2].
      split; [exact HP3|]. rewrite repairs_app, R1, R2. reflexivity. }
  destruct (G acts (initSys p0) s evs) as [HP R]; [|exact Hrun|].
  - unfold P. simpl. repeat split.
  - destruct HP as (Hcb & Hf & Hi & Hb & Hl & Hx & Hr).
    unfold untouched. repeat split; auto.
    rewrite Hi, Hb. reflexivity.
Qed.

Lemma no_callback_no_repair_witness :
  let p0 := NewWakeEventPoller "touch" false None in
  let broke := mkEnv (Some "Error"%string) (Some 0%N) 10 true 10 in
  exists s evs,
    sysRun [ActStart broke; ActTicker broke] (initSys p0) = Some (s, evs) /\
    repairs evs = 0%nat.
Proof.
  intros p0 broke.
  destruct (sysRun [ActStart broke; ActTicker broke] (initSys p0))
    as [[s evs]|] eqn:E; [|vm_compute in E; discriminate E].
  exists s, evs. split; [reflexivity|].
  exact (proj1 (no_callback_no_repair "touch" None _ s evs E)).
Defined.

End PollerExtra.

(** ** Idle time *)

Module IdleTimeFacts.
Import GoFacts IdleTime WakeEventPoller WakeEventPollerFacts.

(** [GetIdleTime] across the wrap of the 32-bit tick: with the tick count
    [T] now and the tick [L] of the last input, of which the system hands
    out the low 32 bits, the result is [T - L] modulo 2^32; so it is the
    true idle time as long as that is below 2^32 ms (49.7 days), also when
    the 32-bit tick has wrapped in between, and it starts again from 0
    after 2^32 ms.  A zero return value of the system call is the error. *)
Theorem GetIdleTime_across_wrap (ret T L : Z) :
  0 <= L <= T ->
  (ret = 0 -> GetIdleTime (mkIdleEnv ret (uint32 L) T) = None) /\
  (ret <> 0 ->
     GetIdleTime (mkIdleEnv ret (uint32 L) T)
       = Some (Z.to_N ((T - L) mod 2 ^ 32)) /\
     (T - L < 2 ^ 32 ->
        GetIdleTime (mkIdleEnv ret (uint32 L) T) = Some (Z.to_N (T - L))) /\
     (T - L = 2 ^ 32 ->
        GetIdleTime (mkIdleEnv ret (uint32 L) T) = Some 0%N)).
Proof.
  intros HL. unfold GetIdleTime, uint32. simpl. split.
  - intros ->. reflexivity.
  - intros Hr. apply Z.eqb_neq in Hr. rewrite Hr.
    rewrite <- Zminus_mod. split; [reflexivity|]. split.
    + intros Hs. rewrite Z.mod_small by lia. reflexivity.
    + intros ->. reflexivity.
Qed.

Lemma GetIdleTime_across_wrap_witness :
  GetIdleTime (mkIdleEnv 1 (uint32 (2 ^ 32 - 1000)) (2 ^ 32 + 4000))
    = Some 5000%N.
Proof.
  destruct (GetIdleTime_across_wrap 1 (2 ^ 32 + 4000) (2 ^ 32 - 1000)
              ltac:(split; discriminate)) as [_ H].
  destruct (H ltac:(discriminate)) as (_ & G & _).
  exact (G eq_refl).
Defined.

Lemma minutes_of_ms (ms : N) (m : Z) :
  0 < m -> (m <= Z.of_N (ms / 1000 / 60) <-> m * 60000 <= Z.of_N ms).
Proof.
  intros Hm. rewrite N.Div0.div_div. change (1000 * 60)%N with 60000%N.
  rewrite N2Z.inj_div. change (Z.of_N 60000) with 60000.
  pose proof (N2Z.is_nonneg ms).
  split; intros H1.
  - pose proof (Z.mul_div_le (Z.of_N ms) 60000 ltac:(lia)). nia.
  - apply Z.div_le_lower_bound; lia.
Qed.

(** The sleep heuristics on one reading of the idle time.
    [IsSystemLikelyAsleep] holds exactly when the reading succeeded and
    shows at least the given number of minutes (5 when the argument is not
    positive); [IsUserSessionLocked] exactly when it shows more than one
    minute.  The deferral test of the polling tick (idle time unknown or at
    least 300 seconds) is the default [IsSystemLikelyAsleep], except that
    the tick also defers when the reading failed. *)
Theorem sleep_heuristics (minIdleMinutes : Z) (idle : option N) :
  let m := if minIdleMinutes <=? 0 then 5 else minIdleMinutes in
  (IsSystemLikelyAsleep minIdleMinutes idle = true <->
     exists ms, idle = Some ms /\ m * 60000 <= Z.of_N ms) /\
  (IsUserSessionLocked idle = true <->
     exists ms, idle = Some ms /\ (60000 < ms)%N) /\
  ((idleSecOf idle <? 0) || (300 <=? idleSecOf idle) = true <->
     idle = None \/ IsSystemLikelyAsleep 0 idle = true) /\
  (IsSystemLikelyAsleep 0 idle = true -> IsUserSessionLocked idle = true) /\
  (idle = None ->
     IsSystemLikelyAsleep minIdleMinutes idle = false /\
     IsUserSessionLocked idle = false).
Proof.
  intros m.
  assert (Hm : 0 < m).
  { unfold m. destruct (Z.leb_spec minIdleMinutes 0); lia. }
  assert (A : IsSystemLikelyAsleep minIdleMinutes idle = true <->
              exists ms, idle = Some ms /\ m * 60000 <= Z.of_N ms).
  { unfold IsSystemLikelyAsleep. fold m. destruct idle as [ms|].
    - rewrite Z.leb_le, (minutes_of_ms ms m Hm). split.
      + intros H. exists ms. auto.
      + intros (ms' & E & H). injection E as <-. exact H.
    - split; [discriminate | intros (ms & E & _); discriminate E]. }
  assert (A0 : IsSystemLikelyAsleep 0 idle = true <->
               exists ms, idle = Some ms /\ (300000 <= ms)%N).
  { unfold IsSystemLikelyAsleep. simpl. destruct idle as [ms|].
    - rewrite Z.leb_le, (minutes_of_ms ms 5 ltac:(lia)). split.
      + intros H. exists ms. split; [reflexivity | lia].
      + intros (ms' & E & H). injection E as <-. lia.
    - split; [discriminate | intros (ms & E & _); discriminate E]. }
  split; [exact A|]. split; [|split; [|split]].
  - unfold IsUserSessionLocked. destruct idle as [ms|].
    + change (60 * 1000)%N with 60000%N. rewrite N.ltb_lt. split.
      * intros H. exists ms. auto.
      * intros (ms' & E & H). injection E as <-. exact H.
    + split; [discriminate | intros (ms & E & _); discriminate E].
  - rewrite A0. split.
    + intros H. destruct idle as [ms|]; [|left; reflexivity].
      right. exists ms. split; [reflexivity|].
      apply orb_true_iff in H. destruct H as [H | H].
      * apply Z.ltb_lt in H. pose proof (idleSecOf_nonneg ms). lia.
      * apply Z.leb_le in H. pose proof (idleSecOf_lt ms 300) as G.
        change (Z.of_N 300) with 300 in G.
        destruct (N.lt_ge_cases ms 300000) as [L | L]; [|exact L].
        change (1000 * 300)%N with 300000%N in G. apply G in L. lia.
    + intros H. apply deferredIdle_gate. exact H.
  - rewrite A0. intros (ms & -> & H). simpl.
    apply N.ltb_lt. lia.
  - intros ->. split; reflexivity.
Qed.

Lemma sleep_heuristics_witness :
  IsSystemLikelyAsleep 0 (Some 300000%N) = true /\
  IsUserSessionLocked (Some 300000%N) = true.
Proof.
  destruct (sleep_heuristics 0 (Some 300000%N)) as (A & _ & _ & B & _).
  assert (H : IsSystemLikelyAsleep 0 (Some 300000%N) = true).
  { apply A. exists 300000%N. split; [reflexivity | discriminate]. }
  split; [exact H | exact (B H)].
Defined.

End IdleTimeFacts.

(** ** Power settings and runs of the monitor *)

Module PowerSettingsFacts.
Import GoInt GoTime GoFacts PowerMonitor PowerMonitorFacts PowerSettings.






(** The GUIDs registered for notification are exactly those the monitor
    acts on; each has a name; a setting change for any other GUID (the
    away-mode GUID included) leaves the monitor as it is and reports no
    resume. *)
Theorem registered_GUIDs_are_monitored (g : GUID) :
  (In g GetPowerSettingGUIDs <-> monitoredGUID g = true) /\
  (In g GetPowerSettingGUIDs -> GetPowerSettingName g <> "UNKNOWN"%string) /\
  (~ In g GetPowerSettingGUIDs ->
     forall now len state pm,
       HandlePowerBroadcast now PBT_POWERSETTINGCHANGE
         (Some (mkPBS g len state)) pm = (pm, false, [])) /\
  monitoredGUID GUID_SYSTEM_AWAYMODE = false.
Proof.
  assert (A : In g GetPowerSettingGUIDs <-> monitoredGUID g = true).
  { rewrite monitoredGUID_iff. unfold GetPowerSettingGUIDs. simpl.
    split; intros H; intuition congruence. }
  split; [exact A|]. split; [|split].
  - intros H. apply A in H. unfold monitoredGUID in H.
    unfold GetPowerSettingName.
    destruct (GUID_eqb g GUID_CONSOLE_DISPLAY_STATE); [discriminate|].
    simpl in H. rewrite H. discriminate.
  - intros H now len state pm.
    assert (F : monitoredGUID g = false).
    { apply not_true_is_false. intros E. apply H, A, E. }
    unfold HandlePowerBroadcast. simpl. unfold monitoredGUID in F.
    rewrite F. reflexivity.
  - reflexivity.
Qed.

Lemma registered_GUIDs_are_monitored_witness :
  HandlePowerBroadcast 0 PBT_POWERSETTINGCHANGE
    (Some (mkPBS GUID_SYSTEM_AWAYMODE 4 DisplayStateOn))
    (SimulateDisplayOff (NewPowerMonitor true))
  = (SimulateDisplayOff (NewPowerMonitor true), false, []).
Proof.
  destruct (registered_GUIDs_are_monitored GUID_SYSTEM_AWAYMODE)
    as (_ & _ & H & _).
  apply H. simpl. intros [F | [F | []]]; discriminate F.
Defined.

End PowerSettingsFacts.

(** ** Escaping for PowerShell *)

Module PowerShellFacts.
Import Ascii PowerShell.

Lemma append_assoc (a b c : string) :
  ((a ++ b) ++ c = a ++ (b ++ c))%string.
Proof. induction a as [|x a IH]; simpl; [reflexivity | rewrite IH; reflexivity]. Qed.










Lemma length_append (a b : string) :
  String.length (a ++ b) = (String.length a + String.length b)%nat.
Proof. induction a as [|x a IH]; simpl; [reflexivity | rewrite IH; reflexivity]. Qed.



(** One replacement pass leaves alone a text that has no byte [old]. *)
Lemma replaceByte_absent (old : ascii) (new s : string) :
  count old s = 0%nat -> replaceByte old new s = s.
Proof.
  induction s as [|c s IH]; simpl; [reflexivity|].
  destruct (Ascii.eqb c old); simpl; [discriminate|].
  intros H. rewrite IH by exact H. reflexivity.
Qed.

Lemma replaceByte_append (old : ascii) (new a b : string) :
  replaceByte old new (a ++ b)
    = (replaceByte old new a ++ replaceByte old new b)%string.
Proof.
  induction a as [|c a IH]; simpl; [reflexivity|].
  destruct (Ascii.eqb c old); rewrite IH; [|reflexivity].
  rewrite append_assoc. reflexivity.
Qed.

Lemma replaceByte_hit (old : ascii) (new : string) (c : ascii) (s : string) :
  Ascii.eqb c old = true ->
  replaceByte old new (String c s) = (new ++ replaceByte old new s)%string.
Proof. intros H. simpl. rewrite H. reflexivity. Qed.

Lemma replaceByte_miss (old : ascii) (new : string) (c : ascii) (s : string) :
  Ascii.eqb c old = false ->
  replaceByte old new (String c s) = String c (replaceByte old new s).
Proof. intros H. simpl. rewrite H. reflexivity. Qed.

(** The three passes of [escapeForPowerShell] do not interfere: together
    they replace each byte on its own, a quote by two quotes, a backtick by
    two backticks, a dollar by backtick-dollar, any other byte by itself.
    In particular the backtick put before a dollar is not doubled, and the
    result determines the input. *)
Theorem escapeForPowerShell_bytewise (s : string) :
  escapeForPowerShell s = escapeBytes s /\
  (forall u, escapeForPowerShell u = escapeForPowerShell s -> u = s) /\
  String.length (escapeForPowerShell s)
    = (String.length s + count quote s + count backtick s
       + count dollar s)%nat.
Proof.
  assert (A : forall s, escapeForPowerShell s = escapeBytes s).
  { clear. unfold escapeForPowerShell. induction s as [|c s IH];
      [reflexivity|].
    simpl escapeBytes. rewrite <- IH. unfold escapeByte.
    destruct (Ascii.eqb c quote) eqn:Eq.
    - rewrite (replaceByte_hit _ _ _ _ Eq), !replaceByte_append.
      reflexivity.
    - rewrite (replaceByte_miss _ "''" _ s Eq).
      destruct (Ascii.eqb c backtick) eqn:Eb.
      + rewrite (replaceByte_hit _ "``" _ _ Eb), replaceByte_append.
        reflexivity.
      + rewrite (replaceByte_miss _ "``" _ _ Eb).
        destruct (Ascii.eqb c dollar) eqn:Ed.
        * rewrite (replaceByte_hit _ "`$" _ _ Ed). reflexivity.
        * rewrite (replaceByte_miss _ "`$" _ _ Ed). reflexivity. }
  assert (B : forall s u, escapeBytes u = escapeBytes s -> u = s).
  { clear. induction s as [|c s IH]; intros [|d u] H; simpl in H.
    - reflexivity.
    - unfold escapeByte in H.
      destruct (Ascii.eqb d quote); [discriminate|].
      destruct (Ascii.eqb d backtick); [discriminate|].
      destruct (Ascii.eqb d dollar); discriminate.
    - unfold escapeByte in H.
      destruct (Ascii.eqb c quote); [discriminate|].
      destruct (Ascii.eqb c backtick); [discriminate|].
      destruct (Ascii.eqb c dollar); discriminate.
    - unfold escapeByte in H.
      destruct (Ascii.eqb c quote) eqn:Cq;
        [apply Ascii.eqb_eq in Cq; subst c|];
        [|destruct (Ascii.eqb c backtick) eqn:Cb;
           [apply Ascii.eqb_eq in Cb; subst c|];
           [|destruct (Ascii.eqb c dollar) eqn:Cd;
              [apply Ascii.eqb_eq in Cd; subst c|]]];
        (destruct (Ascii.eqb d quote) eqn:Dq;
           [apply Ascii.eqb_eq in Dq; subst d|];
           [|destruct (Ascii.eqb d backtick) eqn:Db;
              [apply Ascii.eqb_eq in Db; subst d|];
              [|destruct (Ascii.eqb d dollar) eqn:Dd;
                 [apply Ascii.eqb_eq in Dd; subst d|]]]);
        simpl in H; try discriminate H;
        try (injection H as H; f_equal; apply IH; exact H);
        try (injection H as H0 H; subst;
             try (rewrite Ascii.eqb_refl in *; discriminate);
             f_equal; apply IH; exact H). }
  split; [apply A|]. split.
  - intros u H. rewrite !A in H. apply B. exact H.
  - rewrite A. induction s as [|c s IH]; simpl; [reflexivity|].
    rewrite length_append, IH. unfold escapeByte.
    destruct (Ascii.eqb c quote) eqn:Eq.
    + apply Ascii.eqb_eq in Eq. subst c. simpl. lia.
    + destruct (Ascii.eqb c backtick) eqn:Eb.
      * apply Ascii.eqb_eq in Eb. subst c. simpl. lia.
      * destruct (Ascii.eqb c dollar) eqn:Ed; simpl; lia.
Qed.

End PowerShellFacts.

(** ** The service: power events *)

Module ServiceEventsFacts.
Import GoInt GoTime GoFacts Service ServiceEvents ServiceProps Notifier.

Lemma service_eta (s : gpdTouchService) :
  mkService (cfg s) (poller s) (powerMonitor s) = s.
Proof. destruct s; reflexivity. Qed.

(** With no event data, the monitor reports a resume only for the codes 7
    and 18, and is changed only by a resume it reports. *)
Lemma HandlePowerBroadcast_no_data (now : Time) (eventType : Z)
    (pm : PowerMonitor.t) :
  PowerMonitor.HandlePowerBroadcast now eventType None pm =
    if isResumeCode eventType then PowerMonitor.triggerResume now pm
    else (pm, false, []).
Proof.
  unfold PowerMonitor.HandlePowerBroadcast, isResumeCode.
  destruct (Z.eqb_spec eventType PowerMonitor.PBT_POWERSETTINGCHANGE)
    as [-> | _]; simpl.
  - reflexivity.
  - rewrite orb_comm. reflexivity.
Qed.

Section Events.

Variable EqualFold : string -> string -> bool.

Local Abbreviation handle := (handlePowerEvent EqualFold).

Local Ltac flow e c :=
  unfold handlePowerEvent, preOK, verifyOK, resetFine,
    DeviceManager.Reset, DeviceManager.Disable, DeviceManager.Enable;
  destruct (CheckBeforeReset c) eqn:Ecb;
  destruct (LogAllEvents c) eqn:Elog;
  destruct (envPre e) as [pre|];
  try destruct (EqualFold pre "OK") eqn:Epre;
  destruct (DeviceManager.envDisable (envReset e)) as [adm|];
  destruct (DeviceManager.envEnable (envReset e));
  destruct (envVerify e) as [fin|];
  try destruct (EqualFold fin "OK") eqn:Efin;
  simpl.

(** A resume event (code 7 or 18) reaching a service that has a power
    monitor.  When the monitor accepts it, [handlePowerEvent] returns at
    once: the monitor's callback is started and nothing else happens, no
    statistics, no wait, no device call.  When the monitor suppresses it
    (it comes less than [minInterval] after the last accepted one),
    [handlePowerEvent] goes on and runs the whole repair sequence itself,
    exactly as a service without monitor does. *)
Theorem resume_event_with_monitor (now : Time) (eventType : Z)
    (e : WakeEnv) (s : gpdTouchService) (pm : PowerMonitor.t) :
  powerMonitor s = Some pm ->
  isResumeCode eventType = true ->
  (PowerMonitor.minInterval pm <= Sub now (PowerMonitor.lastResumeTime pm) ->
     handle now eventType e s =
       mkOutcome
         (mkService (cfg s) (poller s)
            (Some (PowerMonitor.set_lastResumeTime now pm)))
         (if PowerMonitor.callback pm then [PowerMonitor.EvCallback] else [])
         false []) /\
  (Sub now (PowerMonitor.lastResumeTime pm) < PowerMonitor.minInterval pm ->
     service (handle now eventType e s) = s /\
     started (handle now eventType e s) = [] /\
     calls (handle now eventType e s)
       = calls (handle now eventType e
                  (mkService (cfg s) (poller s) None)) /\
     In EvRecordResume (calls (handle now eventType e s))).
Proof.
  intros Hpm Hcode. split.
  - intros Hacc. unfold handlePowerEvent. rewrite Hpm.
    rewrite HandlePowerBroadcast_no_data, Hcode.
    rewrite (PowerMonitorFacts.triggerResume_accepted now pm Hacc).
    reflexivity.
  - intros Hsup.
    assert (E : PowerMonitor.HandlePowerBroadcast now eventType None pm
                = (pm, false, [])).
    { rewrite HandlePowerBroadcast_no_data, Hcode.
      apply PowerMonitorFacts.triggerResume_suppressed. exact Hsup. }
    assert (Hoem : (eventType =? 10) = false).
    { unfold isResumeCode in Hcode. apply orb_true_iff in Hcode.
      destruct Hcode as [H | H]; apply Z.eqb_eq in H; subst; reflexivity. }
    unfold isResumeCode in Hcode.
    unfold handlePowerEvent. rewrite Hpm, E. simpl.
    rewrite <- Hpm, service_eta, Hcode, Hoem. simpl.
    unfold DeviceManager.Reset, DeviceManager.Disable, DeviceManager.Enable.
    destruct (CheckBeforeReset (cfg s));
      destruct (envPre e) as [pre|];
      try destruct (EqualFold pre "OK");
      destruct (DeviceManager.envDisable (envReset e));
      destruct (DeviceManager.envEnable (envReset e));
      destruct (envVerify e) as [fin|];
      try destruct (EqualFold fin "OK");
      simpl; repeat split; auto.
Qed.

(** An event that is neither a resume (7, 18) nor the OEM event (10) has
    no effect whatever: in particular a power-setting change (0x8013),
    which the service hands to the monitor without its data, never counts
    as a resume and never moves the remembered display state. *)
Theorem other_events_have_no_effect (now : Time) (eventType : Z)
    (e : WakeEnv) (s : gpdTouchService) :
  isResumeCode eventType = false ->
  eventType <> 10 ->
  handle now eventType e s = mkOutcome s [] false [].
Proof.
  intros Hcode Hoem. apply Z.eqb_neq in Hoem.
  unfold handlePowerEvent.
  destruct (powerMonitor s) as [pm|] eqn:Hpm.
  - rewrite HandlePowerBroadcast_no_data, Hcode. simpl.
    unfold isResumeCode in Hcode. rewrite Hcode, Hoem. simpl.
    rewrite <- Hpm, service_eta. reflexivity.
  - unfold isResumeCode in Hcode. rewrite Hcode, Hoem. reflexivity.
Qed.

(** The OEM event (10) touches nothing but the poller: it is resumed
    (which starts the recheck when it was paused with a repair pending) and
    its retry state is reset; no statistics are recorded and the device is
    not called.  Without a poller the event does nothing. *)
Theorem OEM_event_resumes_poller (now : Time) (e : WakeEnv)
    (s : gpdTouchService) :
  let out := handle now 10 e s in
  calls out = [] /\ started out = [] /\
  cfg (service out) = cfg s /\
  powerMonitor (service out) = powerMonitor s /\
  poller (service out)
    = match poller s with
      | Some p => Some (WakeEventPoller.ResetRetryState
                          (fst (WakeEventPoller.Resume p)))
      | None => None
      end /\
  recheck out
    = match poller s with
      | Some p => WakeEventPoller.paused p && WakeEventPoller.pendingRepair p
      | None => false
      end.
Proof.
  cbv zeta. unfold handlePowerEvent.
  assert (R : forall p, snd (WakeEventPoller.Resume p)
              = WakeEventPoller.paused p && WakeEventPoller.pendingRepair p).
  { intros p. unfold WakeEventPoller.Resume.
    destruct (WakeEventPoller.paused p); reflexivity. }
  destruct (powerMonitor s) as [pm|] eqn:Hpm.
  - rewrite HandlePowerBroadcast_no_data. simpl.
    destruct (poller s) as [p|] eqn:Ep; simpl.
    + specialize (R p). destruct (WakeEventPoller.Resume p) as [q b].
      simpl in *. repeat split; auto.
    + repeat split; auto.
  - simpl. destruct (poller s) as [p|] eqn:Ep; simpl.
    + specialize (R p). destruct (WakeEventPoller.Resume p) as [q b].
      simpl in *. repeat split; auto.
    + repeat split; auto.
Qed.

(** The repair sequence of [handlePowerEvent], as run for a resume event
    by a service without power monitor.  The service itself is unchanged.
    The reset is left out exactly when [CheckBeforeReset] is set and the
    status read beforehand is OK; without [CheckBeforeReset] the device is
    reset on every resume event, whatever its status.  A successful reset
    is recorded exactly when the reset was run, returned no error and the
    status read afterwards is OK.  Each run records one resume and one
    outcome (a skip or a reset). *)
Theorem resume_flow_outcome (now : Time) (eventType : Z) (e : WakeEnv)
    (s : gpdTouchService) :
  powerMonitor s = None ->
  isResumeCode eventType = true ->
  let out := handle now eventType e s in
  let skip := CheckBeforeReset (cfg s) && preOK EqualFold e in
  service out = s /\ started out = [] /\ recheck out = false /\
  (resets (calls out) = 0%nat <-> skip = true) /\
  (resets (calls out) = 1%nat <-> skip = false) /\
  (In EvRecordSkip (calls out) <-> skip = true) /\
  (In (EvRecordReset true) (calls out) <->
     negb skip && resetFine e && verifyOK EqualFold e = true) /\
  (In (EvRecordReset false) (calls out) <->
     negb skip && negb (resetFine e && verifyOK EqualFold e) = true) /\
  List.length (filter isResume (calls out)) = 1%nat /\
  List.length (filter isOutcomeStat (calls out)) = 1%nat.
Proof.
  intros Hpm Hcode.
  assert (Hoem : (eventType =? 10) = false).
  { unfold isResumeCode in Hcode. apply orb_true_iff in Hcode.
    destruct Hcode as [H | H]; apply Z.eqb_eq in H; subst; reflexivity. }
  unfold isResumeCode in Hcode. cbv zeta.
  unfold handlePowerEvent. rewrite Hpm. simpl. rewrite Hcode, Hoem. simpl.
  unfold preOK, verifyOK, resetFine, resets,
    DeviceManager.Reset, DeviceManager.Disable, DeviceManager.Enable.
  destruct (CheckBeforeReset (cfg s));
    destruct (LogAllEvents (cfg s));
    destruct (envPre e) as [pre|];
    try destruct (EqualFold pre "OK");
    destruct (DeviceManager.envDisable (envReset e));
    destruct (DeviceManager.envEnable (envReset e));
    destruct (envVerify e) as [fin|];
    try destruct (EqualFold fin "OK");
    simpl;
    repeat match goal with
           | |- _ /\ _ => split
           | |- _ <-> _ => split
           | |- _ -> _ => intro
           | H : _ \/ _ |- _ => destruct H
           | H : False |- _ => destruct H
           | H : _ = _ |- _ => discriminate H
           end;
    auto 12.
Qed.

(** With [CheckBeforeReset] set, the repair sequence of [handlePowerEvent]
    makes the same calls, in the same order, as [handlePolledWake], except
    for the notification of a skip (sent only by [handlePowerEvent], and
    only with [LogAllEvents]). *)
Theorem resume_flow_agrees_with_polled (now : Time) (eventType : Z)
    (e : WakeEnv) (s : gpdTouchService) :
  powerMonitor s = None ->
  isResumeCode eventType = true ->
  CheckBeforeReset (cfg s) = true ->
  let polled := snd (handlePolledWake EqualFold (base (cfg s)) e) in
  let evs := calls (handle now eventType e s) in
  filter (fun ev => negb (isNotify ev)) evs
    = filter (fun ev => negb (isNotify ev)) polled /\
  (LogAllEvents (cfg s) && preOK EqualFold e = false -> evs = polled).
Proof.
  intros Hpm Hcode Hcb.
  assert (Hoem : (eventType =? 10) = false).
  { unfold isResumeCode in Hcode. apply orb_true_iff in Hcode.
    destruct Hcode as [H | H]; apply Z.eqb_eq in H; subst; reflexivity. }
  unfold isResumeCode in Hcode. cbv zeta.
  unfold handlePowerEvent, handlePolledWake.
  rewrite Hpm. simpl. rewrite Hcode, Hoem, Hcb. simpl.
  unfold preOK,
    DeviceManager.Reset, DeviceManager.Disable, DeviceManager.Enable.
  destruct (LogAllEvents (cfg s));
    destruct (envPre e) as [pre|];
    try destruct (EqualFold pre "OK");
    destruct (DeviceManager.envDisable (envReset e));
    destruct (DeviceManager.envEnable (envReset e));
    destruct (envVerify e) as [fin|];
    try destruct (EqualFold fin "OK");
    simpl; split; try reflexivity; try discriminate; auto.
Qed.

(** What the user is told after [handlePolledWake]: nothing when
    notifications are off; otherwise one success toast when the repair was
    verified, one error toast when the reset failed or left the device in
    error, and nothing at all when the reset was skipped or when the
    status could not be read after the reset, although that last case is
    recorded and returned as a failure.  Each run records one resume and
    one outcome. *)
Theorem handlePolledWake_toasts (c : Config) (e : WakeEnv) :
  let evs := snd (handlePolledWake EqualFold c e) in
  toasts false evs = [] /\
  toasts true evs =
    (if preOK EqualFold e then []
     else if resetFine e then
       match envVerify e with
       | None => []
       | Some finalStatus =>
           if EqualFold finalStatus "OK" then [NotifySuccess]
           else [NotifyError]
       end
     else [NotifyError]) /\
  (fst (handlePolledWake EqualFold c e) = false /\ toasts true evs = [] <->
     preOK EqualFold e = false /\ resetFine e = true /\ envVerify e = None) /\
  List.length (filter isResume evs) = 1%nat /\
  List.length (filter isOutcomeStat evs) = 1%nat.
Proof.
  cbv zeta. unfold handlePolledWake, preOK, resetFine,
    DeviceManager.Reset, DeviceManager.Disable, DeviceManager.Enable.
  destruct (envPre e) as [pre|];
    try destruct (EqualFold pre "OK");
    destruct (DeviceManager.envDisable (envReset e));
    destruct (DeviceManager.envEnable (envReset e));
    destruct (envVerify e) as [fin|];
    try destruct (EqualFold fin "OK");
    simpl;
    repeat match goal with
           | |- _ /\ _ => split
           | |- _ <-> _ => split
           | |- _ -> _ => intro
           | H : _ /\ _ |- _ => destruct H
           | H : _ = _ |- _ => discriminate H
           end;
    auto.
Qed.

End Events.

Lemma resume_event_with_monitor_witness :
  let c := mkServiceConfig (mkConfig "ACPI\\GXTP7380" "touch" 2 3)
             true true 60 600 10 in
  let s := setup true (mkService c None None) in
  let t0 := 1790000000 * Second in
  let clean := DeviceManager.mkResetEnv (Some "Error"%string) None true
                 (Some "OK"%string) in
  let e := mkWakeEnv (Some "Error"%string) clean (Some "OK"%string) in
  let first := handlePowerEvent Service.asciiEqualFold t0 7 e s in
  let second := handlePowerEvent Service.asciiEqualFold (t0 + 2 * Second) 18 e
                  (service first) in
  (started first = [PowerMonitor.EvCallback] /\ calls first = []) /\
  (started second = [] /\ In (EvRecordReset true) (calls second)).
Proof.
  intros c s t0 clean e first second. split.
  - destruct (resume_event_with_monitor Service.asciiEqualFold t0 7 e s
                (PowerMonitor.NewPowerMonitor true) eq_refl eq_refl)
      as [H _].
    unfold first. rewrite (H ltac:(vm_compute; discriminate)).
    split; reflexivity.
  - destruct (resume_event_with_monitor Service.asciiEqualFold
                (t0 + 2 * Second) 18 e (service first)
                (PowerMonitor.set_lastResumeTime t0
                   (PowerMonitor.NewPowerMonitor true))
                ltac:(vm_compute; reflexivity) eq_refl)
      as [_ H].
    destruct (H ltac:(vm_compute; reflexivity)) as (_ & H1 & _).
    split; [exact H1|]. vm_compute. auto 10.
Defined.

Lemma other_events_have_no_effect_witness :
  let c := mkServiceConfig (mkConfig "ACPI\\GXTP7380" "touch" 2 3)
             true true 60 600 10 in
  let s := setup true (mkService c None None) in
  let e := mkWakeEnv None (DeviceManager.mkResetEnv None None true None)
             None in
  handlePowerEvent Service.asciiEqualFold 0 0x8013 e s
    = mkOutcome s [] false [].
Proof.
  intros c s e.
  exact (other_events_have_no_effect Service.asciiEqualFold 0 0x8013 e s
           eq_refl ltac:(discriminate)).
Defined.

Lemma resume_flow_outcome_witness :
  let c := mkServiceConfig (mkConfig "ACPI\\GXTP7380" "touch" 2 3)
             false true 60 600 10 in
  let s := mkService c None None in
  let clean := DeviceManager.mkResetEnv (Some "OK"%string) None true
                 (Some "OK"%string) in
  let healthy := mkWakeEnv (Some "OK"%string) clean (Some "OK"%string) in
  resets (calls (handlePowerEvent Service.asciiEqualFold 0 7 healthy s))
    = 1%nat.
Proof.
  intros c s clean healthy.
  destruct (resume_flow_outcome Service.asciiEqualFold 0 7 healthy s
              eq_refl eq_refl) as (_ & _ & _ & _ & H & _).
  apply H. reflexivity.
Defined.

Lemma resume_flow_agrees_with_polled_witness :
  let c := mkServiceConfig (mkConfig "ACPI\\GXTP7380" "touch" 2 3)
             true false 60 600 10 in
  let s := mkService c None None in
  let clean := DeviceManager.mkResetEnv (Some "Error"%string) None true
                 (Some "Error"%string) in
  let e := mkWakeEnv (Some "Error"%string) clean (Some "Error"%string) in
  calls (handlePowerEvent Service.asciiEqualFold 0 18 e s)
    = snd (handlePolledWake Service.asciiEqualFold (base c) e).
Proof.
  intros c s clean e.
  destruct (resume_flow_agrees_with_polled Service.asciiEqualFold 0 18 e s
              eq_refl eq_refl eq_refl) as [_ H].
  apply H. reflexivity.
Defined.

(** *** The start of polling *)

(** Whatever the configuration holds, the poller started by the service
    has a callback, positive retry intervals and a retry count that is not
    negative: a number of seconds that is not positive (or whose
    conversion to nanoseconds does not fit) gives the default of 60 s,
    resp. 10 min, a negative count the default of 10; a number of seconds
    from 1 to 9223372036 is taken as it is. *)
Theorem startPolling_normalises (s : gpdTouchService) :
  exists p,
    poller (startPolling s) = Some p /\
    WakeEventPoller.callback p = true /\
    0 < WakeEventPoller.baseRetryInterval p <= maxInt64 /\
    0 < WakeEventPoller.maxRetryInterval p <= maxInt64 /\
    WakeEventPoller.currentInterval p = WakeEventPoller.baseRetryInterval p /\
    0 <= WakeEventPoller.maxRetryCount p /\
    (0 <= MaxRetryCount (cfg s) ->
       WakeEventPoller.maxRetryCount p = MaxRetryCount (cfg s)) /\
    (MaxRetryCount (cfg s) < 0 -> WakeEventPoller.maxRetryCount p = 10) /\
    (0 < RetryIntervalSecs (cfg s) <= 9223372036 ->
       WakeEventPoller.baseRetryInterval p
         = RetryIntervalSecs (cfg s) * Second) /\
    (0 < MaxRetryInterval (cfg s) <= 9223372036 ->
       WakeEventPoller.maxRetryInterval p
         = MaxRetryInterval (cfg s) * Second) /\
    (- 9223372036 <= RetryIntervalSecs (cfg s) <= 0 ->
       WakeEventPoller.baseRetryInterval p = 60 * Second) /\
    (- 9223372036 <= MaxRetryInterval (cfg s) <= 0 ->
       WakeEventPoller.maxRetryInterval p = 10 * Minute).
Proof.
  unfold startPolling. eexists. split; [reflexivity|].
  unfold WakeEventPoller.NewWakeEventPoller. simpl.
  set (b := wrap64 (RetryIntervalSecs (cfg s) * Second)).
  set (m := wrap64 (MaxRetryInterval (cfg s) * Second)).
  pose proof (wrap64_range (RetryIntervalSecs (cfg s) * Second)) as Rb.
  pose proof (wrap64_range (MaxRetryInterval (cfg s) * Second)) as Rm.
  fold b in Rb. fold m in Rm. unfold inInt64, minInt64, maxInt64 in *.
  assert (Eb : forall x, inInt64 (x * Second) -> wrap64 (x * Second) = x * Second)
    by (intros; apply wrap64_small; assumption).
  unfold inInt64, minInt64, maxInt64, Second, Minute in *.
  split; [reflexivity|].
  destruct (Z.leb_spec b 0) as [Lb | Lb];
    destruct (Z.leb_spec m 0) as [Lm | Lm];
    destruct (Z.leb_spec 0 (MaxRetryCount (cfg s))) as [Lc | Lc];
    simpl;
    repeat match goal with
           | |- context [if ?x <? ?y then _ else _] =>
               destruct (Z.ltb_spec x y)
           end;
    repeat split; try lia;
    intros HH; unfold b, m in *;
    try (rewrite Eb in * by lia); try lia.
Qed.

(** The interval invariant in the units of the configuration: with
    [0 < RetryIntervalSecs <= MaxRetryInterval <= 4611686018] seconds, the
    current retry interval of the started poller stays between the two,
    over every run of the system. *)
Theorem startPolling_interval_bounds (s : gpdTouchService)
    (p0 : WakeEventPoller.t) (acts : list WakeEventPoller.Action)
    (st : WakeEventPoller.Sys) (evs : list WakeEventPoller.Event) :
  0 < RetryIntervalSecs (cfg s) ->
  RetryIntervalSecs (cfg s) <= MaxRetryInterval (cfg s) ->
  MaxRetryInterval (cfg s) <= 4611686018 ->
  poller (startPolling s) = Some p0 ->
  WakeEventPoller.sysRun acts (WakeEventPoller.initSys p0) = Some (st, evs) ->
  RetryIntervalSecs (cfg s) * Second
    <= WakeEventPoller.currentInterval (WakeEventPoller.poller st)
    <= MaxRetryInterval (cfg s) * Second.
Proof.
  intros H1 H2 H3 Hp Hrun.
  assert (Eb : wrap64 (RetryIntervalSecs (cfg s) * Second)
               = RetryIntervalSecs (cfg s) * Second)
    by (apply wrap64_small; unfold inInt64, minInt64, maxInt64, Second; lia).
  assert (Em : wrap64 (MaxRetryInterval (cfg s) * Second)
               = MaxRetryInterval (cfg s) * Second)
    by (apply wrap64_small; unfold inInt64, minInt64, maxInt64, Second; lia).
  unfold startPolling in Hp. rewrite Eb, Em in Hp.
  assert (Pb : 0 < RetryIntervalSecs (cfg s) * Second)
    by (unfold Second; lia).
  assert (Pm : 0 < MaxRetryInterval (cfg s) * Second)
    by (unfold Second; lia).
  assert (Le : RetryIntervalSecs (cfg s) * Second
               <= MaxRetryInterval (cfg s) * Second)
    by (unfold Second; lia).
  assert (Sm : MaxRetryInterval (cfg s) * Second < 2 ^ 62)
    by (unfold Second; lia).
  destruct (Z.leb_spec (RetryIntervalSecs (cfg s) * Second) 0); [lia|].
  destruct (Z.leb_spec (MaxRetryInterval (cfg s) * Second) 0); [lia|].
  injection Hp as <-.
  assert (Hinv : WakeEventPoller.intervalInv
                 (RetryIntervalSecs (cfg s) * Second)
                 (MaxRetryInterval (cfg s) * Second)
                 (WakeEventPoller.poller
                    (WakeEventPoller.initSys
                       (WakeEventPoller.NewWakeEventPoller
                          (DeviceInstanceID (base (cfg s))) true
                          (Some (WakeEventPoller.mkCfg
                                   (RetryIntervalSecs (cfg s) * Second)
                                   (MaxRetryInterval (cfg s) * Second)
                                   (MaxRetryCount (cfg s)))))))).
  { unfold WakeEventPoller.intervalInv, WakeEventPoller.NewWakeEventPoller.
    simpl.
    destruct (Z.ltb_spec 0 (RetryIntervalSecs (cfg s) * Second)); [|lia].
    destruct (Z.ltb_spec 0 (MaxRetryInterval (cfg s) * Second)); [|lia].
    repeat split; lia. }
  pose proof (WakeEventPollerFacts.Inv_sysRun _ _ Pb Le Sm acts _ st evs
                Hinv Hrun) as (_ & _ & Hc).
  exact Hc.
Qed.

Lemma startPolling_interval_bounds_witness :
  let c := mkServiceConfig (mkConfig "ACPI\\GXTP7380" "touch" 2 3)
             true true 30 300 3 in
  let e := WakeEventPoller.mkEnv (Some "Error"%string) (Some 1000%N)
             (1790000000 * Second) false (1790000001 * Second) in
  let acts := [WakeEventPoller.ActStart e; WakeEventPoller.ActTicker e;
               WakeEventPoller.ActTicker e] in
  exists p0 st evs,
    poller (startPolling (mkService c None None)) = Some p0 /\
    WakeEventPoller.sysRun acts (WakeEventPoller.initSys p0)
      = Some (st, evs) /\
    30 * Second
      <= WakeEventPoller.currentInterval (WakeEventPoller.poller st)
      <= 300 * Second.
Proof.
  intros c e acts.
  destruct (poller (startPolling (mkService c None None))) as [p0|] eqn:Hp;
    [|vm_compute in Hp; discriminate Hp].
  destruct (WakeEventPoller.sysRun acts (WakeEventPoller.initSys p0))
    as [[st evs]|] eqn:Hrun.
  - exists p0, st, evs. split; [reflexivity|]. split; [exact Hrun|].
    exact (startPolling_interval_bounds (mkService c None None) p0 acts st
             evs ltac:(simpl; lia) ltac:(simpl; lia) ltac:(simpl; lia)
             Hp Hrun).
  - exfalso. vm_compute in Hp. injection Hp as <-.
    vm_compute in Hrun. discriminate Hrun.
Defined.

End ServiceEventsFacts.

(** ** Statistics *)

Module StatsManagerFacts.
Import GoInt GoTime GoFacts StatsManager.

Section Manager.

Variable parseDate : string -> option Date.

Local Abbreviation rollover := (checkDateRollover parseDate).

Local Ltac rollover_cases c st :=
  unfold checkDateRollover;
  destruct (LastStatDate st =? EmptyString)%string;
  [ | destruct (parseDate (LastStatDate st)) as [lastDate|];
      [ destruct (negb (cToday c =? LastStatDate st)%string);
        [ destruct (negb (dWeek lastDate =? dWeek (cDate c))
                    || negb (dYear lastDate =? dYear (cDate c)));
          destruct (negb (dMonth lastDate =? dMonth (cDate c))
                    || negb (dYear lastDate =? dYear (cDate c))) | ] | ] ].

Lemma checkDateRollover_totals (c : Clock) (st : Stats) :
  TotalResumeEvents (rollover c st) = TotalResumeEvents st /\
  TotalResets (rollover c st) = TotalResets st /\
  TotalSkips (rollover c st) = TotalSkips st /\
  TotalFailures (rollover c st) = TotalFailures st.
Proof.
  rollover_cases c st; simpl; repeat split; reflexivity.
Qed.

Lemma checkDateRollover_nested (n : Z) (c : Clock) (st : Stats) :
  countersNested n st -> countersNested n (rollover c st).
Proof.
  unfold countersNested, nested. intros H.
  rollover_cases c st; simpl; lia.
Qed.

Lemma apply_nested (n : Z) (c : Clock) (op : Op) (st : Stats) :
  countersNested n st -> n < maxInt64 ->
  countersNested (n + 1) (apply parseDate c op st).
Proof.
  intros H Hn.
  pose proof (checkDateRollover_nested n c st H) as H1.
  unfold apply, RecordResume, RecordReset, RecordSkip.
  set (st1 := rollover c st) in *. clearbody st1.
  unfold countersNested, nested in *.
  assert (W : forall x, 0 <= x <= n -> wrap64 (x + 1) = x + 1).
  { intros x Hx. apply wrap64_small.
    unfold inInt64, minInt64, maxInt64 in *. lia. }
  destruct op as [|[|] result|]; simpl;
    rewrite ?W by lia; lia.
Qed.

Lemma apply_totals (n : Z) (c : Clock) (op : Op) (st : Stats) :
  countersNested n st -> n < maxInt64 ->
  TotalResumeEvents (apply parseDate c op st)
    = TotalResumeEvents st + (if isOpResume op then 1 else 0) /\
  TotalResets (apply parseDate c op st)
    = TotalResets st + (if isOpRepaired op then 1 else 0) /\
  TotalFailures (apply parseDate c op st)
    = TotalFailures st + (if isOpFailed op then 1 else 0) /\
  TotalSkips (apply parseDate c op st)
    = TotalSkips st + (if isOpSkip op then 1 else 0).
Proof.
  intros H Hn.
  pose proof (checkDateRollover_totals c st) as (T1 & T2 & T3 & T4).
  unfold apply, RecordResume, RecordReset, RecordSkip.
  set (st1 := rollover c st) in *. clearbody st1.
  unfold countersNested, nested in H.
  assert (W : forall x, 0 <= x <= n -> wrap64 (x + 1) = x + 1).
  { intros x Hx. apply wrap64_small.
    unfold inInt64, minInt64, maxInt64 in *. lia. }
  destruct op as [|[|] result|]; simpl;
    rewrite ?W by lia; lia.
Qed.

Lemma countOps_cons (f : Op -> bool) (c : Clock) (op : Op)
    (ops : list (Clock * Op)) :
  countOps f ((c, op) :: ops) = (if f op then 1 else 0) + countOps f ops.
Proof.
  unfold countOps. cbn [filter snd].
  destruct (f op); cbn [List.length]; lia.
Qed.

(** Over any sequence of records, on any days, the totals count the
    records exactly (resumes, successful resets, failed resets, skips),
    and the counters stay nested: the count of today is within those of
    the week and of the month, which are within the total.  The date
    rollover never loses a total.  (Counters are machine integers: the
    statement is for counts that fit.) *)
Theorem records_are_counted (n : Z) (ops : list (Clock * Op)) (st : Stats) :
  countersNested n st ->
  n + Z.of_nat (List.length ops) <= maxInt64 ->
  let st' := applyAll parseDate ops st in
  countersNested (n + Z.of_nat (List.length ops)) st' /\
  TotalResumeEvents st' = TotalResumeEvents st + countOps isOpResume ops /\
  TotalResets st' = TotalResets st + countOps isOpRepaired ops /\
  TotalFailures st' = TotalFailures st + countOps isOpFailed ops /\
  TotalSkips st' = TotalSkips st + countOps isOpSkip ops.
Proof.
  revert n st. induction ops as [|[c op] ops IH]; intros n st H Hn.
  - simpl. unfold countOps. simpl. rewrite !Z.add_0_r. auto.
  - cbv zeta. simpl applyAll.
    assert (Hlt : n < maxInt64) by (simpl List.length in Hn; lia).
    pose proof (apply_nested n c op st H Hlt) as H1.
    pose proof (apply_totals n c op st H Hlt) as (T1 & T2 & T3 & T4).
    assert (Hn1 : n + 1 + Z.of_nat (List.length ops) <= maxInt64)
      by (simpl List.length in Hn; lia).
    destruct (IH (n + 1) (apply parseDate c op st) H1 Hn1)
      as (I0 & I1 & I2 & I3 & I4).
    rewrite !countOps_cons.
    replace (n + Z.of_nat (List.length ((c, op) :: ops)))
      with (n + 1 + Z.of_nat (List.length ops))
      by (simpl List.length; lia).
    split; [exact I0|]. lia.
Qed.

Lemma stats_eta (st : Stats) :
  mkStats (TotalResumeEvents st) (TotalResets st) (TotalSkips st)
    (TotalFailures st) (TodayResets st) (TodaySkips st) (TodayFailures st)
    (WeekResets st) (WeekSkips st) (WeekFailures st) (MonthResets st)
    (MonthSkips st) (MonthFailures st) (LastResetTime st)
    (LastResumeTime st) (LastEventTime st) (LastResetResult st)
    (LastStatDate st) = st.
Proof. destruct st; reflexivity. Qed.

Lemma rollover_fixed (c : Clock) (st : Stats) :
  LastStatDate st = cToday c -> rollover c st = st.
Proof.
  intros E. unfold checkDateRollover. rewrite E.
  assert (S0 : set_LastStatDate (cToday c) st = st).
  { unfold set_LastStatDate. rewrite <- E. apply stats_eta. }
  destruct (cToday c =? EmptyString)%string; [exact S0|].
  destruct (parseDate (cToday c)); [|exact S0].
  rewrite String.eqb_refl. reflexivity.
Qed.

Lemma rollover_date (c : Clock) (st : Stats) :
  LastStatDate (rollover c st) = cToday c.
Proof.
  unfold checkDateRollover.
  destruct (LastStatDate st =? EmptyString)%string; [reflexivity|].
  destruct (parseDate (LastStatDate st)) as [lastDate|]; [|reflexivity].
  destruct (cToday c =? LastStatDate st)%string eqn:E; simpl.
  - apply String.eqb_eq in E. symmetry. exact E.
  - destruct (negb (dWeek lastDate =? dWeek (cDate c))
              || negb (dYear lastDate =? dYear (cDate c)));
      destruct (negb (dMonth lastDate =? dMonth (cDate c))
                || negb (dYear lastDate =? dYear (cDate c)));
      reflexivity.
Qed.

(** After any record or reading, the stored date is the day of the clock,
    so that anything done later on the same day finds no rollover: the
    counters are reset at most once a day, and [GetStats] on the day of a
    record returns exactly what the record left. *)
Theorem rollover_once_a_day (c c' : Clock) (op : Op) (st : Stats) :
  cToday c' = cToday c ->
  rollover c' (rollover c st) = rollover c st /\
  GetStats parseDate c' (apply parseDate c op st) = apply parseDate c op st /\
  GetStats parseDate c' (GetStats parseDate c st) = GetStats parseDate c st.
Proof.
  intros E.
  assert (F : forall x, LastStatDate x = cToday c -> rollover c' x = x).
  { intros x Hx. apply rollover_fixed. rewrite E. exact Hx. }
  pose proof (rollover_date c st) as D.
  split; [apply F; exact D|]. split; [|apply F; exact D].
  unfold GetStats. apply F.
  unfold apply, RecordResume, RecordReset, RecordSkip.
  destruct op as [|[|] result|]; simpl; exact D.
Qed.

End Manager.

Lemma records_are_counted_witness :
  let parse := fun s : string =>
    if (s =? "2026-03-01")%string then Some (mkDate 9 2026 3)
    else if (s =? "2026-03-02")%string then Some (mkDate 10 2026 3)
    else None in
  let sunday := mkClock 100 "2026-03-01" (mkDate 9 2026 3) in
  let monday := mkClock 200 "2026-03-02" (mkDate 10 2026 3) in
  let ops := [(sunday, OpResume); (sunday, OpReset true "ok"%string);
              (monday, OpResume); (monday, OpSkip);
              (monday, OpReset true "ok"%string)] in
  let st' := applyAll parse ops zeroStats in
  TotalResets st' = 2 /\ TotalSkips st' = 1 /\ TotalResumeEvents st' = 2 /\
  TodayResets st' = 1 /\ WeekResets st' = 1 /\ MonthResets st' = 2.
Proof.
  intros parse sunday monday ops st'.
  destruct (records_are_counted parse 0 ops zeroStats
              ltac:(unfold countersNested, nested; simpl; lia)
              ltac:(vm_compute; discriminate))
    as (_ & T1 & T2 & _ & T4).
  fold st' in T1, T2, T4.
  split; [exact T2|]. split; [exact T4|]. split; [exact T1|].
  vm_compute. auto.
Defined.

Lemma rollover_once_a_day_witness :
  let parse := fun s : string =>
    if (s =? "2026-03-01")%string then Some (mkDate 9 2026 3)
    else if (s =? "2026-03-02")%string then Some (mkDate 10 2026 3)
    else None in
  let sunday := mkClock 100 "2026-03-01" (mkDate 9 2026 3) in
  let monday := mkClock 200 "2026-03-02" (mkDate 10 2026 3) in
  let later := mkClock 300 "2026-03-02" (mkDate 10 2026 3) in
  let st := applyAll parse [(sunday, OpSkip)] zeroStats in
  GetStats parse later (apply parse monday OpSkip st)
    = apply parse monday OpSkip st.
Proof.
  intros parse sunday monday later st.
  exact (proj1 (proj2 (rollover_once_a_day parse monday later OpSkip st
                         eq_refl))).
Defined.

End StatsManagerFacts.

(** ** Configuration *)

Module ConfigFacts.
Import Config.

Lemma existsb_eqb (instanceID : string) (devices : list string) :
  existsb (fun id => (id =? instanceID)%string) devices = true
  <-> In instanceID devices.
Proof.
  rewrite existsb_exists. split.
  - intros (x & Hx & E). apply String.eqb_eq in E. subst. exact Hx.
  - intros H. exists instanceID. split; [exact H | apply String.eqb_refl].
Qed.

Lemma AddBackupDevice_In (instanceID x : string) (devices : list string) :
  In x (AddBackupDevice instanceID devices) <-> x = instanceID \/ In x devices.
Proof.
  unfold AddBackupDevice.
  destruct (existsb _ devices) eqn:E.
  - apply existsb_eqb in E. split; [auto|]. intros [-> | H]; assumption.
  - rewrite in_app_iff. simpl. split.
    + intros [H | [H | []]]; auto.
    + intros [H | H]; auto.
Qed.

Lemma AddBackupDevice_NoDup (instanceID : string) (devices : list string) :
  NoDup devices -> NoDup (AddBackupDevice instanceID devices).
Proof.
  intros H. unfold AddBackupDevice.
  destruct (existsb _ devices) eqn:E; [exact H|].
  assert (N : ~ In instanceID devices).
  { intros Hin. apply existsb_eqb in Hin. congruence. }
  apply NoDup_app; [exact H | repeat constructor; intros [] | ].
  intros a Ha [<- | []]. exact (N Ha).
Qed.

(** [AddBackupDevice] never makes a duplicate and never moves or drops an
    entry: the old list is a prefix of the new one, which holds the ID
    exactly once more if it was absent; adding an ID a second time changes
    nothing. *)
Theorem AddBackupDevice_is_set_insert (instanceID : string)
    (devices : list string) :
  (forall x, In x (AddBackupDevice instanceID devices)
             <-> x = instanceID \/ In x devices) /\
  (NoDup devices -> NoDup (AddBackupDevice instanceID devices)) /\
  (exists rest, AddBackupDevice instanceID devices = devices ++ rest) /\
  AddBackupDevice instanceID (AddBackupDevice instanceID devices)
    = AddBackupDevice instanceID devices.
Proof.
  split; [intros x; apply AddBackupDevice_In|].
  split; [apply AddBackupDevice_NoDup|].
  split.
  - unfold AddBackupDevice. destruct (existsb _ devices).
    + exists []. symmetry. apply app_nil_r.
    + exists [instanceID]. reflexivity.
  - assert (H : In instanceID (AddBackupDevice instanceID devices))
      by (apply AddBackupDevice_In; left; reflexivity).
    apply existsb_eqb in H.
    unfold AddBackupDevice at 1. rewrite H. reflexivity.
Qed.

Lemma addBackups_In (selected : string) (candidates : list string) :
  forall (devices : list string) (x : string),
    In x (addBackups selected candidates devices)
    <-> In x devices \/ (In x candidates /\ x <> selected).
Proof.
  induction candidates as [|id l IH]; intros devices x; simpl.
  - tauto.
  - unfold addBackups in *. simpl. rewrite IH.
    destruct (id =? selected)%string eqn:E; simpl.
    + apply String.eqb_eq in E. subst id. split.
      * intros [H | [H1 H2]]; auto.
      * intros [H | [[H1 | H1] H2]]; auto. congruence.
    + apply String.eqb_neq in E. rewrite AddBackupDevice_In. split.
      * intros [[-> | H] | [H1 H2]]; auto.
      * intros [H | [[<- | H1] H2]]; auto.
Qed.

Lemma addBackups_NoDup (selected : string) (candidates : list string) :
  forall devices : list string,
    NoDup devices -> NoDup (addBackups selected candidates devices).
Proof.
  induction candidates as [|id l IH]; intros devices H; simpl.
  - exact H.
  - unfold addBackups in *. simpl. apply IH.
    destruct (negb (id =? selected)%string); [|exact H].
    apply AddBackupDevice_NoDup. exact H.
Qed.

(** The backup devices written by the setup wizard are the candidates
    other than the selected device, each once, however often a candidate
    is listed: the selected device is never its own backup. *)
Theorem wizardBackups_are_the_others (selected : string)
    (candidates : list string) :
  NoDup (wizardBackups selected candidates) /\
  ~ In selected (wizardBackups selected candidates) /\
  (forall x, In x (wizardBackups selected candidates)
             <-> In x candidates /\ x <> selected).
Proof.
  unfold wizardBackups.
  assert (H : forall x, In x (addBackups selected candidates [])
                        <-> In x candidates /\ x <> selected).
  { intros x. rewrite addBackups_In. simpl. tauto. }
  split; [apply addBackups_NoDup; constructor|].
  split; [|exact H].
  intros Hin. apply H in Hin. destruct Hin as [_ Hne]. apply Hne. reflexivity.
Qed.

End ConfigFacts.
